(** * Sigmond build configuration: loader, validator and renderers

    A shallow embedding of the [SigmondConfig] class of [configure.py]
    (and of its older copy in [config_reader.py]), with the properties of
    the configuration resolver and of its renderers proved about it, and
    of the part of [setup.py] that chooses between that class and its
    fallback object.

    The Python objects the class handles are the trees a TOML parser
    returns: nested dicts and lists of scalars.  They are embedded as the
    type [Py.value] below, dicts as association lists in insertion order
    (the order [items()] iterates in), exceptions as the [Raise] branch of
    [Py.result].  [os.environ] is a finite map from names to strings. *)

From Stdlib Require Import ZArith String Ascii List Bool Lia.
From stdpp Require Import base option list strings gmap pretty.

#[local] Open Scope Z_scope.

(* ================================================================== *)
(** ** The fragment of Python the code runs on *)
(* ================================================================== *)

Module Py.

(** The exceptions the modelled code can raise. *)
Inductive exn : Type :=
| KeyError (key : string)
| TypeError
| AttributeError
| ValueError (msg : string).

Inductive result (A : Type) : Type :=
| Ok (a : A)
| Raise (e : exn).
Arguments Ok {A} a.
Arguments Raise {A} e.

#[global] Instance result_ret : MRet result := @Ok.
#[global] Instance result_bind : MBind result :=
  fun A B f m => match m with Ok a => f a | Raise e => Raise e end.
#[global] Instance result_fmap : FMap result :=
  fun A B f m => match m with Ok a => Ok (f a) | Raise e => Raise e end.

(** Python values.  [VOpaque] stands for the scalars the code never looks
    into (TOML floats and date-times): it keeps their truth value and the
    texts [str()] and [repr()] give.  A string is held as its UTF-8
    bytes. *)
#[warnings="-register-all"]
Inductive value : Type :=
| VNone
| VBool (b : bool)
| VInt (n : Z)
| VStr (s : string)
| VOpaque (truth : bool) (str_text repr_text : string)
| VList (l : list value)
| VDict (d : list (string * value)).

Definition dict : Type := list (string * value).

(** *** Characters and strings *)

Definition dquote : ascii := "034"%char.
Definition squote : ascii := "039"%char.
Definition backslash : ascii := "092"%char.
Definition newline : string := String "010"%char "".

Definition char_lower (c : ascii) : ascii :=
  let n := N_of_ascii c in
  if ((65 <=? n) && (n <=? 90))%N then ascii_of_N (n + 32) else c.


Fixpoint string_map (f : ascii -> ascii) (s : string) : string :=
  match s with
  | EmptyString => EmptyString
  | String c r => String (f c) (string_map f r)
  end.

(** *** Code points

    A Python string is a sequence of code points; the model holds its
    UTF-8 bytes.  Where the code works character by character the model
    goes through the bytes code point by code point. *)

(** A continuation byte of UTF-8: [10xxxxxx]. *)
Definition is_continuation (c : ascii) : bool :=
  let n := N_of_ascii c in ((128 <=? n) && (n <? 192))%N.

(** The code points of a string, each as its bytes: a byte and the
    continuation bytes that follow it. *)
Fixpoint code_points (s : string) : list string :=
  match s with
  | EmptyString => []
  | String c r =>
      match r with
      | String d _ =>
          if is_continuation d then
            match code_points r with
            | x :: xs => String c x :: xs
            | [] => [String c EmptyString]
            end
          else String c EmptyString :: code_points r
      | EmptyString => [String c EmptyString]
      end
  end.

(** The payload of the first byte of a code point of [len] bytes. *)
Definition lead_payload (len : nat) (n : N) : N :=
  match len with
  | 1%nat => n
  | 2%nat => n mod 32
  | 3%nat => n mod 16
  | _ => n mod 8
  end%N.

(** The number of a code point, from its bytes. *)
Definition code_point (x : string) : N :=
  match x with
  | EmptyString => 0%N
  | String c r =>
      fold_left (fun acc b => (acc * 64 + N_of_ascii b mod 64)%N)
        (list_ascii_of_string r) (lead_payload (String.length x) (N_of_ascii c))
  end.

Definition in_ranges (n : N) (ranges : list (N * N)) : bool :=
  existsb (fun r => ((r.1 <=? n) && (n <=? r.2))%N) ranges.

(** *** Case *)

(** [s.lower()], on the ASCII letters.  No character outside ASCII has a
    lower-case form that the code compares with (the Kelvin sign, which
    gives [k], is the one whose lower-case form is ASCII at all), so
    every test of [lower] against the tokens of the code is exact; its
    result as a text is exact on strings with no upper-case letter
    outside ASCII. *)
Definition lower (s : string) : string := string_map char_lower s.




(** *** Whitespace *)

(** The code points [isspace()] holds of. *)
Definition whitespace : list (N * N) :=
  [ (9, 13); (28, 32); (133, 133); (160, 160); (5760, 5760); (8192, 8202);
    (8232, 8233); (8239, 8239); (8287, 8287); (12288, 12288) ]%N.

Definition is_space (x : string) : bool := in_ranges (code_point x) whitespace.

Fixpoint drop_spaces (l : list string) : list string :=
  match l with
  | x :: r => if is_space x then drop_spaces r else l
  | [] => []
  end.

Definition lstrip (s : string) : string :=
  String.concat EmptyString (drop_spaces (code_points s)).

Definition rstrip (s : string) : string :=
  String.concat EmptyString (rev (drop_spaces (rev (code_points s)))).

(** [s.strip()]. *)
Definition strip (s : string) : string := rstrip (lstrip s).

(** [s.startswith(p)] and [s.endswith(p)]. *)
Definition startswith (p s : string) : bool := String.prefix p s.

(** [sub in s] on strings. *)
Fixpoint str_contains (sub s : string) : bool :=
  String.prefix sub s ||
  match s with
  | EmptyString => false
  | String _ r => str_contains sub r
  end.

(** [s[n:]]. *)
Fixpoint drop_chars (n : nat) (s : string) : string :=
  match n, s with
  | O, _ => s
  | S n', String _ r => drop_chars n' r
  | S _, EmptyString => EmptyString
  end.

(** [s.split(c, 1)] when [c in s]: the text before the first [c] and the
    text after it; [None] when [c] does not occur. *)
Fixpoint split_once (c : ascii) (s : string) : option (string * string) :=
  match s with
  | EmptyString => None
  | String a r =>
      if Ascii.eqb a c then Some (EmptyString, r)
      else match split_once c r with
           | Some (k, v) => Some (String a k, v)
           | None => None
           end
  end.

(** [s.replace(c, by)] for a one-character pattern. *)
Fixpoint replace_char (c : ascii) (by_ : string) (s : string) : string :=
  match s with
  | EmptyString => EmptyString
  | String a r =>
      (if Ascii.eqb a c then by_ else String a EmptyString)
        +:+ replace_char c by_ r
  end.

(** [sep.join(l)]. *)
Definition join (sep : string) (l : list string) : string :=
  String.concat sep l.

(** [x in (a, b, ...)] for strings. *)
Definition str_in (x : string) (l : list string) : bool :=
  existsb (String.eqb x) l.

(** *** [repr] and [str] *)

Definition hex_digit (n : N) : ascii :=
  if (n <? 10)%N then ascii_of_N (48 + n) else ascii_of_N (87 + n).

(** One ASCII character of [repr(s)], [q] being the quote chosen. *)
Definition repr_char (q : ascii) (c : ascii) : string :=
  let n := N_of_ascii c in
  if Ascii.eqb c backslash then String backslash (String backslash "")
  else if Ascii.eqb c q then String backslash (String q "")
  else if (n =? 9)%N then String backslash "t"
  else if (n =? 10)%N then String backslash "n"
  else if (n =? 13)%N then String backslash "r"
  else if ((n <? 32) || (n =? 127))%N then
    String backslash
      (String "x" (String (hex_digit (n / 16)) (String (hex_digit (n mod 16)) "")))
  else String c "".

(** The code points outside ASCII that are not printable, which [repr]
    escapes: the table of Unicode 14.0, the one of CPython 3.11. *)
Definition nonprintable : list (N * N) :=
  [(128, 160); (173, 173); (888, 889); (896, 899); (907, 907); (909, 909); (930, 930);
    (1328, 1328); (1367, 1368); (1419, 1420); (1424, 1424); (1480, 1487); (1515, 1518);
    (1525, 1541); (1564, 1564); (1757, 1757); (1806, 1807); (1867, 1868); (1970, 1983);
    (2043, 2044); (2094, 2095); (2111, 2111); (2140, 2141); (2143, 2143); (2155, 2159);
    (2191, 2199); (2274, 2274); (2436, 2436); (2445, 2446); (2449, 2450); (2473, 2473);
    (2481, 2481); (2483, 2485); (2490, 2491); (2501, 2502); (2505, 2506); (2511, 2518);
    (2520, 2523); (2526, 2526); (2532, 2533); (2559, 2560); (2564, 2564); (2571, 2574);
    (2577, 2578); (2601, 2601); (2609, 2609); (2612, 2612); (2615, 2615); (2618, 2619);
    (2621, 2621); (2627, 2630); (2633, 2634); (2638, 2640); (2642, 2648); (2653, 2653);
    (2655, 2661); (2679, 2688); (2692, 2692); (2702, 2702); (2706, 2706); (2729, 2729);
    (2737, 2737); (2740, 2740); (2746, 2747); (2758, 2758); (2762, 2762); (2766, 2767);
    (2769, 2783); (2788, 2789); (2802, 2808); (2816, 2816); (2820, 2820); (2829, 2830);
    (2833, 2834); (2857, 2857); (2865, 2865); (2868, 2868); (2874, 2875); (2885, 2886);
    (2889, 2890); (2894, 2900); (2904, 2907); (2910, 2910); (2916, 2917); (2936, 2945);
    (2948, 2948); (2955, 2957); (2961, 2961); (2966, 2968); (2971, 2971); (2973, 2973);
    (2976, 2978); (2981, 2983); (2987, 2989); (3002, 3005); (3011, 3013); (3017, 3017);
    (3022, 3023); (3025, 3030); (3032, 3045); (3067, 3071); (3085, 3085); (3089, 3089);
    (3113, 3113); (3130, 3131); (3141, 3141); (3145, 3145); (3150, 3156); (3159, 3159);
    (3163, 3164); (3166, 3167); (3172, 3173); (3184, 3190); (3213, 3213); (3217, 3217);
    (3241, 3241); (3252, 3252); (3258, 3259); (3269, 3269); (3273, 3273); (3278, 3284);
    (3287, 3292); (3295, 3295); (3300, 3301); (3312, 3312); (3315, 3327); (3341, 3341);
    (3345, 3345); (3397, 3397); (3401, 3401); (3408, 3411); (3428, 3429); (3456, 3456);
    (3460, 3460); (3479, 3481); (3506, 3506); (3516, 3516); (3518, 3519); (3527, 3529);
    (3531, 3534); (3541, 3541); (3543, 3543); (3552, 3557); (3568, 3569); (3573, 3584);
    (3643, 3646); (3676, 3712); (3715, 3715); (3717, 3717); (3723, 3723); (3748, 3748);
    (3750, 3750); (3774, 3775); (3781, 3781); (3783, 3783); (3790, 3791); (3802, 3803);
    (3808, 3839); (3912, 3912); (3949, 3952); (3992, 3992); (4029, 4029); (4045, 4045);
    (4059, 4095); (4294, 4294); (4296, 4300); (4302, 4303); (4681, 4681); (4686, 4687);
    (4695, 4695); (4697, 4697); (4702, 4703); (4745, 4745); (4750, 4751); (4785, 4785);
    (4790, 4791); (4799, 4799); (4801, 4801); (4806, 4807); (4823, 4823); (4881, 4881);
    (4886, 4887); (4955, 4956); (4989, 4991); (5018, 5023); (5110, 5111); (5118, 5119);
    (5760, 5760); (5789, 5791); (5881, 5887); (5910, 5918); (5943, 5951); (5972, 5983);
    (5997, 5997); (6001, 6001); (6004, 6015); (6110, 6111); (6122, 6127); (6138, 6143);
    (6158, 6158); (6170, 6175); (6265, 6271); (6315, 6319); (6390, 6399); (6431, 6431);
    (6444, 6447); (6460, 6463); (6465, 6467); (6510, 6511); (6517, 6527); (6572, 6575);
    (6602, 6607); (6619, 6621); (6684, 6685); (6751, 6751); (6781, 6782); (6794, 6799);
    (6810, 6815); (6830, 6831); (6863, 6911); (6989, 6991); (7039, 7039); (7156, 7163);
    (7224, 7226); (7242, 7244); (7305, 7311); (7355, 7356); (7368, 7375); (7419, 7423);
    (7958, 7959); (7966, 7967); (8006, 8007); (8014, 8015); (8024, 8024); (8026, 8026);
    (8028, 8028); (8030, 8030); (8062, 8063); (8117, 8117); (8133, 8133); (8148, 8149);
    (8156, 8156); (8176, 8177); (8181, 8181); (8191, 8207); (8232, 8239); (8287, 8303);
    (8306, 8307); (8335, 8335); (8349, 8351); (8385, 8399); (8433, 8447); (8588, 8591);
    (9255, 9279); (9291, 9311); (11124, 11125); (11158, 11158); (11508, 11512); (11558, 11558);
    (11560, 11564); (11566, 11567); (11624, 11630); (11633, 11646); (11671, 11679);
    (11687, 11687); (11695, 11695); (11703, 11703); (11711, 11711); (11719, 11719);
    (11727, 11727); (11735, 11735); (11743, 11743); (11870, 11903); (11930, 11930);
    (12020, 12031); (12246, 12271); (12284, 12288); (12352, 12352); (12439, 12440);
    (12544, 12548); (12592, 12592); (12687, 12687); (12772, 12783); (12831, 12831);
    (42125, 42127); (42183, 42191); (42540, 42559); (42744, 42751); (42955, 42959);
    (42962, 42962); (42964, 42964); (42970, 42993); (43053, 43055); (43066, 43071);
    (43128, 43135); (43206, 43213); (43226, 43231); (43348, 43358); (43389, 43391);
    (43470, 43470); (43482, 43485); (43519, 43519); (43575, 43583); (43598, 43599);
    (43610, 43611); (43715, 43738); (43767, 43776); (43783, 43784); (43791, 43792);
    (43799, 43807); (43815, 43815); (43823, 43823); (43884, 43887); (44014, 44015);
    (44026, 44031); (55204, 55215); (55239, 55242); (55292, 63743); (64110, 64111);
    (64218, 64255); (64263, 64274); (64280, 64284); (64311, 64311); (64317, 64317);
    (64319, 64319); (64322, 64322); (64325, 64325); (64451, 64466); (64912, 64913);
    (64968, 64974); (64976, 65007); (65050, 65055); (65107, 65107); (65127, 65127);
    (65132, 65135); (65141, 65141); (65277, 65280); (65471, 65473); (65480, 65481);
    (65488, 65489); (65496, 65497); (65501, 65503); (65511, 65511); (65519, 65531);
    (65534, 65535); (65548, 65548); (65575, 65575); (65595, 65595); (65598, 65598);
    (65614, 65615); (65630, 65663); (65787, 65791); (65795, 65798); (65844, 65846);
    (65935, 65935); (65949, 65951); (65953, 65999); (66046, 66175); (66205, 66207);
    (66257, 66271); (66300, 66303); (66340, 66348); (66379, 66383); (66427, 66431);
    (66462, 66462); (66500, 66503); (66518, 66559); (66718, 66719); (66730, 66735);
    (66772, 66775); (66812, 66815); (66856, 66863); (66916, 66926); (66939, 66939);
    (66955, 66955); (66963, 66963); (66966, 66966); (66978, 66978); (66994, 66994);
    (67002, 67002); (67005, 67071); (67383, 67391); (67414, 67423); (67432, 67455);
    (67462, 67462); (67505, 67505); (67515, 67583); (67590, 67591); (67593, 67593);
    (67638, 67638); (67641, 67643); (67645, 67646); (67670, 67670); (67743, 67750);
    (67760, 67807); (67827, 67827); (67830, 67834); (67868, 67870); (67898, 67902);
    (67904, 67967); (68024, 68027); (68048, 68049); (68100, 68100); (68103, 68107);
    (68116, 68116); (68120, 68120); (68150, 68151); (68155, 68158); (68169, 68175);
    (68185, 68191); (68256, 68287); (68327, 68330); (68343, 68351); (68406, 68408);
    (68438, 68439); (68467, 68471); (68498, 68504); (68509, 68520); (68528, 68607);
    (68681, 68735); (68787, 68799); (68851, 68857); (68904, 68911); (68922, 69215);
    (69247, 69247); (69290, 69290); (69294, 69295); (69298, 69375); (69416, 69423);
    (69466, 69487); (69514, 69551); (69580, 69599); (69623, 69631); (69710, 69713);
    (69750, 69758); (69821, 69821); (69827, 69839); (69865, 69871); (69882, 69887);
    (69941, 69941); (69960, 69967); (70007, 70015); (70112, 70112); (70133, 70143);
    (70162, 70162); (70207, 70271); (70279, 70279); (70281, 70281); (70286, 70286);
    (70302, 70302); (70314, 70319); (70379, 70383); (70394, 70399); (70404, 70404);
    (70413, 70414); (70417, 70418); (70441, 70441); (70449, 70449); (70452, 70452);
    (70458, 70458); (70469, 70470); (70473, 70474); (70478, 70479); (70481, 70486);
    (70488, 70492); (70500, 70501); (70509, 70511); (70517, 70655); (70748, 70748);
    (70754, 70783); (70856, 70863); (70874, 71039); (71094, 71095); (71134, 71167);
    (71237, 71247); (71258, 71263); (71277, 71295); (71354, 71359); (71370, 71423);
    (71451, 71452); (71468, 71471); (71495, 71679); (71740, 71839); (71923, 71934);
    (71943, 71944); (71946, 71947); (71956, 71956); (71959, 71959); (71990, 71990);
    (71993, 71994); (72007, 72015); (72026, 72095); (72104, 72105); (72152, 72153);
    (72165, 72191); (72264, 72271); (72355, 72367); (72441, 72703); (72713, 72713);
    (72759, 72759); (72774, 72783); (72813, 72815); (72848, 72849); (72872, 72872);
    (72887, 72959); (72967, 72967); (72970, 72970); (73015, 73017); (73019, 73019);
    (73022, 73022); (73032, 73039); (73050, 73055); (73062, 73062); (73065, 73065);
    (73103, 73103); (73106, 73106); (73113, 73119); (73130, 73439); (73465, 73647);
    (73649, 73663); (73714, 73726); (74650, 74751); (74863, 74863); (74869, 74879);
    (75076, 77711); (77811, 77823); (78895, 82943); (83527, 92159); (92729, 92735);
    (92767, 92767); (92778, 92781); (92863, 92863); (92874, 92879); (92910, 92911);
    (92918, 92927); (92998, 93007); (93018, 93018); (93026, 93026); (93048, 93052);
    (93072, 93759); (93851, 93951); (94027, 94030); (94088, 94094); (94112, 94175);
    (94181, 94191); (94194, 94207); (100344, 100351); (101590, 101631); (101641, 110575);
    (110580, 110580); (110588, 110588); (110591, 110591); (110883, 110927); (110931, 110947);
    (110952, 110959); (111356, 113663); (113771, 113775); (113789, 113791); (113801, 113807);
    (113818, 113819); (113824, 118527); (118574, 118575); (118599, 118607); (118724, 118783);
    (119030, 119039); (119079, 119080); (119155, 119162); (119275, 119295); (119366, 119519);
    (119540, 119551); (119639, 119647); (119673, 119807); (119893, 119893); (119965, 119965);
    (119968, 119969); (119971, 119972); (119975, 119976); (119981, 119981); (119994, 119994);
    (119996, 119996); (120004, 120004); (120070, 120070); (120075, 120076); (120085, 120085);
    (120093, 120093); (120122, 120122); (120127, 120127); (120133, 120133); (120135, 120137);
    (120145, 120145); (120486, 120487); (120780, 120781); (121484, 121498); (121504, 121504);
    (121520, 122623); (122655, 122879); (122887, 122887); (122905, 122906); (122914, 122914);
    (122917, 122917); (122923, 123135); (123181, 123183); (123198, 123199); (123210, 123213);
    (123216, 123535); (123567, 123583); (123642, 123646); (123648, 124895); (124903, 124903);
    (124908, 124908); (124911, 124911); (124927, 124927); (125125, 125126); (125143, 125183);
    (125260, 125263); (125274, 125277); (125280, 126064); (126133, 126208); (126270, 126463);
    (126468, 126468); (126496, 126496); (126499, 126499); (126501, 126502); (126504, 126504);
    (126515, 126515); (126520, 126520); (126522, 126522); (126524, 126529); (126531, 126534);
    (126536, 126536); (126538, 126538); (126540, 126540); (126544, 126544); (126547, 126547);
    (126549, 126550); (126552, 126552); (126554, 126554); (126556, 126556); (126558, 126558);
    (126560, 126560); (126563, 126563); (126565, 126566); (126571, 126571); (126579, 126579);
    (126584, 126584); (126589, 126589); (126591, 126591); (126602, 126602); (126620, 126624);
    (126628, 126628); (126634, 126634); (126652, 126703); (126706, 126975); (127020, 127023);
    (127124, 127135); (127151, 127152); (127168, 127168); (127184, 127184); (127222, 127231);
    (127406, 127461); (127491, 127503); (127548, 127551); (127561, 127567); (127570, 127583);
    (127590, 127743); (128728, 128732); (128749, 128751); (128765, 128767); (128884, 128895);
    (128985, 128991); (129004, 129007); (129009, 129023); (129036, 129039); (129096, 129103);
    (129114, 129119); (129160, 129167); (129198, 129199); (129202, 129279); (129620, 129631);
    (129646, 129647); (129653, 129655); (129661, 129663); (129671, 129679); (129709, 129711);
    (129723, 129727); (129734, 129743); (129754, 129759); (129768, 129775); (129783, 129791);
    (129939, 129939); (129995, 130031); (130042, 131071); (173792, 173823); (177977, 177983);
    (178206, 178207); (183970, 183983); (191457, 194559); (195102, 196607); (201547, 917759);
    (918000, 1114111) ]%N.

Fixpoint hex (digits : nat) (n : N) : string :=
  match digits with
  | O => EmptyString
  | S d => hex d (n / 16)%N +:+ String (hex_digit (n mod 16)%N) EmptyString
  end.

(** The escape of a code point that is not printable. *)
Definition escape (n : N) : string :=
  String backslash
    (if (n <? 256)%N then String "x" (hex 2 n)
     else if (n <? 65536)%N then String "u" (hex 4 n)
     else String "U" (hex 8 n)).

(** One code point of [repr(s)]. *)
Definition repr_code_point (q : ascii) (x : string) : string :=
  match x with
  | String c EmptyString => repr_char q c
  | _ => if in_ranges (code_point x) nonprintable then escape (code_point x) else x
  end.

Definition repr_chars (q : ascii) (s : string) : string :=
  String.concat EmptyString (map (repr_code_point q) (code_points s)).

(** [repr(s)] of a string: single quotes, unless the string has a single
    quote and no double quote. *)
Definition repr_str (s : string) : string :=
  let q :=
    if str_contains (String squote "") s && negb (str_contains (String dquote "") s)
    then dquote else squote in
  String q (repr_chars q s +:+ String q "").

Fixpoint py_repr (v : value) : string :=
  match v with
  | VNone => "None"
  | VBool b => if b then "True" else "False"
  | VInt n => pretty n
  | VStr s => repr_str s
  | VOpaque _ _ r => r
  | VList l => "[" +:+ join ", " (map py_repr l) +:+ "]"
  | VDict d =>
      "{" +:+ join ", "
        (map (fun kv => match kv with
                        | (k, x) => repr_str k +:+ ": " +:+ py_repr x
                        end) d)
      +:+ "}"
  end.

(** [str(v)], which is also what an f-string field [{v}] gives. *)
Definition py_str (v : value) : string :=
  match v with
  | VStr s => s
  | VOpaque _ s _ => s
  | _ => py_repr v
  end.

(** *** Truth values, comparisons, type tests *)

(** [bool(v)], the test of [if v:]. *)
Definition truthy (v : value) : bool :=
  match v with
  | VNone => false
  | VBool b => b
  | VInt n => negb (n =? 0)
  | VStr s => negb (String.eqb s "")
  | VOpaque t _ _ => t
  | VList l => match l with [] => false | _ => true end
  | VDict d => match d with [] => false | _ => true end
  end.

(** [v == s] for a string [s]. *)
Definition eq_str (v : value) (s : string) : bool :=
  match v with
  | VStr t => String.eqb t s
  | _ => false
  end.

(** [v in [s1, s2, ...]] for a list of strings. *)
Definition in_strs (v : value) (l : list string) : bool :=
  existsb (eq_str v) l.

(** *** Dicts *)

Fixpoint dict_lookup (k : string) (d : dict) : option value :=
  match d with
  | [] => None
  | (k', v) :: r => if String.eqb k k' then Some v else dict_lookup k r
  end.

(** [d[k] = v]: the value is replaced where the key stands, a new key goes
    to the end. *)
Fixpoint dict_set (k : string) (v : value) (d : dict) : dict :=
  match d with
  | [] => [(k, v)]
  | (k', v') :: r =>
      if String.eqb k k' then (k, v) :: r else (k', v') :: dict_set k v r
  end.

(** [d.update(e)]. *)
Definition dict_update (d e : dict) : dict :=
  fold_left (fun acc kv => dict_set kv.1 kv.2 acc) e d.

(** [v[k]] for a string key. *)
Definition getitem (v : value) (k : string) : result value :=
  match v with
  | VDict d =>
      match dict_lookup k d with
      | Some x => Ok x
      | None => Raise (KeyError k)
      end
  | _ => Raise TypeError
  end.

(** [v.get(k, dflt)]; [v.get(k)] is [get v k VNone]. *)
Definition get (v : value) (k : string) (dflt : value) : result value :=
  match v with
  | VDict d => Ok (default dflt (dict_lookup k d))
  | _ => Raise AttributeError
  end.

(** [v[k] = x] for a string key. *)
Definition setitem (v : value) (k : string) (x : value) : result value :=
  match v with
  | VDict d => Ok (VDict (dict_set k x d))
  | _ => Raise TypeError
  end.

(** [k in v] for a string [k]. *)
Definition contains (k : string) (v : value) : result bool :=
  match v with
  | VDict d => Ok (bool_decide (is_Some (dict_lookup k d)))
  | VStr s => Ok (str_contains k s)
  | VList l => Ok (existsb (fun x => eq_str x k) l)
  | _ => Raise TypeError
  end.

(** [v.lower()] and [v.strip()]: string methods. *)
Definition str_lower (v : value) : result string :=
  match v with
  | VStr s => Ok (lower s)
  | _ => Raise AttributeError
  end.

(** [l.remove(x)]: the first occurrence goes, [ValueError] when there is
    none. *)
Fixpoint list_remove (x : string) (l : list string) : result (list string) :=
  match l with
  | [] => Raise (ValueError "list.remove(x): x not in list")
  | y :: r =>
      if String.eqb x y then Ok r
      else r' ← list_remove x r; Ok (y :: r')
  end.

(** *** Iteration *)

(** [v.strip()], a string method. *)
Definition str_strip (v : value) : result string :=
  match v with
  | VStr s => Ok (strip s)
  | _ => Raise AttributeError
  end.

(** The characters of a string, each a string of its own. *)
Definition chars (s : string) : list value := map VStr (code_points s).

(** What [for x in v] goes through: the items of a list, the characters
    of a string, the keys of a dict; the other values are not iterable. *)
Definition iterate (v : value) : result (list value) :=
  match v with
  | VList l => Ok l
  | VStr s => Ok (chars s)
  | VDict d => Ok (map (fun kv => VStr kv.1) d)
  | _ => Raise TypeError
  end.

(** The strings of a list of values, [TypeError] at the first that is
    not one. *)
Fixpoint strings_of (l : list value) : result (list string) :=
  match l with
  | [] => Ok []
  | VStr s :: r => r' ← strings_of r; Ok (s :: r')
  | _ :: _ => Raise TypeError
  end.

(** [sep.join(v)]. *)
Definition join_value (sep : string) (v : value) : result string :=
  items ← iterate v;
  strs ← strings_of items;
  Ok (join sep strs).

End Py.
Export Py.

(* ================================================================== *)
(** ** The process environment and the file system *)
(* ================================================================== *)

Module Os.

(** What the code reads from outside the process and what it can change
    there.  [toml_load p] stands for opening [p] and running
    [tomllib.load] on it: [None] when either raises.  Paths are the
    strings the code builds them from. *)
Record world : Type := World {
  tomllib_available : bool;         (* the import at the top succeeded *)
  cwd : string;                     (* Path.cwd() *)
  home : string;                    (* Path.home() *)
  module_dir : string;              (* Path(__file__).parent *)
  cpu_count : option positive;      (* os.cpu_count(): None or a count *)
  path_exists : string -> bool;     (* os.path.exists / Path.exists *)
  fd_open : Z -> bool;              (* os.path.exists on a descriptor *)
  toml_load : string -> option dict;
  writable : string -> bool;        (* write_text to the path succeeds *)
  file_text : string -> option string
}.

(** [a / b] on paths. *)
Definition path_join (a b : string) : string := a +:+ "/" +:+ b.

(** [os.environ.get(name, '')] and the truth value of
    [os.environ.get(name)]. *)
Definition environ_get (environ : gmap string string) (name : string) : string :=
  default "" (environ !! name).

Definition nonempty (s : string) : bool := negb (String.eqb s "").

(** [os.path.exists(v)]: a string is a path, an integer a file
    descriptor, anything else a [TypeError]. *)
Definition os_path_exists (w : world) (v : value) : result bool :=
  match v with
  | VStr s => Ok (path_exists w s)
  | VInt n => Ok (fd_open w n)
  | VBool b => Ok (fd_open w (if b then 1 else 0))
  | _ => Raise TypeError
  end.


End Os.
Export Os.

(* ================================================================== *)
(** ** What the two copies of the class share *)
(* ================================================================== *)

Module Common.

(** The object: its one attribute is the configuration tree. *)
Record SigmondConfig : Type := { config : dict }.

(** [self.config[section][key]] *)
Definition section_item (self : SigmondConfig) (section key : string) : result value :=
  s ← getitem (VDict (config self)) section; getitem s key.

(** [self.config['build'][key] = x] *)
Definition set_build (cfg : dict) (key : string) (x : value) : result dict :=
  b ← getitem (VDict cfg) "build";
  b' ← setitem b key x;
  Ok (dict_set "build" b' cfg).

(** [_load_config], given the defaults of the copy at hand. *)
Definition load_config_with (default_config : dict)
    (w : world) (environ : gmap string string) (config_path : option string) : dict :=
  if negb (tomllib_available w) then default_config
  else
    let config_file : option string :=
      if nonempty (default "" config_path) then config_path
      else
        let env_config := environ !! "SIGMOND_CONFIG" in
        if nonempty (default "" env_config) then env_config
        else
          let search_paths :=
            [ path_join (cwd w) "sigmond.toml";
              path_join (cwd w) ".sigmond.toml";
              path_join (path_join (home w) ".config") "sigmond.toml";
              path_join (module_dir w) "sigmond.toml" ] in
          List.find (path_exists w) search_paths in
    match config_file with
    | Some f =>
        if path_exists w f then
          match toml_load w f with
          | Some cfg => cfg
          | None => default_config
          end
        else default_config
    | None => default_config
    end.

(** [os.cpu_count() or 1] *)
Definition cpu_count_or_1 (w : world) : Z :=
  match cpu_count w with
  | Some n => Z.pos n
  | None => 1
  end.

Definition truthy_tokens : list string := ["1"; "true"; "yes"].

(** One of the three boolean overrides of [_apply_env_overrides]. *)
Definition env_flag (environ : gmap string string) (var key : string) (cfg : dict)
    : result dict :=
  if str_in (lower (environ_get environ var)) truthy_tokens
  then set_build cfg key (VBool true)
  else Ok cfg.

(** The three boolean overrides, which both copies apply. *)
Definition apply_env_flags (environ : gmap string string) (cfg : dict) : result dict :=
  cfg ← env_flag environ "SIGMOND_SKIP_QUERY" "skip_query" cfg;
  cfg ← env_flag environ "SIGMOND_SKIP_BATCH" "skip_batch" cfg;
  env_flag environ "SIGMOND_VERBOSE" "verbose" cfg.

(** *** [_validate_config] *)

Definition msg_precision (precision : value) : string :=
  "Invalid precision '" +:+ py_str precision +:+ "'. Must be 'double' or 'single'.".
Definition msg_numbers (numbers : value) : string :=
  "Invalid numbers type '" +:+ py_str numbers +:+ "'. Must be 'complex' or 'real'.".
Definition msg_file_format (file_format : value) : string :=
  "Invalid file format '" +:+ py_str file_format +:+ "'. Must be 'hdf5' or 'fstream'.".
Definition msg_build_jobs (build_jobs : value) : string :=
  "Invalid build_jobs '" +:+ py_str build_jobs +:+ "'. Must be a non-negative integer.".

(** [not isinstance(v, int) or v < 0]; a bool is an int. *)
Definition bad_build_jobs (v : value) : bool :=
  match v with
  | VInt n => n <? 0
  | VBool _ => false
  | _ => true
  end.

(** The warning of an enabled optional library with no path given. *)
Definition library_warning (self : SigmondConfig) (build_config : value)
    (enable_key lib include_key library_key msg : string) (warnings : list string)
    : result (list string) :=
  en ← get build_config enable_key (VBool false);
  if truthy en then
    libs ← get (VDict (config self)) "libraries" (VDict []);
    lib_config ← get libs lib (VDict []);
    inc ← get lib_config include_key VNone;
    if negb (truthy inc) then
      l ← get lib_config library_key VNone;
      if negb (truthy l) then Ok (warnings ++ [msg]) else Ok warnings
    else Ok warnings
  else Ok warnings.

Definition error_report (errors : list string) : string :=
  "Configuration validation failed:" +:+ newline
    +:+ join newline (map (fun error => "  - " +:+ error) errors).

(** [_validate_config], the two copies differing in the names of the
    library path keys.  The result is the lines printed. *)
Definition validate_config_with (include_key library_key : string)
    (self : SigmondConfig) : result (list string) :=
  let errors : list string := [] in
  let warnings : list string := [] in
  build_config ← get (VDict (config self)) "build" (VDict []);
  precision ← get build_config "precision" (VStr "double");
  let errors :=
    if negb (in_strs precision ["double"; "single"])
    then errors ++ [msg_precision precision] else errors in
  numbers ← get build_config "numbers" (VStr "complex");
  let errors :=
    if negb (in_strs numbers ["complex"; "real"])
    then errors ++ [msg_numbers numbers] else errors in
  file_format ← get build_config "default_file_format" (VStr "hdf5");
  let errors :=
    if negb (in_strs file_format ["hdf5"; "fstream"])
    then errors ++ [msg_file_format file_format] else errors in
  build_jobs ← get build_config "build_jobs" (VInt 0);
  let errors :=
    if bad_build_jobs build_jobs
    then errors ++ [msg_build_jobs build_jobs] else errors in
  warnings ← library_warning self build_config "enable_minuit" "minuit2"
    include_key library_key
    "Minuit2 is enabled but no library paths specified. Auto-detection will be attempted."
    warnings;
  warnings ← library_warning self build_config "enable_grace" "grace"
    include_key library_key
    "Grace is enabled but no library paths specified. Auto-detection will be attempted."
    warnings;
  skip_query ← get build_config "skip_query" (VBool false);
  skip_batch ← (if truthy skip_query
                then get build_config "skip_batch" (VBool false)
                else Ok skip_query);
  let warnings :=
    if truthy skip_batch
    then warnings ++ ["Both executables are disabled - only Python bindings will be built."]
    else warnings in
  match errors with
  | _ :: _ => Raise (ValueError (error_report errors))
  | [] =>
      verbose ← (match warnings with
                 | [] => Ok (VList [])
                 | _ => get build_config "verbose" (VBool false)
                 end);
      if truthy verbose
      then Ok ("Configuration warnings:" :: map (fun warning => "  - " +:+ warning) warnings)
      else Ok []
  end.

(** *** The accessors the two copies share *)



Definition _get_enabled_optional_libraries (self : SigmondConfig) : result (list string) :=
  let enabled : list string := [] in
  m ← section_item self "build" "enable_minuit";
  let enabled := if truthy m then enabled ++ ["minuit2"] else enabled in
  g ← section_item self "build" "enable_grace";
  Ok (if truthy g then enabled ++ ["grace"] else enabled).

End Common.
Export Common.

(* ================================================================== *)
(** ** [configure.py] *)
(* ================================================================== *)

Module Configure.

Definition default_ensembles_path : string :=
  "/Users/johnmeneghini/Documents/LatticeQCD/spectrums/software/sigmond/ensembles.xml".

Definition _default_config (w : world) : dict :=
  [ ("build", VDict
       [ ("skip_query", VBool false);
         ("skip_batch", VBool false);
         ("enable_testing", VBool true);
         ("verbose", VBool false);
         ("precision", VStr "double");
         ("numbers", VStr "complex");
         ("default_file_format", VStr "hdf5");
         ("enable_minuit", VBool false);
         ("enable_grace", VBool false);
         ("build_jobs", VInt (cpu_count_or_1 w));
         ("batch_install_dir", VStr "");
         ("query_install_dir", VStr "");
         ("extra_cmake_definitions", VList []);
         ("default_ensembles_file", VStr default_ensembles_path) ]);
    ("libraries", VDict
       [ ("hdf5", VDict [("root_dir", VStr "")]);
         ("blas", VDict [("library_path", VStr "")]);
         ("lapack", VDict [("library_path", VStr "")]);
         ("accelerate", VDict [("framework_dir", VStr "")]);
         ("minuit2", VDict [("include_dir", VStr ""); ("library_dir", VStr "")]);
         ("grace", VDict [("include_dir", VStr ""); ("library_dir", VStr "")]) ]);
    ("compiler", VDict
       [ ("c_compiler", VStr "");
         ("cxx_compiler", VStr "");
         ("cxx_flags", VList []) ]) ].

Definition _load_config (w : world) (environ : gmap string string)
    (config_path : option string) : dict :=
  load_config_with (_default_config w) w environ config_path.

Definition _apply_env_overrides (environ : gmap string string) (cfg : dict)
    : result dict :=
  cfg ← apply_env_flags environ cfg;
  if nonempty (environ_get environ "DEFAULTENSFILE")
  then set_build cfg "default_ensembles_file" (VStr (environ_get environ "DEFAULTENSFILE"))
  else Ok cfg.

Definition _validate_config (self : SigmondConfig) : result (list string) :=
  validate_config_with "include_dir" "library_dir" self.

(** [SigmondConfig(config_path)]: the object, or the exception raised. *)
Definition __init__ (w : world) (environ : gmap string string)
    (config_path : option string) : result SigmondConfig :=
  let cfg := _load_config w environ config_path in
  cfg ← _apply_env_overrides environ cfg;
  let self := {| config := cfg |} in
  _ ← _validate_config self;
  Ok self.

(** *** [get_cmake_args], block by block *)

(** Precision, numbers and default file format. *)
Definition args_core (self : SigmondConfig) (args : list string)
    : result (list string) :=
  p ← section_item self "build" "precision";
  precision ← str_lower p;
  let args := args ++ ["-DPRECISION=" +:+ precision] in
  n ← section_item self "build" "numbers";
  numbers ← str_lower n;
  let args := args ++ ["-DNUMBERS=" +:+ numbers] in
  f ← section_item self "build" "default_file_format";
  file_format ← str_lower f;
  Ok (args ++ ["-DDEFAULT_FILE_FORMAT=" +:+ file_format]).

(** [if self.config['build'][key]: args.append(flag)] *)
Definition flag_if (self : SigmondConfig) (key flag : string) (args : list string)
    : result (list string) :=
  v ← section_item self "build" key;
  Ok (if truthy v then args ++ [flag] else args).

(** Build control flags. *)
Definition args_build_control (self : SigmondConfig) (args : list string)
    : result (list string) :=
  args ← flag_if self "skip_query" "-DSKIP_SIGMOND_QUERY=ON" args;
  args ← flag_if self "skip_batch" "-DSKIP_SIGMOND_BATCH=ON" args;
  args ← flag_if self "enable_minuit" "-DENABLE_MINUIT=ON" args;
  flag_if self "enable_grace" "-DENABLE_GRACE=ON" args.

(** Verbose output. *)
Definition args_verbose (self : SigmondConfig) (args : list string)
    : result (list string) :=
  v ← section_item self "build" "verbose";
  Ok (if truthy v
      then (args ++ ["-DSIGMOND_VERBOSE=ON"]) ++ ["-DCMAKE_FIND_DEBUG_MODE=ON"]
      else args).

(** Enable testing. *)
Definition args_testing (self : SigmondConfig) (args : list string)
    : result (list string) :=
  v ← section_item self "build" "enable_testing";
  Ok (if truthy v
      then args ++ ["-DENABLE_TESTING=ON"]
      else args ++ ["-DENABLE_TESTING=OFF"]).

(** [if self.config['build'][key]:
       args.append(f'-D{name}={self.config["build"][key]}')] *)
Definition install_dir (self : SigmondConfig) (key name : string) (args : list string)
    : result (list string) :=
  v ← section_item self "build" key;
  if truthy v then
    v' ← section_item self "build" key;
    Ok (args ++ ["-D" +:+ name +:+ "=" +:+ py_str v'])
  else Ok args.

(** Custom install directories. *)
Definition args_install_dirs (self : SigmondConfig) (args : list string)
    : result (list string) :=
  args ← install_dir self "batch_install_dir" "SIGMOND_BATCH_INSTALL_DIR" args;
  install_dir self "query_install_dir" "SIGMOND_QUERY_INSTALL_DIR" args.

(** Default ensembles file. *)
Definition args_default_ens_file (self : SigmondConfig) (args : list string)
    : result (list string) :=
  build ← getitem (VDict (config self)) "build";
  default_ens_file ← get build "default_ensembles_file" (VStr "");
  Ok (if truthy default_ens_file
      then args ++ ["-DDEFAULTENSFILE=" +:+ py_str default_ens_file]
      else args).

(** The value of a key/value definition: [vv] in the source. *)
Definition coerce_value (v : value) : string :=
  match v with
  | VBool b => if b then "ON" else "OFF"
  | VList l => join ";" (map py_str l)
  | _ => py_str v
  end.

(** The loop over a list of extra definitions: a string entry is
    appended to [args] at once, the pairs of a dict entry go to [items]. *)
Fixpoint extra_defs_loop (entries : list value) (args : list string) (items : dict)
    : list string * dict :=
  match entries with
  | [] => (args, items)
  | VStr entry :: rest =>
      let s := strip entry in
      if startswith "-D" s
      then extra_defs_loop rest (args ++ [s]) items
      else extra_defs_loop rest (args ++ ["-D" +:+ s]) items
  | VDict d :: rest => extra_defs_loop rest args (items ++ d)
  | _ :: rest => extra_defs_loop rest args items
  end.

(** The loop over the dict-style entries. *)
Definition extra_items_loop (items : dict) (args : list string) : list string :=
  fold_left
    (fun args kv => args ++ ["-D" +:+ kv.1 +:+ "=" +:+ coerce_value kv.2])
    items args.

(** Extra user-provided definitions. *)
Definition args_extra_defs (self : SigmondConfig) (args : list string)
    : result (list string) :=
  build ← getitem (VDict (config self)) "build";
  extra_defs ← get build "extra_cmake_definitions" (VList []);
  let '(args, items) :=
    match extra_defs with
    | VDict d => (args, d)
    | VList l => extra_defs_loop l args []
    | _ => (args, [])
    end in
  Ok (extra_items_loop items args).

(** [if cfg.get(key): args.append(f'-D{name}={cfg[key]}')] *)
Definition path_def (cfg : value) (key name : string) (args : list string)
    : result (list string) :=
  x ← get cfg key VNone;
  if truthy x then
    v ← getitem cfg key;
    Ok (args ++ ["-D" +:+ name +:+ "=" +:+ py_str v])
  else Ok args.

(** [if lib in self.config['libraries']: ...] with one path key. *)
Definition library_path (self : SigmondConfig) (lib key name : string)
    (args : list string) : result (list string) :=
  libs ← getitem (VDict (config self)) "libraries";
  present ← contains lib libs;
  if (present : bool) then
    libs ← getitem (VDict (config self)) "libraries";
    lib_config ← getitem libs lib;
    path_def lib_config key name args
  else Ok args.

(** [if self.config['build'][enable] and lib in self.config['libraries']:
       ...] with the include and library directories. *)
Definition optional_library (self : SigmondConfig) (enable lib name : string)
    (args : list string) : result (list string) :=
  en ← section_item self "build" enable;
  present ← (if truthy en
             then libs ← getitem (VDict (config self)) "libraries"; contains lib libs
             else Ok false);
  if (present : bool) then
    libs ← getitem (VDict (config self)) "libraries";
    lib_config ← getitem libs lib;
    args ← path_def lib_config "include_dir" ("SIGMOND_" +:+ name +:+ "_INCLUDE_DIR") args;
    path_def lib_config "library_dir" ("SIGMOND_" +:+ name +:+ "_LIBRARY_DIR") args
  else Ok args.

(** HDF5, BLAS, LAPACK, the optional libraries, Accelerate. *)
Definition args_libraries (self : SigmondConfig) (args : list string)
    : result (list string) :=
  args ← library_path self "hdf5" "root_dir" "HDF5_DIR" args;
  args ← library_path self "blas" "library_path" "BLAS_LIBRARIES" args;
  args ← library_path self "lapack" "library_path" "LAPACK_LIBRARIES" args;
  args ← optional_library self "enable_minuit" "minuit2" "MINUIT2" args;
  args ← optional_library self "enable_grace" "grace" "GRACE" args;
  library_path self "accelerate" "framework_dir" "SIGMOND_ACCELERATE_FRAMEWORK_DIR" args.

(** C and C++ compilers. *)
Definition args_compilers (self : SigmondConfig) (args : list string)
    : result (list string) :=
  match dict_lookup "compiler" (config self) with
  | Some compiler_config =>
      args ← path_def compiler_config "c_compiler" "CMAKE_C_COMPILER" args;
      path_def compiler_config "cxx_compiler" "CMAKE_CXX_COMPILER" args
  | None => Ok args
  end.

Definition get_cmake_args (self : SigmondConfig) : result (list string) :=
  let args : list string := [] in
  args ← args_core self args;
  args ← args_build_control self args;
  args ← args_verbose self args;
  args ← args_testing self args;
  args ← args_install_dirs self args;
  args ← args_default_ens_file self args;
  args ← args_extra_defs self args;
  args ← args_libraries self args;
  args_compilers self args.

(** *** [write_cache] *)

Definition base_cache_vars : dict :=
  [ ("CMAKE_BUILD_TYPE", VStr "Release");
    ("CMAKE_EXPORT_COMPILE_COMMANDS", VStr "ON");
    ("CMAKE_CXX_STANDARD", VStr "17");
    ("CMAKE_CXX_STANDARD_REQUIRED", VStr "ON");
    ("CMAKE_CXX_EXTENSIONS", VStr "OFF") ].

Definition conda_cache_vars (conda_prefix : string) : dict :=
  [ ("CMAKE_PREFIX_PATH", VStr conda_prefix);
    ("CMAKE_BUILD_RPATH", VStr (conda_prefix +:+ "/lib"));
    ("HDF5_ROOT", VStr conda_prefix);
    ("PYTHON_EXECUTABLE", VStr (conda_prefix +:+ "/bin/python")) ].

(** The body of the loop folding the flag vector into the cache. *)
Definition fold_arg (cache_vars : dict) (arg : string) : dict :=
  if startswith "-D" arg then
    let body := drop_chars 2 arg in
    match split_once "=" body with
    | Some (k, v) => dict_set k (VStr v) cache_vars
    | None => dict_set body (VStr "ON") cache_vars
    end
  else cache_vars.

(** [c = self.config['compiler'].get(key, '');
     if c and os.path.exists(c): cache_vars[var] = c] *)
Definition compiler_var (w : world) (self : SigmondConfig) (key var : string)
    (cache_vars : dict) : result dict :=
  compiler ← getitem (VDict (config self)) "compiler";
  c ← get compiler key (VStr "");
  found ← (if truthy c then os_path_exists w c else Ok false);
  Ok (if (found : bool) then dict_set var c cache_vars else cache_vars).


Definition _q (s : string) : string :=
  replace_char dquote (String backslash (String dquote ""))
    (replace_char backslash "/" s).


(** The cache variables, up to the rendering. *)
Definition cache_vars_of (self : SigmondConfig) (w : world)
    (environ : gmap string string) (clear_cache : bool) : result dict :=
  let conda_prefix := environ_get environ "CONDA_PREFIX" in
  let cache_vars := base_cache_vars in
  let cache_vars :=
    if nonempty conda_prefix
    then dict_update cache_vars (conda_cache_vars conda_prefix)
    else cache_vars in
  args ← get_cmake_args self;
  let cache_vars := fold_left fold_arg args cache_vars in
  if clear_cache then
    Ok (dict_update cache_vars
          [("CMAKE_C_COMPILER", VStr ""); ("CMAKE_CXX_COMPILER", VStr "")])
  else
    cache_vars ← compiler_var w self "c_compiler" "CMAKE_C_COMPILER" cache_vars;
    compiler_var w self "cxx_compiler" "CMAKE_CXX_COMPILER" cache_vars.



(** *** The accessors *)

Definition should_skip_query (self : SigmondConfig) := section_item self "build" "skip_query".
Definition should_skip_batch (self : SigmondConfig) := section_item self "build" "skip_batch".
Definition is_verbose (self : SigmondConfig) := section_item self "build" "verbose".
Definition get_precision (self : SigmondConfig) := section_item self "build" "precision".
Definition get_numbers_type (self : SigmondConfig) := section_item self "build" "numbers".
Definition get_default_file_format (self : SigmondConfig) :=
  section_item self "build" "default_file_format".

(** *** [generate_cmake_presets]: its cache variables *)

(** The body of its loop over the flag vector.  The text after [-D]
    has an [=] when the argument has one, so the unpacking of the split
    cannot fail. *)
Definition preset_fold_arg (cache_vars : dict) (arg : string) : result dict :=
  if startswith "-D" arg && str_contains "=" arg then
    match split_once "=" (drop_chars 2 arg) with
    | Some (key, v) => Ok (dict_set key (VStr v) cache_vars)
    | None => Raise (ValueError "not enough values to unpack (expected 2, got 1)")
    end
  else if startswith "-D" arg then
    Ok (dict_set (drop_chars 2 arg) (VStr "ON") cache_vars)
  else Ok cache_vars.

Fixpoint preset_fold_args (args : list string) (cache_vars : dict) : result dict :=
  match args with
  | [] => Ok cache_vars
  | arg :: rest =>
      cache_vars ← preset_fold_arg cache_vars arg;
      preset_fold_args rest cache_vars
  end.

(** [c = self.config['compiler'][key];
     if c and c.strip() and os.path.exists(c): cache_vars[var] = c] *)
Definition preset_compiler_var (w : world) (self : SigmondConfig) (key var : string)
    (cache_vars : dict) : result dict :=
  c ← section_item self "compiler" key;
  found ← (if truthy c then
             s ← str_strip c;
             if nonempty s then os_path_exists w c else Ok false
           else Ok false);
  Ok (if (found : bool) then dict_set var c cache_vars else cache_vars).

(** The cache variables of the release preset. *)
Definition preset_cache_vars (self : SigmondConfig) (w : world)
    (environ : gmap string string) (clear_cache : bool) : result dict :=
  let conda_prefix := environ_get environ "CONDA_PREFIX" in
  let cache_vars := base_cache_vars in
  let cache_vars :=
    if nonempty conda_prefix
    then dict_update cache_vars (conda_cache_vars conda_prefix)
    else cache_vars in
  cmake_args ← get_cmake_args self;
  cache_vars ← preset_fold_args cmake_args cache_vars;
  if clear_cache then
    Ok (dict_update cache_vars
          [("CMAKE_C_COMPILER", VStr ""); ("CMAKE_CXX_COMPILER", VStr "")])
  else
    cache_vars ← preset_compiler_var w self "c_compiler" "CMAKE_C_COMPILER" cache_vars;
    preset_compiler_var w self "cxx_compiler" "CMAKE_CXX_COMPILER" cache_vars.

End Configure.

(* ================================================================== *)
(** ** [config_reader.py] *)
(* ================================================================== *)

Module ConfigReader.

Definition _default_config (w : world) : dict :=
  [ ("build", VDict
       [ ("skip_query", VBool false);
         ("skip_batch", VBool false);
         ("verbose", VBool false);
         ("precision", VStr "double");
         ("numbers", VStr "complex");
         ("default_file_format", VStr "hdf5");
         ("enable_minuit", VBool false);
         ("enable_grace", VBool false);
         ("build_jobs", VInt (cpu_count_or_1 w));
         ("batch_install_dir", VStr "");
         ("query_install_dir", VStr "") ]);
    ("libraries", VDict
       [ ("hdf5", VDict [("hdf5_root", VStr "")]);
         ("lapack", VDict [("include_dirs", VList []); ("library_dirs", VList [])]);
         ("accelerate", VDict [("framework_dirs", VList [])]);
         ("minuit2", VDict [("include_dirs", VList []); ("library_dirs", VList [])]);
         ("grace", VDict [("include_dirs", VList []); ("library_dirs", VList [])]) ]);
    ("compiler", VDict [ ("cxx_flags", VList []) ]) ].

Definition _load_config (w : world) (environ : gmap string string)
    (config_path : option string) : dict :=
  load_config_with (_default_config w) w environ config_path.

Definition _apply_env_overrides (environ : gmap string string) (cfg : dict)
    : result dict :=
  apply_env_flags environ cfg.

Definition _validate_config (self : SigmondConfig) : result (list string) :=
  validate_config_with "include_dirs" "library_dirs" self.

Definition __init__ (w : world) (environ : gmap string string)
    (config_path : option string) : result SigmondConfig :=
  let cfg := _load_config w environ config_path in
  cfg ← _apply_env_overrides environ cfg;
  let self := {| config := cfg |} in
  _ ← _validate_config self;
  Ok self.

(** [if self.config['build'][key]: definitions.remove(name)], the test
    negated when [negated]. *)
Definition remove_if (self : SigmondConfig) (key : string) (negated : bool)
    (name : string) (definitions : list string) : result (list string) :=
  v ← section_item self "build" key;
  if xorb negated (truthy v) then list_remove name definitions else Ok definitions.

Definition get_compiler_definitions (self : SigmondConfig) : result (list string) :=
  let definitions : list string := [] in
  p ← section_item self "build" "precision";
  precision ← str_lower p;
  let definitions :=
    if String.eqb precision "single"
    then definitions ++ ["SINGLEPRECISION"]
    else definitions ++ ["DOUBLEPRECISION"] in
  n ← section_item self "build" "numbers";
  numbers ← str_lower n;
  let definitions :=
    if String.eqb numbers "real"
    then definitions ++ ["REALNUMBERS"]
    else definitions ++ ["COMPLEXNUMBERS"] in
  f ← section_item self "build" "default_file_format";
  file_format ← str_lower f;
  let definitions :=
    if String.eqb file_format "fstream"
    then definitions ++ ["DEFAULT_FSTREAM"]
    else definitions ++ ["DEFAULT_HDF5"] in
  let definitions :=
    definitions ++ ["NOGRACE"; "NO_MINUIT"; "NOXML"; "HDF5"; "LAPACK"] in
  definitions ← remove_if self "enable_minuit" false "NO_MINUIT" definitions;
  definitions ← remove_if self "enable_grace" false "NOGRACE" definitions;
  (* building_batch = not self.config['build']['skip_batch'] *)
  remove_if self "skip_batch" true "NOXML" definitions.

(** *** [get_cmake_args] of this copy *)

(** [if cfg.get(key): args.append(f'-D{name}={";".join(cfg[key])}')] *)
Definition dirs_def (cfg : value) (key name : string) (args : list string)
    : result (list string) :=
  x ← get cfg key VNone;
  if truthy x then
    v ← getitem cfg key;
    dirs ← join_value ";" v;
    Ok (args ++ ["-D" +:+ name +:+ "=" +:+ dirs])
  else Ok args.

(** [if lib in self.config['libraries']: ...] with one list of
    directories. *)
Definition library_dirs (self : SigmondConfig) (lib key name : string)
    (args : list string) : result (list string) :=
  libs ← getitem (VDict (config self)) "libraries";
  present ← contains lib libs;
  if (present : bool) then
    libs ← getitem (VDict (config self)) "libraries";
    lib_config ← getitem libs lib;
    dirs_def lib_config key name args
  else Ok args.

(** The include and library directories of an entry of the libraries. *)
Definition include_and_library_dirs (self : SigmondConfig) (lib name : string)
    (args : list string) : result (list string) :=
  libs ← getitem (VDict (config self)) "libraries";
  lib_config ← getitem libs lib;
  args ← dirs_def lib_config "include_dirs" ("SIGMOND_" +:+ name +:+ "_INCLUDE_DIR") args;
  dirs_def lib_config "library_dirs" ("SIGMOND_" +:+ name +:+ "_LIBRARY_DIR") args.

(** [if self.config['build'][enable] and lib in self.config['libraries']:
       ...] *)
Definition optional_library_dirs (self : SigmondConfig) (enable lib name : string)
    (args : list string) : result (list string) :=
  en ← section_item self "build" enable;
  present ← (if truthy en
             then libs ← getitem (VDict (config self)) "libraries"; contains lib libs
             else Ok false);
  if (present : bool) then include_and_library_dirs self lib name args else Ok args.

Definition get_cmake_args (self : SigmondConfig) : result (list string) :=
  let args : list string := [] in
  args ← Configure.flag_if self "skip_query" "-DSKIP_SIGMOND_QUERY=ON" args;
  args ← Configure.flag_if self "skip_batch" "-DSKIP_SIGMOND_BATCH=ON" args;
  args ← Configure.install_dir self "batch_install_dir" "SIGMOND_BATCH_INSTALL_DIR" args;
  args ← Configure.install_dir self "query_install_dir" "SIGMOND_QUERY_INSTALL_DIR" args;
  args ← Configure.library_path self "hdf5" "hdf5_root" "HDF5_ROOT" args;
  libs ← getitem (VDict (config self)) "libraries";
  present ← contains "lapack" libs;
  args ← (if (present : bool)
          then include_and_library_dirs self "lapack" "LAPACK" args
          else Ok args);
  args ← optional_library_dirs self "enable_minuit" "minuit2" "MINUIT2" args;
  args ← optional_library_dirs self "enable_grace" "grace" "GRACE" args;
  library_dirs self "accelerate" "framework_dirs" "SIGMOND_ACCELERATE_FRAMEWORK_DIR" args.

(** *** The accessors *)

Definition should_skip_query (self : SigmondConfig) := section_item self "build" "skip_query".
Definition should_skip_batch (self : SigmondConfig) := section_item self "build" "skip_batch".
Definition is_verbose (self : SigmondConfig) := section_item self "build" "verbose".

End ConfigReader.

(* ================================================================== *)
(** ** [setup.py] *)
(* ================================================================== *)

Module Setup.

(** What [load_configuration] returns: the object of [config_reader.py],
    or the fallback object, which holds nothing and reads the
    environment when asked. *)
Inductive configuration : Type :=
| Loaded (self : SigmondConfig)
| FallbackConfig.

(** [load_configuration]: the fallback when the import of
    [config_reader] fails or the construction raises. *)
Definition load_configuration (importable : bool) (w : world)
    (environ : gmap string string) : configuration :=
  if importable then
    match ConfigReader.__init__ w environ None with
    | Ok self => Loaded self
    | Raise _ => FallbackConfig
    end
  else FallbackConfig.

(** [os.environ.get(var, '').lower() in ('1', 'true', 'yes')] *)
Definition env_switch (environ : gmap string string) (var : string) : bool :=
  str_in (lower (environ_get environ var)) ["1"; "true"; "yes"].

Definition should_skip_query (c : configuration) (environ : gmap string string)
    : result value :=
  match c with
  | Loaded self => ConfigReader.should_skip_query self
  | FallbackConfig => Ok (VBool (env_switch environ "SIGMOND_SKIP_QUERY"))
  end.

Definition should_skip_batch (c : configuration) (environ : gmap string string)
    : result value :=
  match c with
  | Loaded self => ConfigReader.should_skip_batch self
  | FallbackConfig => Ok (VBool (env_switch environ "SIGMOND_SKIP_BATCH"))
  end.

Definition is_verbose (c : configuration) (environ : gmap string string)
    : result value :=
  match c with
  | Loaded self => ConfigReader.is_verbose self
  | FallbackConfig => Ok (VBool (env_switch environ "SIGMOND_VERBOSE"))
  end.

Definition get_cmake_args (c : configuration) : result (list string) :=
  match c with
  | Loaded self => ConfigReader.get_cmake_args self
  | FallbackConfig => Ok []
  end.

Definition get_compiler_definitions (c : configuration) : result (list string) :=
  match c with
  | Loaded self => ConfigReader.get_compiler_definitions self
  | FallbackConfig =>
      Ok ["DOUBLEPRECISION"; "COMPLEXNUMBERS"; "DEFAULT_HDF5"; "NOGRACE"; "NO_MINUIT";
          "XML"; "HDF5"; "LAPACK"]
  end.



End Setup.

(* ================================================================== *)
(** ** The vocabulary of the statements *)
(* ================================================================== *)

Import Configure.

(** *** Worlds and files of the examples *)

(** A world with no configuration file anywhere and [n] processors. *)
Definition bare_world (n : option positive) : world :=
  {| tomllib_available := true; cwd := "/work"; home := "/home/user";
     module_dir := "/opt/sigmond"; cpu_count := n;
     path_exists := fun _ => false; fd_open := fun _ => false;
     toml_load := fun _ => None; writable := fun _ => true;
     file_text := fun _ => None |}.

(** The same world with [sigmond.toml] in the working directory, holding
    the tree [t]. *)
Definition world_with_file (n : option positive) (t : dict) : world :=
  {| tomllib_available := true; cwd := "/work"; home := "/home/user";
     module_dir := "/opt/sigmond"; cpu_count := n;
     path_exists := fun p => String.eqb p "/work/sigmond.toml";
     fd_open := fun _ => false;
     toml_load := fun p => if String.eqb p "/work/sigmond.toml" then Some t else None;
     writable := fun _ => true;
     file_text := fun _ => None |}.

Definition partial_file : dict := [("build", VDict [("verbose", VBool true)])].
Definition enums_only_file : dict :=
  [("build", VDict [("precision", VStr "single"); ("numbers", VStr "real");
                    ("default_file_format", VStr "fstream")])].

(** *** The defaults *)

Definition core_and_testing : list string :=
  ["-DPRECISION=double"; "-DNUMBERS=complex"; "-DDEFAULT_FILE_FORMAT=hdf5";
   "-DENABLE_TESTING=ON"].

(** The claim as the specification words it: the resolved job count is
    0 and the flag vector is the three core definitions and the testing
    toggle. *)
Definition empty_layer_scenario (w : world) : Prop :=
  exists self,
    __init__ w ∅ None = Ok self /\
    get_precision self = Ok (VStr "double") /\
    get_numbers_type self = Ok (VStr "complex") /\
    get_default_file_format self = Ok (VStr "hdf5") /\
    section_item self "build" "build_jobs" = Ok (VInt 0) /\
    get_cmake_args self = Ok core_and_testing.

(** *** The cache-file renderer, entry by entry *)


(** What [_q] does to one character. *)
Definition sanitize_char (c : ascii) : string :=
  if Ascii.eqb c backslash then "/"
  else if Ascii.eqb c dquote then String backslash (String dquote "")
  else String c "".

Fixpoint sanitize (s : string) : string :=
  match s with
  | EmptyString => EmptyString
  | String c r => sanitize_char c +:+ sanitize r
  end.

(** *** Dicts *)

(** [self.config[section][key]] as a lookup, when the section is a
    table. *)
Definition tree_lookup (cfg : dict) (section key : string) : option value :=
  match dict_lookup section cfg with
  | Some (VDict s) => dict_lookup key s
  | _ => None
  end.

(** *** The environment layer *)

(** What a step of the environment layer does to a tree with a build
    table: it sets [key] to [x] when [on] holds and changes nothing
    else. *)
Definition build_updated (on : bool) (key : string) (x : value) (cfg cfg' : dict) : Prop :=
  exists b b',
    dict_lookup "build" cfg = Some (VDict b) /\
    dict_lookup "build" cfg' = Some (VDict b') /\
    (forall s, s <> "build" -> dict_lookup s cfg' = dict_lookup s cfg) /\
    (forall k, dict_lookup k b'
               = if on && String.eqb k key then Some x else dict_lookup k b).

Definition recognized (environ : gmap string string) (var : string) : bool :=
  str_in (lower (environ_get environ var)) truthy_tokens.

(** The value the environment layer leaves at key [k] of the build
    table, [old] being the value before it. *)
Definition env_layer_value (environ : gmap string string) (k : string)
    (old : option value) : option value :=
  if nonempty (environ_get environ "DEFAULTENSFILE") && String.eqb k "default_ensembles_file"
  then Some (VStr (environ_get environ "DEFAULTENSFILE"))
  else if recognized environ "SIGMOND_VERBOSE" && String.eqb k "verbose"
  then Some (VBool true)
  else if recognized environ "SIGMOND_SKIP_BATCH" && String.eqb k "skip_batch"
  then Some (VBool true)
  else if recognized environ "SIGMOND_SKIP_QUERY" && String.eqb k "skip_query"
  then Some (VBool true)
  else old.

(** A file with a libraries section and no build section. *)
Definition libraries_only_file : dict := [("libraries", VDict [])].

Definition env_flags : list (string * string) :=
  [ ("SIGMOND_SKIP_QUERY", "skip_query");
    ("SIGMOND_SKIP_BATCH", "skip_batch");
    ("SIGMOND_VERBOSE", "verbose") ].

(** *** The loader and the layers *)

(** The keys the environment layer can set. *)
Definition env_overridable (section key : string) : bool :=
  String.eqb section "build" &&
  str_in key ["skip_query"; "skip_batch"; "verbose"; "default_ensembles_file"].

(** The claim as the specification words it, for the keys of the
    defaults that a loaded file leaves out. *)
Definition defaults_fill_in (w : world) (file : dict) (self : SigmondConfig) : Prop :=
  forall section key x,
    tree_lookup (_default_config w) section key = Some x ->
    tree_lookup file section key = None ->
    tree_lookup (config self) section key = Some x.

Definition skip_query_file : dict := [("build", VDict [("skip_query", VBool false)])].

Definition single_file : dict := [("build", VDict [("precision", VStr "single")])].
Definition verbose_world : world := world_with_file (Some 8%positive) single_file.
Definition verbose_environ : gmap string string := {[ "SIGMOND_VERBOSE" := "1" ]}.

(** *** Validation *)


(** Where the validator calls [get] on an entry of the libraries: the
    libraries section, and the entry of an enabled optional library in
    it, are tables where the tree has them. *)
Definition table_or_absent (o : option value) : bool :=
  match o with
  | None | Some (VDict _) => true
  | Some _ => false
  end.

Definition library_table (cfg : dict) (lib : string) : bool :=
  match dict_lookup "libraries" cfg with
  | None => true
  | Some (VDict libs) => table_or_absent (dict_lookup lib libs)
  | Some _ => false
  end.

Definition enabled (b : dict) (enable_key : string) : bool :=
  truthy (default (VBool false) (dict_lookup enable_key b)).

Definition library_tables (cfg b : dict) : bool :=
  (negb (enabled b "enable_minuit") || library_table cfg "minuit2") &&
  (negb (enabled b "enable_grace") || library_table cfg "grace").

(** The errors the validator collects, check by check. *)
Definition collected_errors (p n f j : value) : list string :=
  (if in_strs p ["double"; "single"] then [] else [msg_precision p]) ++
  (if in_strs n ["complex"; "real"] then [] else [msg_numbers n]) ++
  (if in_strs f ["hdf5"; "fstream"] then [] else [msg_file_format f]) ++
  (if bad_build_jobs j then [msg_build_jobs j] else []).


Definition bogus_file : dict :=
  [("build", VDict [("precision", VStr "bogus"); ("default_file_format", VStr "bogus")])].

(** *** The extra definitions *)

(** A string entry and a key/value pair, rendered. *)
Definition render_string_entry (entry : string) : string :=
  let s := strip entry in
  if startswith "-D" s then s else "-D" +:+ s.

Definition render_pair (kv : string * value) : string :=
  "-D" +:+ kv.1 +:+ "=" +:+ coerce_value kv.2.

(** The string entries of a list, rendered in their order, and the pairs
    of its table entries, rendered in theirs. *)
Definition string_entries (l : list value) : list string :=
  flat_map (fun e => match e with VStr s => [render_string_entry s] | _ => [] end) l.



Definition is_str (v : value) : bool := match v with VStr _ => true | _ => false end.

Definition foo_bar_baz : list value :=
  [VStr "FOO"; VStr "BAR=2"; VDict [("BAZ", VBool true)]].


(** *** Validated trees and the compiler definitions of [config_reader.py] *)

Definition count (name : string) (definitions : list string) : nat :=
  count_occ string_dec definitions name.

(** *** The flag vector, block by block *)

(** A block of [get_cmake_args] only appends to [args]: what it appends,
    and whether it raises, does not depend on [args]. *)
Definition appends (blk : list string -> result (list string)) : Prop :=
  forall args, blk args = app args <$> blk [].

(** Sparse rendering: of the definitions named by [prefixes], in that
    order, each is present once, with some value, or absent. *)
Inductive sparse_of : list string -> list string -> Prop :=
| sparse_nil : sparse_of [] []
| sparse_skip p prefixes seg :
    sparse_of prefixes seg -> sparse_of (p :: prefixes) seg
| sparse_emit p v prefixes seg :
    sparse_of prefixes seg -> sparse_of (p :: prefixes) ((p +:+ v) :: seg).

Definition control_flags : list string :=
  ["-DSKIP_SIGMOND_QUERY=ON"; "-DSKIP_SIGMOND_BATCH=ON";
   "-DENABLE_MINUIT=ON"; "-DENABLE_GRACE=ON"].

Definition library_prefixes : list string :=
  [ "-DHDF5_DIR="; "-DBLAS_LIBRARIES="; "-DLAPACK_LIBRARIES=";
    "-DSIGMOND_MINUIT2_INCLUDE_DIR="; "-DSIGMOND_MINUIT2_LIBRARY_DIR=";
    "-DSIGMOND_GRACE_INCLUDE_DIR="; "-DSIGMOND_GRACE_LIBRARY_DIR=";
    "-DSIGMOND_ACCELERATE_FRAMEWORK_DIR=" ].

(** A configuration that sets every kind of definition. *)
Definition full_config : dict :=
  [ ("build", VDict
       [ ("skip_query", VBool true); ("skip_batch", VBool false);
         ("enable_testing", VBool false); ("verbose", VBool true);
         ("precision", VStr "single"); ("numbers", VStr "real");
         ("default_file_format", VStr "fstream");
         ("enable_minuit", VBool true); ("enable_grace", VBool false);
         ("build_jobs", VInt 4);
         ("batch_install_dir", VStr "/opt/bin"); ("query_install_dir", VStr "");
         ("extra_cmake_definitions", VList foo_bar_baz);
         ("default_ensembles_file", VStr "ens.xml") ]);
    ("libraries", VDict
       [ ("hdf5", VDict [("root_dir", VStr "/opt/hdf5")]);
         ("lapack", VDict [("library_path", VStr "/opt/liblapack.so")]);
         ("minuit2", VDict [("include_dir", VStr "/opt/m/include");
                            ("library_dir", VStr "/opt/m/lib")]) ]);
    ("compiler", VDict [ ("cxx_compiler", VStr "/usr/bin/g++") ]) ].

Definition full_args : list string :=
  [ "-DPRECISION=single"; "-DNUMBERS=real"; "-DDEFAULT_FILE_FORMAT=fstream";
    "-DSKIP_SIGMOND_QUERY=ON"; "-DENABLE_MINUIT=ON";
    "-DSIGMOND_VERBOSE=ON"; "-DCMAKE_FIND_DEBUG_MODE=ON";
    "-DENABLE_TESTING=OFF";
    "-DSIGMOND_BATCH_INSTALL_DIR=/opt/bin";
    "-DDEFAULTENSFILE=ens.xml";
    "-DFOO"; "-DBAR=2"; "-DBAZ=ON";
    "-DHDF5_DIR=/opt/hdf5"; "-DLAPACK_LIBRARIES=/opt/liblapack.so";
    "-DSIGMOND_MINUIT2_INCLUDE_DIR=/opt/m/include";
    "-DSIGMOND_MINUIT2_LIBRARY_DIR=/opt/m/lib";
    "-DCMAKE_CXX_COMPILER=/usr/bin/g++" ].

(** *** The cache file *)

(** A dict as the cache renderer sees it: keys in order, values through
    [str]. *)
Definition rendered (d : dict) : list (string * string) :=
  map (fun kv => (kv.1, py_str kv.2)) d.

(** The compiler definitions are the last ones of the flag vector. *)
Definition compiler_def (d : dict) (key var : string) : list string :=
  match dict_lookup key d with
  | Some v => if truthy v then [("-D" +:+ var +:+ "=") +:+ py_str v] else []
  | None => []
  end.

(** Whether [compiler_var] raises, and what, is decided by the
    configuration. *)
Definition compiler_var_raises (self : SigmondConfig) (key : string) : option exn :=
  match getitem (VDict (config self)) "compiler" with
  | Raise e => Some e
  | Ok compiler =>
      match get compiler key (VStr "") with
      | Raise e => Some e
      | Ok c =>
          if truthy c then
            match c with
            | VStr _ | VInt _ | VBool _ => None
            | _ => Some TypeError
            end
          else None
      end
  end.

(** *** Trees on which the renderer returns *)

Definition has_str (b : dict) (k : string) : bool :=
  match dict_lookup k b with Some (VStr _) => true | _ => false end.

Definition has_key (b : dict) (k : string) : bool :=
  match dict_lookup k b with Some _ => true | None => false end.

(** The build table has the keys [get_cmake_args] indexes, the three
    enumerations as strings; the libraries section is a table and the
    entries of the libraries, and the compiler section, are tables
    where present. *)
Definition schema_complete (cfg : dict) : bool :=
  match dict_lookup "build" cfg, dict_lookup "libraries" cfg with
  | Some (VDict b), Some (VDict libs) =>
      forallb (has_str b) ["precision"; "numbers"; "default_file_format"] &&
      forallb (has_key b)
        ["skip_query"; "skip_batch"; "enable_minuit"; "enable_grace"; "verbose";
         "enable_testing"; "batch_install_dir"; "query_install_dir"] &&
      forallb (fun l => table_or_absent (dict_lookup l libs))
        ["hdf5"; "blas"; "lapack"; "minuit2"; "grace"; "accelerate"] &&
      table_or_absent (dict_lookup "compiler" cfg)
  | _, _ => false
  end.

(** *** The file the loader reads *)

(** The places searched when no file is named, in the order of the
    search. *)
Definition search_paths (w : world) : list string :=
  [ path_join (cwd w) "sigmond.toml";
    path_join (cwd w) ".sigmond.toml";
    path_join (path_join (home w) ".config") "sigmond.toml";
    path_join (module_dir w) "sigmond.toml" ].

(** No file is named: neither by the argument nor by [SIGMOND_CONFIG]. *)
Definition no_named_file (environ : gmap string string) (config_path : option string)
    : bool :=
  negb (nonempty (default "" config_path)) &&
  negb (nonempty (default "" (environ !! "SIGMOND_CONFIG"))).

Definition two_files_world : world :=
  {| tomllib_available := true; cwd := "/work"; home := "/home/user";
     module_dir := "/opt/sigmond"; cpu_count := None;
     path_exists := fun p => String.eqb p "/work/.sigmond.toml"
                             || String.eqb p "/opt/sigmond/sigmond.toml";
     fd_open := fun _ => false;
     toml_load := fun p => if String.eqb p "/opt/sigmond/sigmond.toml"
                           then Some single_file else None;
     writable := fun _ => true;
     file_text := fun _ => None |}.

(** *** What the validator prints *)

(** The advisories of the validator, in the order it collects them. *)
Definition advisories : list string :=
  [ "Minuit2 is enabled but no library paths specified. Auto-detection will be attempted.";
    "Grace is enabled but no library paths specified. Auto-detection will be attempted.";
    "Both executables are disabled - only Python bindings will be built." ].

Definition verbose_minuit_file : dict :=
  [("build", VDict [("verbose", VBool true); ("enable_minuit", VBool true)])].

(** *** The flag vector: its blocks, its tokens, and what reaches it *)

Definition is_definition (arg : string) : bool := startswith "-D" arg.

(** *** From the flag vector to the cache variables *)

(** The key and the value the loop over the flag vector takes from an
    argument; [None] for an argument it passes over. *)
Definition arg_def (arg : string) : option (string * string) :=
  if startswith "-D" arg then
    Some (default (drop_chars 2 arg, "ON") (split_once "=" (drop_chars 2 arg)))
  else None.

Definition defines (k arg : string) : bool :=
  match arg_def arg with
  | Some (k', _) => String.eqb k k'
  | None => false
  end.

(** The cache variables before the loop over the flag vector. *)
Definition initial_cache_vars (environ : gmap string string) : dict :=
  if nonempty (environ_get environ "CONDA_PREFIX")
  then dict_update base_cache_vars (conda_cache_vars (environ_get environ "CONDA_PREFIX"))
  else base_cache_vars.

Definition keys (d : dict) : list string := map fst d.

(** A value as [_q] leaves it has no backslash but before a double
    quote, and no double quote but after a backslash. *)
Fixpoint well_escaped (s : string) : bool :=
  match s with
  | EmptyString => true
  | String c r =>
      if Ascii.eqb c backslash then
        match r with
        | String d r' => Ascii.eqb d dquote && well_escaped r'
        | EmptyString => false
        end
      else negb (Ascii.eqb c dquote) && well_escaped r
  end.

Definition hdf5_twice : SigmondConfig :=
  {| config :=
       [ ("build", VDict
            [ ("skip_query", VBool false); ("skip_batch", VBool false);
              ("enable_testing", VBool true); ("verbose", VBool false);
              ("precision", VStr "double"); ("numbers", VStr "complex");
              ("default_file_format", VStr "hdf5");
              ("enable_minuit", VBool false); ("enable_grace", VBool false);
              ("batch_install_dir", VStr ""); ("query_install_dir", VStr "");
              ("extra_cmake_definitions", VDict [("HDF5_ROOT", VStr "/opt/hdf5")]) ]);
         ("libraries", VDict []);
         ("compiler", VDict [("c_compiler", VStr "/usr/bin/cc")]) ] |}.

(** *** The flag vector of [config_reader.py] *)

Definition reader_prefixes : list string :=
  [ "-DSKIP_SIGMOND_QUERY=ON"; "-DSKIP_SIGMOND_BATCH=ON";
    "-DSIGMOND_BATCH_INSTALL_DIR="; "-DSIGMOND_QUERY_INSTALL_DIR=";
    "-DHDF5_ROOT=";
    "-DSIGMOND_LAPACK_INCLUDE_DIR="; "-DSIGMOND_LAPACK_LIBRARY_DIR=";
    "-DSIGMOND_MINUIT2_INCLUDE_DIR="; "-DSIGMOND_MINUIT2_LIBRARY_DIR=";
    "-DSIGMOND_GRACE_INCLUDE_DIR="; "-DSIGMOND_GRACE_LIBRARY_DIR=";
    "-DSIGMOND_ACCELERATE_FRAMEWORK_DIR=" ].

(** A configuration of the older layout with lists of directories. *)
Definition reader_config : dict :=
  [ ("build", VDict
       [ ("skip_query", VBool false); ("skip_batch", VBool true);
         ("precision", VStr "single");
         ("enable_minuit", VBool true); ("enable_grace", VBool false);
         ("batch_install_dir", VStr ""); ("query_install_dir", VStr "/opt/bin") ]);
    ("libraries", VDict
       [ ("lapack", VDict [("library_dirs", VList [VStr "/usr/lib"; VStr "/opt/lib"])]);
         ("minuit2", VDict [("include_dirs", VStr "ab")]) ]) ].

(** The definition of a list of directories. *)
Definition dirs_definition (name : string) (dirs : list string) : string :=
  "-D" +:+ name +:+ "=" +:+ join ";" dirs.

(** A string of ASCII characters. *)
Definition ascii_only (s : string) : bool :=
  forallb (fun c => (N_of_ascii c <? 128)%N) (list_ascii_of_string s).

(** The two bytes of the letter e with an acute accent, and a slash. *)
Definition e_acute_slash : string := String "195" (String "169" "/").

(** *** The configuration [setup.py] builds with *)

(** The value the three switches of the older copy leave at key [k] of
    the build table. *)
Definition env_flags_value (environ : gmap string string) (k : string)
    (old : option value) : option value :=
  if recognized environ "SIGMOND_VERBOSE" && String.eqb k "verbose"
  then Some (VBool true)
  else if recognized environ "SIGMOND_SKIP_BATCH" && String.eqb k "skip_batch"
  then Some (VBool true)
  else if recognized environ "SIGMOND_SKIP_QUERY" && String.eqb k "skip_query"
  then Some (VBool true)
  else old.

(** The names [get_compiler_definitions] of the older copy chooses
    from. *)
Definition definition_names : list string :=
  [ "SINGLEPRECISION"; "DOUBLEPRECISION"; "REALNUMBERS"; "COMPLEXNUMBERS";
    "DEFAULT_FSTREAM"; "DEFAULT_HDF5"; "NOGRACE"; "NO_MINUIT"; "NOXML";
    "HDF5"; "LAPACK" ].

(** *** The flag vector, group by group *)













(* ================================================================== *)
(** ** Proofs *)
(* ================================================================== *)

(** *** The result monad *)

Lemma bind_Ok {A B} (m : result A) (k : A -> result B) (b : B) :
  m ≫= k = Ok b -> exists a, m = Ok a /\ k a = Ok b.
Proof. destruct m as [a|e]; simpl; [eauto | discriminate]. Qed.

Ltac bind_inv H :=
  let a := fresh "a" in
  let Ha := fresh "Ha" in
  apply bind_Ok in H as (a & Ha & H).

(** *** Strings *)

#[local] Arguments String.append !_ _ / : simpl nomatch.

Lemma app_empty_r (s : string) : s +:+ "" = s.
Proof. induction s as [|c s IH]; simpl; [done | by rewrite IH]. Qed.

Lemma app_assoc_str (s t u : string) : (s +:+ t) +:+ u = s +:+ (t +:+ u).
Proof. induction s as [|c s IH]; simpl; [done | by rewrite IH]. Qed.

Lemma startswith_spec p s :
  startswith p s = true <-> exists post, s = p +:+ post.
Proof.
  unfold startswith. revert s. induction p as [|c p IH]; intros s; simpl.
  - split; [eauto | by destruct s].
  - destruct s as [|d s]; [split; [done | by intros (post & ?)]|].
    simpl. destruct (Ascii.ascii_dec c d) as [->|Hne].
    + rewrite IH. split; intros (post & H); exists post; [by rewrite H | by injection H].
    + split; [done | intros (post & H); injection H; congruence].
Qed.


Lemma str_in_spec x l : str_in x l = true <-> In x l.
Proof.
  unfold str_in. rewrite existsb_exists. split.
  - intros (y & Hy & Heq). by apply String.eqb_eq in Heq as ->.
  - intros H. exists x. by rewrite String.eqb_refl.
Qed.



Lemma replace_char_app c b s t :
  replace_char c b (s +:+ t) = replace_char c b s +:+ replace_char c b t.
Proof.
  induction s as [|a s IH]; simpl; [done|].
  by rewrite IH, app_assoc_str.
Qed.

(** *** Dicts *)

Lemma dict_lookup_set_eq k v d : dict_lookup k (dict_set k v d) = Some v.
Proof.
  induction d as [|[k' v'] d IH]; simpl.
  - by rewrite String.eqb_refl.
  - destruct (String.eqb k k') eqn:E; simpl; [by rewrite String.eqb_refl | by rewrite E].
Qed.

Lemma dict_lookup_set_ne k k' v d :
  k <> k' -> dict_lookup k' (dict_set k v d) = dict_lookup k' d.
Proof.
  intros Hne. induction d as [|[k0 v0] d IH]; simpl.
  - by destruct (String.eqb_spec k' k) as [->|].
  - destruct (String.eqb_spec k k0) as [->|Hk]; simpl.
    + by destruct (String.eqb_spec k' k0) as [->|].
    + by rewrite IH.
Qed.

Lemma dict_lookup_set k k' v d :
  dict_lookup k' (dict_set k v d)
  = if String.eqb k' k then Some v else dict_lookup k' d.
Proof.
  destruct (String.eqb_spec k' k) as [->|Hne].
  - apply dict_lookup_set_eq.
  - by apply dict_lookup_set_ne.
Qed.

(** *** The environment layer *)

Lemma set_build_Ok cfg b key x :
  dict_lookup "build" cfg = Some (VDict b) ->
  set_build cfg key x = Ok (dict_set "build" (VDict (dict_set key x b)) cfg).
Proof. unfold set_build. simpl. by intros ->. Qed.

Lemma set_build_inv cfg key x cfg' :
  set_build cfg key x = Ok cfg' ->
  exists b, dict_lookup "build" cfg = Some (VDict b) /\
            cfg' = dict_set "build" (VDict (dict_set key x b)) cfg.
Proof.
  unfold set_build. simpl. destruct (dict_lookup "build" cfg) as [[]|]; try discriminate.
  simpl. intros [= <-]. eauto.
Qed.

Lemma build_updated_skip key x cfg b :
  dict_lookup "build" cfg = Some (VDict b) -> build_updated false key x cfg cfg.
Proof. intros H. exists b, b. by split_and!. Qed.

Lemma set_build_updated cfg b key x :
  dict_lookup "build" cfg = Some (VDict b) ->
  exists cfg', set_build cfg key x = Ok cfg' /\ build_updated true key x cfg cfg'.
Proof.
  intros H. eexists. split; [by apply set_build_Ok|].
  exists b, (dict_set key x b). split_and!; [done | apply dict_lookup_set_eq | |].
  - intros s Hs. by apply dict_lookup_set_ne.
  - intros k. simpl. apply dict_lookup_set.
Qed.

Lemma env_flag_updated environ var key cfg b :
  dict_lookup "build" cfg = Some (VDict b) ->
  exists cfg', env_flag environ var key cfg = Ok cfg' /\
               build_updated (recognized environ var) key (VBool true) cfg cfg'.
Proof.
  intros H. unfold env_flag, recognized.
  destruct (str_in _ _).
  - by apply (set_build_updated cfg b).
  - exists cfg. split; [done | by eapply build_updated_skip].
Qed.

Lemma apply_env_overrides_table environ cfg b :
  dict_lookup "build" cfg = Some (VDict b) ->
  exists cfg' b',
    _apply_env_overrides environ cfg = Ok cfg' /\
    dict_lookup "build" cfg' = Some (VDict b') /\
    (forall s, s <> "build" -> dict_lookup s cfg' = dict_lookup s cfg) /\
    (forall k, dict_lookup k b' = env_layer_value environ k (dict_lookup k b)).
Proof.
  intros H0. unfold _apply_env_overrides, apply_env_flags.
  destruct (env_flag_updated environ "SIGMOND_SKIP_QUERY" "skip_query" cfg b H0)
    as (c1 & -> & (? & b1 & ? & H1 & Hs1 & Hk1)). simplify_eq. simpl.
  destruct (env_flag_updated environ "SIGMOND_SKIP_BATCH" "skip_batch" c1 b1 H1)
    as (c2 & -> & (? & b2 & ? & H2 & Hs2 & Hk2)). simplify_eq. simpl.
  destruct (env_flag_updated environ "SIGMOND_VERBOSE" "verbose" c2 b2 H2)
    as (c3 & -> & (? & b3 & ? & H3 & Hs3 & Hk3)). simplify_eq. simpl.
  assert (exists c4,
    (if nonempty (environ_get environ "DEFAULTENSFILE")
     then set_build c3 "default_ensembles_file" (VStr (environ_get environ "DEFAULTENSFILE"))
     else Ok c3) = Ok c4 /\
    build_updated (nonempty (environ_get environ "DEFAULTENSFILE"))
      "default_ensembles_file" (VStr (environ_get environ "DEFAULTENSFILE")) c3 c4)
    as (c4 & -> & (? & b4 & ? & H4 & Hs4 & Hk4)).
  { destruct (nonempty _).
    - by apply (set_build_updated c3 b3).
    - exists c3. split; [done | by eapply build_updated_skip]. }
  simplify_eq. exists c4, b4. split_and!; [done | done | |].
  - intros s Hs. by rewrite Hs4, Hs3, Hs2, Hs1.
  - intros k. unfold env_layer_value. rewrite Hk4, Hk3, Hk2, Hk1. done.
Qed.

Lemma env_flag_inv environ var key cfg cfg' :
  env_flag environ var key cfg = Ok cfg' ->
  cfg' = cfg \/ exists b, dict_lookup "build" cfg = Some (VDict b).
Proof.
  unfold env_flag. destruct (str_in _ _).
  - intros (b & ? & _)%set_build_inv. eauto.
  - intros [= <-]. by left.
Qed.

Lemma apply_env_overrides_inv environ cfg cfg' :
  _apply_env_overrides environ cfg = Ok cfg' ->
  cfg' = cfg \/ exists b, dict_lookup "build" cfg = Some (VDict b).
Proof.
  unfold _apply_env_overrides, apply_env_flags. intros H.
  bind_inv H. bind_inv Ha. bind_inv Ha.
  apply env_flag_inv in Ha0 as [->|?]; [|by right].
  apply env_flag_inv in Ha1 as [->|?]; [|by right].
  apply env_flag_inv in Ha as [->|?]; [|by right].
  destruct (nonempty _).
  - apply set_build_inv in H as (b & ? & _). eauto.
  - injection H as <-. by left.
Qed.

Lemma env_layer_value_flag environ var key old :
  In (var, key) env_flags ->
  env_layer_value environ key old
  = if recognized environ var then Some (VBool true) else old.
Proof.
  unfold env_layer_value. simpl.
  intros [[= <- <-] | [[= <- <-] | [[= <- <-] | []]]]; simpl;
    rewrite ?andb_false_r, ?andb_true_r; simpl;
    repeat (destruct (recognized environ _)); done.
Qed.

(** Over a file that has no build section, [SIGMOND_SKIP_QUERY=yes] sets
    no flag: the assignment raises [KeyError], and so does
    construction. *)
Lemma C5_counterexample :
  In (lower (environ_get {[ "SIGMOND_SKIP_QUERY" := "yes" ]} "SIGMOND_SKIP_QUERY"))
     ["1"; "true"; "yes"] /\
  _apply_env_overrides {[ "SIGMOND_SKIP_QUERY" := "yes" ]} libraries_only_file
  = Raise (KeyError "build") /\
  __init__ (world_with_file (Some 8%positive) libraries_only_file)
    {[ "SIGMOND_SKIP_QUERY" := "yes" ]} None
  = Raise (KeyError "build").
Proof. split_and!; vm_compute; auto. Qed.

(** C5, as amended.  On a tree with a build table, the environment layer succeeds,
    and for each of [SIGMOND_SKIP_QUERY], [SIGMOND_SKIP_BATCH] and
    [SIGMOND_VERBOSE]: a value that reads [1], [true] or [yes] in any
    letter case sets the flag to [True]; any other value, and the
    variable being unset, leaves the flag as it was; a flag that was
    true stays true; and [yes] turns a [False] of the file into
    [True]. *)
Theorem C5_env_overrides_monotonic
    (environ : gmap string string) (cfg b : dict) (var key : string) :
  In (var, key) env_flags ->
  dict_lookup "build" cfg = Some (VDict b) ->
  exists cfg' b',
    _apply_env_overrides environ cfg = Ok cfg' /\
    dict_lookup "build" cfg' = Some (VDict b') /\
    (In (lower (environ_get environ var)) ["1"; "true"; "yes"] ->
       dict_lookup key b' = Some (VBool true)) /\
    (~ In (lower (environ_get environ var)) ["1"; "true"; "yes"] ->
       dict_lookup key b' = dict_lookup key b) /\
    (environ !! var = None -> dict_lookup key b' = dict_lookup key b) /\
    (forall x, dict_lookup key b = Some x -> truthy x = true ->
       exists x', dict_lookup key b' = Some x' /\ truthy x' = true) /\
    (environ !! var = Some "yes" -> dict_lookup key b = Some (VBool false) ->
       dict_lookup key b' = Some (VBool true)).
Proof.
  intros Hin Hb.
  destruct (apply_env_overrides_table environ cfg b Hb) as (cfg' & b' & Hr & Hb' & _ & Hk).
  exists cfg', b'. specialize (Hk key).
  rewrite (env_layer_value_flag environ var key _ Hin) in Hk.
  assert (Hrec : recognized environ var = true
                 <-> In (lower (environ_get environ var)) ["1"; "true"; "yes"])
    by apply str_in_spec.
  split_and!; [done | done | | | | |].
  - intros H. apply Hrec in H. by rewrite H in Hk.
  - intros H. destruct (recognized environ var); [by destruct H; apply Hrec | done].
  - intros H. unfold recognized, environ_get in Hk. by rewrite H in Hk.
  - intros x Hx Ht. destruct (recognized environ var); [by exists (VBool true)|].
    exists x. by rewrite Hk.
  - intros H _. unfold recognized, environ_get in Hk. by rewrite H in Hk.
Qed.

(** [SIGMOND_SKIP_QUERY=YES] over a file that has [skip_query = false]. *)
Lemma C5_env_overrides_monotonic_witness :
  exists cfg' b',
    _apply_env_overrides {[ "SIGMOND_SKIP_QUERY" := "YES" ]}
      [("build", VDict [("skip_query", VBool false)])] = Ok cfg' /\
    dict_lookup "build" cfg' = Some (VDict b') /\
    dict_lookup "skip_query" b' = Some (VBool true).
Proof.
  destruct (C5_env_overrides_monotonic {[ "SIGMOND_SKIP_QUERY" := "YES" ]}
              [("build", VDict [("skip_query", VBool false)])]
              [("skip_query", VBool false)] "SIGMOND_SKIP_QUERY" "skip_query")
    as (cfg' & b' & H1 & H2 & H3 & _).
  - left. reflexivity.
  - reflexivity.
  - exists cfg', b'. split_and!; [done | done |]. apply H3. vm_compute. tauto.
Defined.

(** *** The loader and the layers *)

Lemma load_config_cases default_config w environ config_path :
  load_config_with default_config w environ config_path = default_config \/
  (tomllib_available w = true /\
   exists f, path_exists w f = true /\
             toml_load w f = Some (load_config_with default_config w environ config_path)).
Proof.
  unfold load_config_with.
  destruct (tomllib_available w); simpl; [|by left].
  match goal with |- context [match ?o with Some _ => _ | None => _ end = _ \/ _] =>
    destruct o as [f|] end; [|by left].
  destruct (path_exists w f) eqn:He; [|by left].
  destruct (toml_load w f) as [t|] eqn:Ht; [|by left].
  right. split; [done|]. by exists f.
Qed.

Lemma load_config_no_tomllib default_config w environ config_path :
  tomllib_available w = false ->
  load_config_with default_config w environ config_path = default_config.
Proof. unfold load_config_with. by intros ->. Qed.

Lemma load_config_no_file default_config w environ config_path :
  (forall p, path_exists w p = false) ->
  load_config_with default_config w environ config_path = default_config.
Proof.
  intros Hno.
  destruct (load_config_cases default_config w environ config_path)
    as [? | (_ & f & Hf & _)]; [done|].
  by rewrite Hno in Hf.
Qed.

Lemma load_config_unparsable default_config w environ f :
  nonempty f = true -> toml_load w f = None ->
  load_config_with default_config w environ (Some f) = default_config.
Proof.
  unfold load_config_with. intros Hf Ht. simpl. rewrite Hf, Ht.
  destruct (tomllib_available w); simpl; [|done]. by destruct (path_exists w f).
Qed.

Lemma load_config_explicit default_config w environ f t :
  tomllib_available w = true -> nonempty f = true ->
  path_exists w f = true -> toml_load w f = Some t ->
  load_config_with default_config w environ (Some f) = t.
Proof.
  unfold load_config_with. intros -> Hf He Ht. simpl. by rewrite Hf, He, Ht.
Qed.

Lemma env_layer_value_other environ k old :
  str_in k ["skip_query"; "skip_batch"; "verbose"; "default_ensembles_file"] = false ->
  env_layer_value environ k old = old.
Proof.
  unfold env_layer_value. simpl. rewrite !orb_false_iff.
  intros (-> & -> & -> & -> & _). by rewrite !andb_false_r.
Qed.

Lemma env_layer_frame environ base cfg section key :
  _apply_env_overrides environ base = Ok cfg ->
  env_overridable section key = false ->
  tree_lookup cfg section key = tree_lookup base section key.
Proof.
  intros Hov Hkey.
  destruct (apply_env_overrides_inv _ _ _ Hov) as [-> | (b & Hb)]; [done|].
  destruct (apply_env_overrides_table environ base b Hb) as (cfg' & b' & Hr & Hb' & Hs & Hk).
  rewrite Hov in Hr. injection Hr as <-.
  unfold tree_lookup, env_overridable in *.
  destruct (String.eqb_spec section "build") as [->|Hne].
  - rewrite Hb, Hb', Hk. by apply env_layer_value_other.
  - by rewrite Hs.
Qed.

Lemma init_inv w environ config_path self :
  __init__ w environ config_path = Ok self ->
  _apply_env_overrides environ (_load_config w environ config_path) = Ok (config self) /\
  exists printed, _validate_config self = Ok printed.
Proof.
  unfold __init__. intros H. bind_inv H. bind_inv H. injection H as <-. eauto.
Qed.

(** A loaded file that sets only [skip_query] leaves the resolved tree
    without [precision]: the default [double] is not filled in. *)
Lemma C1_counterexample :
  exists self,
    __init__ (world_with_file (Some 8%positive) skip_query_file) ∅ None = Ok self /\
    ~ defaults_fill_in (world_with_file (Some 8%positive) skip_query_file)
        skip_query_file self.
Proof.
  exists {| config := skip_query_file |}. split; [reflexivity|].
  intros H. specialize (H "build" "precision" (VStr "double") eq_refl eq_refl).
  discriminate.
Qed.

(** C1, as amended.  The base tree of a resolution is the tree of the
    loaded file, whole, when a file loads, and the built-in defaults
    otherwise: the two are not merged.  The environment layer then
    changes the enumerated keys only: at every other key the resolved
    tree has what the base tree has, value or absence.  So a key set in
    the file keeps the file's value whatever the environment, and a key
    of the defaults that a loaded file leaves out is absent from the
    resolved tree. *)
Theorem C1_layers_without_merge
    (w : world) (environ : gmap string string) (config_path : option string)
    (self : SigmondConfig) :
  __init__ w environ config_path = Ok self ->
  let base := _load_config w environ config_path in
  (base = _default_config w \/
   exists f, path_exists w f = true /\ toml_load w f = Some base) /\
  (forall f t, config_path = Some f -> tomllib_available w = true ->
               nonempty f = true -> path_exists w f = true ->
               toml_load w f = Some t -> base = t) /\
  (forall section key,
      env_overridable section key = false ->
      tree_lookup (config self) section key = tree_lookup base section key).
Proof.
  intros Hinit base. apply init_inv in Hinit as (Hov & _).
  split_and!.
  - destruct (load_config_cases (_default_config w) w environ config_path)
      as [? | (_ & ?)]; [by left | by right].
  - intros f t -> ? ? ? ?. subst base. unfold _load_config.
    by apply (load_config_explicit _ w environ f t).
  - intros section key. by apply (env_layer_frame environ).
Qed.

(** A file that sets only the precision, resolved with
    [SIGMOND_VERBOSE=1]: the precision is the file's, the numbers are
    absent. *)
Lemma C1_layers_without_merge_witness :
  exists self,
    __init__ verbose_world verbose_environ None = Ok self /\
    tree_lookup (config self) "build" "precision" = Some (VStr "single") /\
    tree_lookup (config self) "build" "numbers" = None.
Proof.
  exists {| config := [("build", VDict [("precision", VStr "single");
                                        ("verbose", VBool true)])] |}.
  assert (Hinit : __init__ verbose_world verbose_environ None
                  = Ok {| config := [("build", VDict [("precision", VStr "single");
                                                      ("verbose", VBool true)])] |})
    by (vm_compute; reflexivity).
  destruct (C1_layers_without_merge _ _ _ _ Hinit) as (_ & _ & H).
  split; [exact Hinit|]. split; rewrite H; reflexivity.
Defined.

(** *** Validation and the accessors *)






Lemma library_warning_Ok self b enable_key lib include_key library_key msg warnings :
  negb (enabled b enable_key) || library_table (config self) lib = true ->
  exists warnings',
    library_warning self (VDict b) enable_key lib include_key library_key msg warnings
    = Ok warnings'.
Proof.
  unfold library_warning, library_table, enabled. simpl.
  destruct (truthy _); simpl; [|eauto]. intros Ht.
  destruct (dict_lookup "libraries" (config self)) as [[| | | | |?|libs]|]; simpl in *;
    try discriminate.
  - destruct (dict_lookup lib libs) as [[| | | | |?|d]|]; simpl in *; try discriminate.
    + destruct (truthy (default VNone (dict_lookup include_key d))); simpl; [eauto|].
      destruct (truthy (default VNone (dict_lookup library_key d))); simpl; eauto.
    + eauto.
  - eauto.
Qed.

Lemma library_warning_raises self b enable_key lib include_key library_key msg warnings :
  negb (enabled b enable_key) || library_table (config self) lib = false ->
  library_warning self (VDict b) enable_key lib include_key library_key msg warnings
  = Raise AttributeError.
Proof.
  unfold library_warning, library_table, enabled. simpl.
  destruct (truthy _); simpl; [|done]. intros Ht.
  destruct (dict_lookup "libraries" (config self)) as [[| | | | |?|libs]|]; simpl in *;
    try done.
  destruct (dict_lookup lib libs) as [[| | | | |?|d]|]; simpl in *; done.
Qed.

(** Without them the validator raises [AttributeError], whatever the
    checks found. *)
Lemma validate_config_attribute_error include_key library_key self b :
  dict_lookup "build" (config self) = Some (VDict b) ->
  library_tables (config self) b = false ->
  validate_config_with include_key library_key self = Raise AttributeError.
Proof.
  intros Hb Ht. unfold validate_config_with.
  cbn [get mbind result_bind]. rewrite Hb.
  cbn [get default from_option id mbind result_bind].
  unfold library_tables in Ht. apply andb_false_iff in Ht.
  destruct (negb (enabled b "enable_minuit") || library_table (config self) "minuit2")
    eqn:Hm.
  - destruct Ht as [Ht | Ht]; [done|].
    destruct (library_warning_Ok self b "enable_minuit" "minuit2" include_key library_key
      "Minuit2 is enabled but no library paths specified. Auto-detection will be attempted."
      [] Hm) as (w1 & ->).
    cbn [mbind result_bind]. by rewrite library_warning_raises.
  - by rewrite library_warning_raises.
Qed.

Lemma validate_config_collects include_key library_key self b :
  dict_lookup "build" (config self) = Some (VDict b) ->
  library_tables (config self) b = true ->
  let errors :=
    collected_errors
      (default (VStr "double") (dict_lookup "precision" b))
      (default (VStr "complex") (dict_lookup "numbers" b))
      (default (VStr "hdf5") (dict_lookup "default_file_format" b))
      (default (VInt 0) (dict_lookup "build_jobs" b)) in
  match errors with
  | [] => exists printed, validate_config_with include_key library_key self = Ok printed
  | _ => validate_config_with include_key library_key self
         = Raise (ValueError (error_report errors))
  end.
Proof.
  intros Hb Ht. unfold validate_config_with, collected_errors.
  cbn [get mbind result_bind]. rewrite Hb.
  cbn [get default from_option id mbind result_bind].
  apply andb_true_iff in Ht as [Hm Hg].
  destruct (library_warning_Ok self b "enable_minuit" "minuit2" include_key library_key
    "Minuit2 is enabled but no library paths specified. Auto-detection will be attempted."
    [] Hm) as (w1 & ->).
  cbn [mbind result_bind].
  destruct (library_warning_Ok self b "enable_grace" "grace" include_key library_key
    "Grace is enabled but no library paths specified. Auto-detection will be attempted."
    w1 Hg) as (w2 & ->).
  cbn [mbind result_bind].
  set (sq := (if truthy _ then Ok _ else Ok _) : result value).
  assert (exists x, sq = Ok x) as (x & ->) by (subst sq; destruct (truthy _); eauto).
  cbn [mbind result_bind].
  destruct (in_strs (default (VStr "double") (dict_lookup "precision" b)) _),
    (in_strs (default (VStr "complex") (dict_lookup "numbers" b)) _),
    (in_strs (default (VStr "hdf5") (dict_lookup "default_file_format" b)) _),
    (bad_build_jobs (default (VInt 0) (dict_lookup "build_jobs" b)));
    cbn [negb app]; try reflexivity.
  set (ws := if truthy x then _ else _).
  destruct ws; cbn [mbind result_bind]; [eauto|].
  destruct (truthy _); eauto.
Qed.





(** C9. Passing validation does not make the accessors total: validation
    reads fields through defaulted lookups, the accessors and the
    flag-vector renderer index the tree.  A parsed file whose build
    section omits [precision] validates, and [get_precision] and
    [get_cmake_args] raise [KeyError]; one that has the enumerations and
    omits [skip_query] validates too, and [get_cmake_args] raises
    [KeyError] on [skip_query]. *)
Theorem C9_validated_tree_facade_raises :
  (exists self,
      __init__ (world_with_file (Some 8%positive) partial_file) ∅ None = Ok self /\
      _validate_config self = Ok [] /\
      get_precision self = Raise (KeyError "precision") /\
      get_cmake_args self = Raise (KeyError "precision")) /\
  (exists self,
      __init__ (world_with_file (Some 8%positive) enums_only_file) ∅ None = Ok self /\
      get_precision self = Ok (VStr "single") /\
      get_cmake_args self = Raise (KeyError "skip_query")).
Proof.
  split.
  - exists {| config := partial_file |}. vm_compute. auto.
  - exists {| config := enums_only_file |}. vm_compute. auto.
Qed.

(** *** The scenario of the defaults *)

Lemma cpu_count_or_1_nonzero w : cpu_count_or_1 w <> 0.
Proof.
  unfold cpu_count_or_1. destruct (cpu_count w) as [n|]; lia.
Qed.

Lemma init_defaults w config_path :
  _load_config w ∅ config_path = _default_config w ->
  __init__ w ∅ config_path = Ok {| config := _default_config w |}.
Proof.
  unfold __init__. intros ->.
  unfold _default_config, cpu_count_or_1. by destruct (cpu_count w).
Qed.

Lemma default_cmake_args w :
  get_cmake_args {| config := _default_config w |}
  = Ok (core_and_testing ++ ["-DDEFAULTENSFILE=" +:+ default_ensembles_path]).
Proof. reflexivity. Qed.

(** With no file anywhere the resolved job count is the processor count,
    here 8 and not 0, and the flag vector has a fifth definition; with
    an empty file loaded the tree is empty and the accessors raise. *)
Lemma C2_counterexample :
  ~ empty_layer_scenario (bare_world (Some 8%positive)) /\
  ~ empty_layer_scenario (world_with_file (Some 8%positive) []) /\
  section_item {| config := _default_config (bare_world (Some 8%positive)) |}
    "build" "build_jobs" = Ok (VInt 8) /\
  get_cmake_args {| config := _default_config (bare_world (Some 8%positive)) |}
  <> Ok core_and_testing.
Proof.
  split_and!; [| | reflexivity | discriminate];
    intros (self & Hinit & Hp & _ & _ & Hjobs & _).
  - vm_compute in Hinit. injection Hinit as <-. vm_compute in Hjobs. discriminate.
  - vm_compute in Hinit. injection Hinit as <-. vm_compute in Hp. discriminate.
Qed.

(** C2, as amended.  When the loader falls back to the built-in defaults
    and no environment variable is set, construction succeeds with
    precision [double], numbers [complex], file format [hdf5] and the
    job count [os.cpu_count() or 1], which is never 0; apart from the
    default-data-file definition, the flag vector is the three core
    definitions followed by [-DENABLE_TESTING=ON]. *)
Theorem C2_defaults_scenario (w : world) (config_path : option string) :
  _load_config w ∅ config_path = _default_config w ->
  exists self args,
    __init__ w ∅ config_path = Ok self /\
    get_precision self = Ok (VStr "double") /\
    get_numbers_type self = Ok (VStr "complex") /\
    get_default_file_format self = Ok (VStr "hdf5") /\
    section_item self "build" "build_jobs" = Ok (VInt (cpu_count_or_1 w)) /\
    cpu_count_or_1 w <> 0 /\
    get_cmake_args self = Ok args /\
    filter (fun a => negb (startswith "-DDEFAULTENSFILE=" a)) args = core_and_testing.
Proof.
  intros Hload.
  exists {| config := _default_config w |}, (core_and_testing ++ ["-DDEFAULTENSFILE=" +:+ default_ensembles_path]).
  split; [by apply init_defaults|].
  split_and!; try reflexivity. apply cpu_count_or_1_nonzero.
Qed.

(** The scenario in a world with no file and eight processors. *)
Lemma C2_defaults_scenario_witness :
  exists self args,
    __init__ (bare_world (Some 8%positive)) ∅ None = Ok self /\
    get_precision self = Ok (VStr "double") /\
    get_numbers_type self = Ok (VStr "complex") /\
    get_default_file_format self = Ok (VStr "hdf5") /\
    section_item self "build" "build_jobs" = Ok (VInt (cpu_count_or_1 (bare_world (Some 8%positive)))) /\
    cpu_count_or_1 (bare_world (Some 8%positive)) <> 0 /\
    get_cmake_args self = Ok args /\
    filter (fun a => negb (startswith "-DDEFAULTENSFILE=" a)) args = core_and_testing.
Proof. apply (C2_defaults_scenario (bare_world (Some 8%positive)) None). reflexivity. Defined.

(** *** The extra definitions *)

Lemma extra_items_loop_map items args :
  extra_items_loop items args = args ++ map render_pair items.
Proof.
  unfold extra_items_loop. revert args.
  induction items as [|kv items IH]; intros args; simpl.
  - by rewrite app_nil_r.
  - rewrite IH. by rewrite <- app_assoc.
Qed.

Lemma extra_defs_loop_split entries args items :
  extra_defs_loop entries args items
  = (args ++ string_entries entries,
     items ++ flat_map (fun e => match e with VDict d => d | _ => [] end) entries).
Proof.
  revert args items. induction entries as [|e entries IH]; intros args items; simpl.
  - by rewrite !app_nil_r.
  - destruct e; simpl; rewrite ?IH; try done.
    + unfold render_string_entry. destruct (startswith "-D" (strip s));
        by rewrite <- app_assoc.
    + by rewrite <- app_assoc.
Qed.







(** *** The flag vector, block by block *)

Lemma appends_Ok blk args r :
  appends blk -> blk args = Ok r -> exists seg, blk [] = Ok seg /\ r = args ++ seg.
Proof.
  intros H Hr. rewrite H in Hr. destruct (blk []) as [seg|]; [|discriminate].
  injection Hr as <-. eauto.
Qed.

Lemma appends_seq blk1 blk2 :
  appends blk1 -> appends blk2 -> appends (fun args => blk1 args ≫= blk2).
Proof.
  intros H1 H2 args. rewrite (H1 args). destruct (blk1 []) as [s1|]; simpl; [|done].
  rewrite (H2 (args ++ s1)), (H2 s1). destruct (blk2 []) as [s2|]; simpl; [|done].
  by rewrite app_assoc.
Qed.

Lemma appends_bind {A} (m : result A) (k : A -> list string -> result (list string)) :
  (forall a, appends (k a)) -> appends (fun args => m ≫= fun a => k a args).
Proof. intros H args. destruct m as [a|]; simpl; [apply H | done]. Qed.

Lemma appends_if (c : bool) blk1 blk2 :
  appends blk1 -> appends blk2 -> appends (fun args => if c then blk1 args else blk2 args).
Proof. by destruct c. Qed.

Lemma appends_skip : appends (fun args => Ok args).
Proof. intros args. simpl. by rewrite app_nil_r. Qed.

Lemma appends_entries seg : appends (fun args => Ok (args ++ seg)).
Proof. intros args. done. Qed.

Lemma appends_entries_if (c : bool) seg :
  appends (fun args => Ok (if c then args ++ seg else args)).
Proof. intros args. destruct c; simpl; [done | by rewrite app_nil_r]. Qed.

Lemma args_core_appends self : appends (args_core self).
Proof.
  unfold args_core.
  apply appends_bind; intros p. apply appends_bind; intros precision.
  apply appends_bind; intros n. apply appends_bind; intros numbers.
  apply appends_bind; intros f. apply appends_bind; intros file_format.
  intros args. simpl. by rewrite <- !app_assoc.
Qed.

Lemma flag_if_appends self key flag : appends (flag_if self key flag).
Proof.
  unfold flag_if. apply appends_bind; intros v. apply appends_entries_if.
Qed.

Lemma args_build_control_appends self : appends (args_build_control self).
Proof.
  unfold args_build_control.
  repeat (apply (appends_seq (flag_if self _ _)); [apply flag_if_appends|]).
  apply flag_if_appends.
Qed.

Lemma args_verbose_appends self : appends (args_verbose self).
Proof.
  unfold args_verbose. apply appends_bind; intros v.
  intros args. destruct (truthy v); simpl; [by rewrite <- app_assoc | by rewrite app_nil_r].
Qed.

Lemma args_testing_appends self : appends (args_testing self).
Proof.
  unfold args_testing. apply appends_bind; intros v.
  intros args. by destruct (truthy v).
Qed.

Lemma install_dir_appends self key name : appends (install_dir self key name).
Proof.
  unfold install_dir. apply appends_bind; intros v.
  apply appends_if; [|apply appends_skip].
  apply appends_bind; intros v'. apply appends_entries.
Qed.

Lemma args_install_dirs_appends self : appends (args_install_dirs self).
Proof.
  unfold args_install_dirs.
  apply (appends_seq (install_dir self _ _)); apply install_dir_appends.
Qed.

Lemma args_default_ens_file_appends self : appends (args_default_ens_file self).
Proof.
  unfold args_default_ens_file. apply appends_bind; intros build.
  apply appends_bind; intros d. apply appends_entries_if.
Qed.

Lemma args_extra_defs_appends self : appends (args_extra_defs self).
Proof.
  unfold args_extra_defs. apply appends_bind; intros build.
  apply appends_bind; intros extra_defs. intros args.
  destruct extra_defs; cbn [fmap result_fmap];
    rewrite ?extra_defs_loop_split, ?extra_items_loop_map;
    cbn [app map fmap result_fmap]; by rewrite ?app_nil_r, ?app_assoc.
Qed.

Lemma path_def_appends cfg key name : appends (path_def cfg key name).
Proof.
  unfold path_def. apply appends_bind; intros x.
  apply appends_if; [|apply appends_skip].
  apply appends_bind; intros v. apply appends_entries.
Qed.

Lemma library_path_appends self lib key name : appends (library_path self lib key name).
Proof.
  unfold library_path. apply appends_bind; intros libs.
  apply appends_bind; intros present.
  apply appends_if; [|apply appends_skip].
  apply appends_bind; intros libs'. apply appends_bind; intros lib_config.
  apply path_def_appends.
Qed.

Lemma optional_library_appends self enable lib name :
  appends (optional_library self enable lib name).
Proof.
  unfold optional_library. apply appends_bind; intros en.
  apply appends_bind; intros present.
  apply appends_if; [|apply appends_skip].
  apply appends_bind; intros libs. apply appends_bind; intros lib_config.
  apply (appends_seq (path_def _ _ _)); apply path_def_appends.
Qed.

Lemma args_libraries_appends self : appends (args_libraries self).
Proof.
  unfold args_libraries.
  apply (appends_seq (library_path self _ _ _)); [apply library_path_appends|].
  apply (appends_seq (library_path self _ _ _)); [apply library_path_appends|].
  apply (appends_seq (library_path self _ _ _)); [apply library_path_appends|].
  apply (appends_seq (optional_library self _ _ _)); [apply optional_library_appends|].
  apply (appends_seq (optional_library self _ _ _)); [apply optional_library_appends|].
  apply library_path_appends.
Qed.

Lemma args_compilers_appends self : appends (args_compilers self).
Proof.
  unfold args_compilers. destruct (dict_lookup "compiler" (config self)) as [c|].
  - apply (appends_seq (path_def _ _ _)); apply path_def_appends.
  - apply appends_skip.
Qed.

Lemma sparse_of_app ps1 ps2 s1 s2 :
  sparse_of ps1 s1 -> sparse_of ps2 s2 -> sparse_of (ps1 ++ ps2) (s1 ++ s2).
Proof. induction 1; intros; simpl; [done | by constructor; auto | by constructor; auto]. Qed.

Lemma sparse_of_single p s :
  s = [] \/ (exists v, s = [p +:+ v]) -> sparse_of [p] s.
Proof.
  intros [-> | (v & ->)]; [apply sparse_skip | apply sparse_emit]; apply sparse_nil.
Qed.

Lemma args_core_shape self core :
  args_core self [] = Ok core ->
  exists p n f,
    get_precision self = Ok (VStr p) /\
    get_numbers_type self = Ok (VStr n) /\
    get_default_file_format self = Ok (VStr f) /\
    core = ["-DPRECISION=" +:+ lower p; "-DNUMBERS=" +:+ lower n;
            "-DDEFAULT_FILE_FORMAT=" +:+ lower f].
Proof.
  unfold args_core, get_precision, get_numbers_type, get_default_file_format.
  intros H. do 6 bind_inv H. injection H as <-.
  destruct a as [| | |p| | |]; try discriminate. injection Ha0 as <-.
  destruct a1 as [| | |n| | |]; try discriminate. injection Ha2 as <-.
  destruct a3 as [| | |f| | |]; try discriminate. injection Ha4 as <-.
  by exists p, n, f.
Qed.

Lemma flag_if_shape self key flag s :
  flag_if self key flag [] = Ok s -> s = [] \/ s = [flag].
Proof.
  unfold flag_if. intros H. bind_inv H. injection H as <-.
  destruct (truthy a); auto.
Qed.

Lemma sublist_single (x : string) s : s = [] \/ s = [x] -> sublist s [x].
Proof. intros [-> | ->]; [apply sublist_nil_l | done]. Qed.

Lemma args_build_control_shape self control :
  args_build_control self [] = Ok control -> sublist control control_flags.
Proof.
  unfold args_build_control. intros H. do 3 bind_inv H.
  apply flag_if_shape, sublist_single in Ha.
  apply (appends_Ok _ _ _ (flag_if_appends _ _ _)) in Ha0 as (s2 & Hs2 & ->).
  apply (appends_Ok _ _ _ (flag_if_appends _ _ _)) in Ha1 as (s3 & Hs3 & ->).
  apply (appends_Ok _ _ _ (flag_if_appends _ _ _)) in H as (s4 & Hs4 & ->).
  apply flag_if_shape, sublist_single in Hs2, Hs3, Hs4.
  rewrite <- !app_assoc.
  change control_flags with (["-DSKIP_SIGMOND_QUERY=ON"] ++ ["-DSKIP_SIGMOND_BATCH=ON"]
                             ++ ["-DENABLE_MINUIT=ON"] ++ ["-DENABLE_GRACE=ON"]).
  by repeat apply sublist_app.
Qed.

Lemma args_verbose_shape self verbose :
  args_verbose self [] = Ok verbose ->
  verbose = [] \/ verbose = ["-DSIGMOND_VERBOSE=ON"; "-DCMAKE_FIND_DEBUG_MODE=ON"].
Proof.
  unfold args_verbose. intros H. bind_inv H. injection H as <-.
  destruct (truthy a); auto.
Qed.

Lemma args_testing_shape self testing :
  args_testing self [] = Ok testing ->
  testing = ["-DENABLE_TESTING=ON"] \/ testing = ["-DENABLE_TESTING=OFF"].
Proof.
  unfold args_testing. intros H. bind_inv H. injection H as <-.
  destruct (truthy a); auto.
Qed.

Lemma install_dir_shape self key name s :
  install_dir self key name [] = Ok s ->
  s = [] \/ exists v, s = [("-D" +:+ name +:+ "=") +:+ v].
Proof.
  unfold install_dir. intros H. bind_inv H. destruct (truthy a).
  - bind_inv H. injection H as <-. right. exists (py_str a0).
    simpl. by rewrite !app_assoc_str.
  - injection H as <-. by left.
Qed.

Lemma args_install_dirs_shape self install :
  args_install_dirs self [] = Ok install ->
  sparse_of ["-DSIGMOND_BATCH_INSTALL_DIR="; "-DSIGMOND_QUERY_INSTALL_DIR="] install.
Proof.
  unfold args_install_dirs. intros H. bind_inv H.
  apply (appends_Ok _ _ _ (install_dir_appends _ _ _)) in H as (s2 & Hs2 & ->).
  apply install_dir_shape in Ha, Hs2.
  apply (sparse_of_app [_] [_]); by apply sparse_of_single.
Qed.

Lemma args_default_ens_file_shape self ens :
  args_default_ens_file self [] = Ok ens -> sparse_of ["-DDEFAULTENSFILE="] ens.
Proof.
  unfold args_default_ens_file. intros H. do 2 bind_inv H. injection H as <-.
  apply sparse_of_single. destruct (truthy a0); [right; by eexists | by left].
Qed.

Lemma path_def_shape cfg key name s :
  path_def cfg key name [] = Ok s ->
  s = [] \/ exists v, s = [("-D" +:+ name +:+ "=") +:+ v].
Proof.
  unfold path_def. intros H. bind_inv H. destruct (truthy a).
  - bind_inv H. injection H as <-. right. exists (py_str a0).
    simpl. by rewrite !app_assoc_str.
  - injection H as <-. by left.
Qed.

Lemma library_path_shape self lib key name s :
  library_path self lib key name [] = Ok s ->
  s = [] \/ exists v, s = [("-D" +:+ name +:+ "=") +:+ v].
Proof.
  unfold library_path. intros H. do 2 bind_inv H. destruct a0.
  - do 2 bind_inv H. by apply path_def_shape in H.
  - injection H as <-. by left.
Qed.

Lemma optional_library_shape self enable lib name s :
  optional_library self enable lib name [] = Ok s ->
  sparse_of [ "-D" +:+ ("SIGMOND_" +:+ name +:+ "_INCLUDE_DIR") +:+ "=";
              "-D" +:+ ("SIGMOND_" +:+ name +:+ "_LIBRARY_DIR") +:+ "=" ] s.
Proof.
  unfold optional_library. intros H. do 2 bind_inv H. destruct a0.
  - do 3 bind_inv H.
    apply (appends_Ok _ _ _ (path_def_appends _ _ _)) in H as (s2 & Hs2 & ->).
    apply path_def_shape in Ha3, Hs2.
    apply (sparse_of_app [_] [_]); by apply sparse_of_single.
  - injection H as <-. repeat constructor.
Qed.

Lemma args_libraries_shape self libs :
  args_libraries self [] = Ok libs -> sparse_of library_prefixes libs.
Proof.
  unfold args_libraries. intros H. do 5 bind_inv H.
  apply (appends_Ok _ _ _ (library_path_appends _ _ _ _)) in Ha0 as (s2 & Hs2 & ->).
  apply (appends_Ok _ _ _ (library_path_appends _ _ _ _)) in Ha1 as (s3 & Hs3 & ->).
  apply (appends_Ok _ _ _ (optional_library_appends _ _ _ _)) in Ha2 as (s4 & Hs4 & ->).
  apply (appends_Ok _ _ _ (optional_library_appends _ _ _ _)) in Ha3 as (s5 & Hs5 & ->).
  apply (appends_Ok _ _ _ (library_path_appends _ _ _ _)) in H as (s6 & Hs6 & ->).
  apply library_path_shape, sparse_of_single in Ha, Hs2, Hs3, Hs6.
  apply optional_library_shape in Hs4, Hs5.
  rewrite <- !app_assoc.
  apply (sparse_of_app [_]); [done|]. apply (sparse_of_app [_]); [done|].
  apply (sparse_of_app [_]); [done|]. apply (sparse_of_app [_; _]); [done|].
  by apply (sparse_of_app [_; _] [_]).
Qed.

Lemma args_compilers_shape self comp :
  args_compilers self [] = Ok comp ->
  sparse_of ["-DCMAKE_C_COMPILER="; "-DCMAKE_CXX_COMPILER="] comp.
Proof.
  unfold args_compilers. destruct (dict_lookup "compiler" (config self)) as [c|].
  - intros H. bind_inv H.
    apply (appends_Ok _ _ _ (path_def_appends _ _ _)) in H as (s2 & Hs2 & ->).
    apply path_def_shape in Ha, Hs2.
    apply (sparse_of_app [_] [_]); by apply sparse_of_single.
  - intros [= <-]. repeat constructor.
Qed.

Lemma path_def_table d key var args :
  path_def (VDict d) key var args = Ok (args ++ compiler_def d key var).
Proof.
  unfold path_def, compiler_def. simpl.
  destruct (dict_lookup key d) as [v|]; simpl; [|by rewrite app_nil_r].
  destruct (truthy v); simpl; [|by rewrite app_nil_r].
  by rewrite !app_assoc_str.
Qed.

(** Trees on which the renderer returns. *)

Lemma has_key_item self b key :
  dict_lookup "build" (config self) = Some (VDict b) ->
  has_key b key = true ->
  exists x, section_item self "build" key = Ok x.
Proof.
  unfold has_key, section_item. simpl. intros ->. simpl.
  destruct (dict_lookup key b); [eauto | done].
Qed.

Lemma has_str_item self b key :
  dict_lookup "build" (config self) = Some (VDict b) ->
  has_str b key = true ->
  exists s, section_item self "build" key = Ok (VStr s).
Proof.
  unfold has_str, section_item. simpl. intros ->. simpl.
  destruct (dict_lookup key b) as [[]|]; try done. eauto.
Qed.

Lemma path_def_total d key name args :
  exists r, path_def (VDict d) key name args = Ok r.
Proof. rewrite path_def_table. eauto. Qed.

Lemma library_path_total self libs lib key name args :
  dict_lookup "libraries" (config self) = Some (VDict libs) ->
  table_or_absent (dict_lookup lib libs) = true ->
  exists r, library_path self lib key name args = Ok r.
Proof.
  unfold library_path. simpl. intros -> Ht. simpl.
  destruct (dict_lookup lib libs) as [[| | | | | |d]|]; try done.
  - rewrite bool_decide_eq_true_2 by eauto. cbn [mbind result_bind].
    rewrite path_def_table. eauto.
  - rewrite bool_decide_eq_false_2 by (by intros [? ?]). eauto.
Qed.

Lemma optional_library_total self b libs enable lib name args :
  dict_lookup "build" (config self) = Some (VDict b) ->
  dict_lookup "libraries" (config self) = Some (VDict libs) ->
  has_key b enable = true ->
  table_or_absent (dict_lookup lib libs) = true ->
  exists r, optional_library self enable lib name args = Ok r.
Proof.
  intros Hb Hl Hk Ht. unfold optional_library.
  destruct (has_key_item self b enable Hb Hk) as (x & ->). simpl. rewrite Hl. simpl.
  destruct (truthy x); simpl; [|eauto].
  destruct (dict_lookup lib libs) as [[| | | | | |d]|]; try done.
  - rewrite bool_decide_eq_true_2 by eauto. cbn [mbind result_bind].
    rewrite path_def_table. cbn [mbind result_bind]. rewrite path_def_table. eauto.
  - rewrite bool_decide_eq_false_2 by (by intros [? ?]). eauto.
Qed.

Lemma get_cmake_args_total self :
  schema_complete (config self) = true ->
  exists args, get_cmake_args self = Ok args.
Proof.
  unfold schema_complete.
  destruct (dict_lookup "build" (config self)) as [[| | | | | |b]|] eqn:Hb; try done.
  destruct (dict_lookup "libraries" (config self)) as [[| | | | | |libs]|] eqn:Hl; try done.
  intros H. apply andb_true_iff in H as [H1 Hc]. apply andb_true_iff in H1 as [H2 Hlib].
  apply andb_true_iff in H2 as [Hs Hk].
  simpl in Hs, Hk, Hlib.
  rewrite !andb_true_iff in Hs. rewrite !andb_true_iff in Hk.
  rewrite !andb_true_iff in Hlib.
  destruct Hs as (Hp & Hn & Hf & _).
  destruct Hk as (Hsq & Hsb & Hem & Heg & Hv & Het & Hbi & Hqi & _).
  destruct Hlib as (Hh5 & Hbl & Hla & Hmi & Hgr & Hac & _).
  unfold get_cmake_args.
  (* precision, numbers, file format *)
  unfold args_core.
  destruct (has_str_item self b _ Hb Hp) as (p & ->).
  destruct (has_str_item self b _ Hb Hn) as (n & ->).
  destruct (has_str_item self b _ Hb Hf) as (f & ->). simpl.
  (* build control, verbose, testing *)
  unfold args_build_control, flag_if, args_verbose, args_testing.
  destruct (has_key_item self b _ Hb Hsq) as (sq & ->).
  destruct (has_key_item self b _ Hb Hsb) as (sb & ->).
  destruct (has_key_item self b _ Hb Hem) as (em & ->).
  destruct (has_key_item self b _ Hb Heg) as (eg & ->).
  destruct (has_key_item self b _ Hb Hv) as (v & ->).
  destruct (has_key_item self b _ Hb Het) as (et & ->). simpl.
  (* install directories *)
  unfold args_install_dirs, install_dir.
  destruct (has_key_item self b _ Hb Hbi) as (bi & ->).
  destruct (has_key_item self b _ Hb Hqi) as (qi & ->). simpl.
  match goal with |- context [(if truthy bi then ?x else ?y) ≫= _] =>
    assert (exists r, (if truthy bi then x else y) = Ok r) as (r1 & ->)
      by (destruct (truthy bi); eauto) end. simpl.
  match goal with |- context [(if truthy qi then ?x else ?y) ≫= _] =>
    assert (exists r, (if truthy qi then x else y) = Ok r) as (r2 & ->)
      by (destruct (truthy qi); eauto) end. simpl.
  (* default ensembles file, extra definitions *)
  unfold args_default_ens_file, args_extra_defs. simpl. rewrite Hb. simpl.
  match goal with |- context [(let '(a, i) := ?m in Ok (extra_items_loop i a)) ≫= _] =>
    destruct m as [a i] end. simpl.
  (* libraries *)
  unfold args_libraries.
  match goal with |- context [library_path self "hdf5" ?k ?n ?a] =>
    destruct (library_path_total self libs "hdf5" k n a Hl Hh5) as (r3 & ->) end. simpl.
  match goal with |- context [library_path self "blas" ?k ?n ?a] =>
    destruct (library_path_total self libs "blas" k n a Hl Hbl) as (r4 & ->) end. simpl.
  match goal with |- context [library_path self "lapack" ?k ?n ?a] =>
    destruct (library_path_total self libs "lapack" k n a Hl Hla) as (r5 & ->) end. simpl.
  match goal with |- context [optional_library self ?e "minuit2" ?n ?a] =>
    destruct (optional_library_total self b libs e "minuit2" n a Hb Hl Hem Hmi) as (r6 & ->) end.
  simpl.
  match goal with |- context [optional_library self ?e "grace" ?n ?a] =>
    destruct (optional_library_total self b libs e "grace" n a Hb Hl Heg Hgr) as (r7 & ->) end.
  simpl.
  match goal with |- context [library_path self "accelerate" ?k ?n ?a] =>
    destruct (library_path_total self libs "accelerate" k n a Hl Hac) as (r8 & ->) end. simpl.
  (* compilers *)
  unfold args_compilers.
  destruct (dict_lookup "compiler" (config self)) as [[| | | | | |c]|]; try done; [|eauto].
  destruct (path_def_total c "c_compiler" "CMAKE_C_COMPILER" r8) as (r9 & ->). simpl.
  apply path_def_total.
Qed.

Lemma default_config_complete w : schema_complete (_default_config w) = true.
Proof. reflexivity. Qed.

(** *** The cache file *)


Lemma rendered_lookup d d' k :
  rendered d = rendered d' ->
  py_str <$> dict_lookup k d = py_str <$> dict_lookup k d'.
Proof.
  revert d'. induction d as [|[k0 v0] d IH]; intros [|[k1 v1] d']; simpl; try done.
  intros [= -> Hv Hd]. destruct (String.eqb k k1); simpl; [by rewrite Hv | by apply IH].
Qed.

Lemma rendered_set k v d :
  py_str <$> dict_lookup k d = Some (py_str v) ->
  rendered (dict_set k v d) = rendered d.
Proof.
  induction d as [|[k0 v0] d IH]; simpl; [done|].
  destruct (String.eqb_spec k k0) as [->|Hne]; simpl.
  - by intros [= ->].
  - intros H. by rewrite IH.
Qed.

Lemma get_cmake_args_compilers self d args :
  get_cmake_args self = Ok args ->
  dict_lookup "compiler" (config self) = Some (VDict d) ->
  exists pre,
    args = pre ++ compiler_def d "c_compiler" "CMAKE_C_COMPILER"
               ++ compiler_def d "cxx_compiler" "CMAKE_CXX_COMPILER".
Proof.
  unfold get_cmake_args. intros H Hc. do 8 bind_inv H.
  unfold args_compilers in H. rewrite Hc in H.
  rewrite path_def_table in H. simpl in H. rewrite path_def_table in H.
  injection H as <-. exists a6. by rewrite <- app_assoc.
Qed.

Lemma fold_arg_c_compiler cv v :
  fold_arg cv ("-DCMAKE_C_COMPILER=" +:+ v) = dict_set "CMAKE_C_COMPILER" (VStr v) cv.
Proof. reflexivity. Qed.

Lemma fold_arg_cxx_compiler cv v :
  fold_arg cv ("-DCMAKE_CXX_COMPILER=" +:+ v) = dict_set "CMAKE_CXX_COMPILER" (VStr v) cv.
Proof. reflexivity. Qed.

Lemma folded_compilers self d args cv key var v :
  get_cmake_args self = Ok args ->
  dict_lookup "compiler" (config self) = Some (VDict d) ->
  (key = "c_compiler" /\ var = "CMAKE_C_COMPILER") \/
  (key = "cxx_compiler" /\ var = "CMAKE_CXX_COMPILER") ->
  dict_lookup key d = Some v -> truthy v = true ->
  dict_lookup var (fold_left fold_arg args cv) = Some (VStr (py_str v)).
Proof.
  intros Hargs Hc Hkey Hv Ht.
  destruct (get_cmake_args_compilers self d args Hargs Hc) as (pre & ->).
  rewrite !fold_left_app. set (cv0 := fold_left fold_arg pre cv). clearbody cv0.
  unfold compiler_def. destruct Hkey as [[-> ->] | [-> ->]]; rewrite Hv, Ht.
  - cbn [fold_left]. rewrite fold_arg_c_compiler.
    destruct (dict_lookup "cxx_compiler" d) as [x|]; [destruct (truthy x)|];
      cbn [fold_left]; rewrite ?fold_arg_cxx_compiler, ?dict_lookup_set_ne by done;
      apply dict_lookup_set_eq.
  - destruct (dict_lookup "c_compiler" d) as [x|]; [destruct (truthy x)|];
      cbn [fold_left]; rewrite fold_arg_cxx_compiler; apply dict_lookup_set_eq.
Qed.

(** When it does not raise, it leaves the rendering of the cache
    variables as it is, in any world. *)
Lemma compiler_var_rendered self key var cv w :
  (forall d v, dict_lookup "compiler" (config self) = Some (VDict d) ->
               dict_lookup key d = Some v -> truthy v = true ->
               py_str <$> dict_lookup var cv = Some (py_str v)) ->
  match compiler_var_raises self key with
  | Some e => compiler_var w self key var cv = Raise e
  | None => exists cv', compiler_var w self key var cv = Ok cv' /\
                        rendered cv' = rendered cv
  end.
Proof.
  intros Hcv. unfold compiler_var, compiler_var_raises. simpl.
  destruct (dict_lookup "compiler" (config self)) as [comp|]; [|done].
  destruct comp as [| | | | | |d]; try done. simpl.
  specialize (Hcv d). destruct (dict_lookup key d) as [v|]; simpl.
  - specialize (Hcv v eq_refl eq_refl). destruct (truthy v) eqn:Ht; [|by eexists].
    specialize (Hcv eq_refl).
    destruct v; simpl; try done;
      (destruct (path_exists w _) || destruct (fd_open w _));
      eexists; (split; [reflexivity|]); try done;
      by apply rendered_set.
  - by eexists.
Qed.








(** *** The cache-file renderer, entry by entry *)

Lemma q_sanitize s : _q s = sanitize s.
Proof.
  unfold _q. induction s as [|c s IH]; simpl; [done|].
  rewrite replace_char_app, IH. f_equal.
  unfold sanitize_char. destruct (Ascii.eqb_spec c backslash) as [->|Hb]; [done|].
  simpl. by destruct (Ascii.eqb c dquote).
Qed.



(** *** Validated trees and the compiler definitions of [config_reader.py] *)

Lemma validate_config_Ok_enums include_key library_key self b printed :
  validate_config_with include_key library_key self = Ok printed ->
  dict_lookup "build" (config self) = Some (VDict b) ->
  in_strs (default (VStr "double") (dict_lookup "precision" b)) ["double"; "single"] = true /\
  in_strs (default (VStr "complex") (dict_lookup "numbers" b)) ["complex"; "real"] = true /\
  in_strs (default (VStr "hdf5") (dict_lookup "default_file_format" b)) ["hdf5"; "fstream"] = true /\
  bad_build_jobs (default (VInt 0) (dict_lookup "build_jobs" b)) = false.
Proof.
  intros Hv Hb. unfold validate_config_with in Hv.
  cbn [get mbind result_bind] in Hv. rewrite Hb in Hv.
  cbn [get default from_option id mbind result_bind] in Hv.
  bind_inv Hv. bind_inv Hv. bind_inv Hv.
  destruct (in_strs (default (VStr "double") (dict_lookup "precision" b)) _),
    (in_strs (default (VStr "complex") (dict_lookup "numbers" b)) _),
    (in_strs (default (VStr "hdf5") (dict_lookup "default_file_format" b)) _),
    (bad_build_jobs (default (VInt 0) (dict_lookup "build_jobs" b)));
    try discriminate; done.
Qed.

Lemma in_strs_two v s1 s2 :
  in_strs v [s1; s2] = true -> v = VStr s1 \/ v = VStr s2.
Proof.
  destruct v; simpl; try discriminate.
  rewrite orb_false_r, orb_true_iff, !String.eqb_eq. intros [-> | ->]; auto.
Qed.

Lemma section_item_lookup self b key x :
  dict_lookup "build" (config self) = Some (VDict b) ->
  dict_lookup key b = Some x ->
  section_item self "build" key = Ok x.
Proof. unfold section_item. simpl. intros -> . simpl. by intros ->. Qed.

(** A parsed file whose build section omits [precision] validates, and
    [get_compiler_definitions] raises [KeyError] on it: not every
    validated configuration gets a list. *)
Lemma C10_counterexample :
  exists self,
    ConfigReader.__init__ (world_with_file (Some 8%positive) partial_file) ∅ None
    = Ok self /\
    ConfigReader._validate_config self = Ok [] /\
    ConfigReader.get_compiler_definitions self = Raise (KeyError "precision").
Proof. exists {| config := partial_file |}. vm_compute. auto. Qed.

(** C10, as amended.  On a validated configuration whose build table
    holds the six keys it reads, [precision], [numbers],
    [default_file_format], [enable_minuit], [enable_grace] and
    [skip_batch], [get_compiler_definitions] returns a list with exactly
    one of [SINGLEPRECISION] and [DOUBLEPRECISION], exactly one of
    [REALNUMBERS] and [COMPLEXNUMBERS], exactly one of [DEFAULT_FSTREAM]
    and [DEFAULT_HDF5], and with [HDF5] and [LAPACK]; [NO_MINUIT] is in
    it exactly when [enable_minuit] is false, [NOGRACE] exactly when
    [enable_grace] is false, [NOXML] exactly when the batch target is
    skipped. *)
Theorem C10_compiler_definitions
    (self : SigmondConfig) (printed : list string) (b : dict)
    (precision numbers file_format enable_minuit enable_grace skip_batch : value) :
  ConfigReader._validate_config self = Ok printed ->
  dict_lookup "build" (config self) = Some (VDict b) ->
  dict_lookup "precision" b = Some precision ->
  dict_lookup "numbers" b = Some numbers ->
  dict_lookup "default_file_format" b = Some file_format ->
  dict_lookup "enable_minuit" b = Some enable_minuit ->
  dict_lookup "enable_grace" b = Some enable_grace ->
  dict_lookup "skip_batch" b = Some skip_batch ->
  exists definitions,
    ConfigReader.get_compiler_definitions self = Ok definitions /\
    (count "SINGLEPRECISION" definitions + count "DOUBLEPRECISION" definitions = 1)%nat /\
    (count "REALNUMBERS" definitions + count "COMPLEXNUMBERS" definitions = 1)%nat /\
    (count "DEFAULT_FSTREAM" definitions + count "DEFAULT_HDF5" definitions = 1)%nat /\
    In "HDF5" definitions /\
    In "LAPACK" definitions /\
    (In "NO_MINUIT" definitions <-> truthy enable_minuit = false) /\
    (In "NOGRACE" definitions <-> truthy enable_grace = false) /\
    (In "NOXML" definitions <-> truthy skip_batch = true).
Proof.
  intros Hv Hb Hp Hn Hf Hm Hg Hs.
  destruct (validate_config_Ok_enums _ _ _ _ _ Hv Hb) as (Ep & En & Ef & _).
  rewrite Hp in Ep. rewrite Hn in En. rewrite Hf in Ef. simpl in Ep, En, Ef.
  unfold ConfigReader.get_compiler_definitions, ConfigReader.remove_if.
  rewrite (section_item_lookup _ _ _ _ Hb Hp), (section_item_lookup _ _ _ _ Hb Hn),
    (section_item_lookup _ _ _ _ Hb Hf), (section_item_lookup _ _ _ _ Hb Hm),
    (section_item_lookup _ _ _ _ Hb Hg), (section_item_lookup _ _ _ _ Hb Hs).
  cbn [mbind result_bind].
  apply in_strs_two in Ep as [-> | ->], En as [-> | ->], Ef as [-> | ->];
    cbn [mbind result_bind str_lower];
    destruct (truthy enable_minuit), (truthy enable_grace), (truthy skip_batch);
    (eexists; split; [reflexivity|]);
    (split_and!; [reflexivity | reflexivity | reflexivity | simpl; tauto | simpl; tauto
                 | simpl; intuition congruence | simpl; intuition congruence
                 | simpl; intuition congruence ]).
Qed.

(** The defaults of [config_reader.py]. *)
Lemma C10_compiler_definitions_witness :
  exists definitions,
    ConfigReader.get_compiler_definitions
      {| config := ConfigReader._default_config (bare_world None) |} = Ok definitions /\
    In "NO_MINUIT" definitions /\ ~ In "NOXML" definitions.
Proof.
  destruct (C10_compiler_definitions
              {| config := ConfigReader._default_config (bare_world None) |} []
              [ ("skip_query", VBool false); ("skip_batch", VBool false);
                ("verbose", VBool false); ("precision", VStr "double");
                ("numbers", VStr "complex"); ("default_file_format", VStr "hdf5");
                ("enable_minuit", VBool false); ("enable_grace", VBool false);
                ("build_jobs", VInt 1); ("batch_install_dir", VStr "");
                ("query_install_dir", VStr "") ]
              (VStr "double") (VStr "complex") (VStr "hdf5")
              (VBool false) (VBool false) (VBool false)
              eq_refl eq_refl eq_refl eq_refl eq_refl eq_refl eq_refl eq_refl)
    as (definitions & Hd & _ & _ & _ & _ & _ & Hm & _ & Hx).
  exists definitions. split; [exact Hd|]. split.
  - apply Hm. reflexivity.
  - intros H. apply Hx in H. discriminate.
Defined.

(** *** The environment layer applied twice, and what it leaves to the validator *)

Lemma dict_set_id k v d : dict_lookup k d = Some v -> dict_set k v d = d.
Proof.
  induction d as [|[k' v'] d IH]; simpl; [done|].
  destruct (String.eqb_spec k k') as [->|Hne].
  - by intros [= ->].
  - intros H. by rewrite IH.
Qed.

Lemma set_build_id cfg b key x :
  dict_lookup "build" cfg = Some (VDict b) ->
  dict_lookup key b = Some x ->
  set_build cfg key x = Ok cfg.
Proof.
  intros Hb Hk. rewrite (set_build_Ok cfg b) by done.
  rewrite (dict_set_id key x b) by done. by rewrite dict_set_id.
Qed.

Lemma env_flag_id environ var key cfg b :
  dict_lookup "build" cfg = Some (VDict b) ->
  (recognized environ var = true -> dict_lookup key b = Some (VBool true)) ->
  env_flag environ var key cfg = Ok cfg.
Proof.
  intros Hb Hk. unfold env_flag. fold (recognized environ var).
  destruct (recognized environ var); [|done].
  by apply (set_build_id cfg b); [|apply Hk].
Qed.

(** X1: the environment layer is idempotent: applied to a tree it has
    returned, it returns that tree. *)
Theorem X1_env_overrides_idempotent
    (environ : gmap string string) (cfg cfg' : dict) :
  _apply_env_overrides environ cfg = Ok cfg' ->
  _apply_env_overrides environ cfg' = Ok cfg'.
Proof.
  intros H. destruct (apply_env_overrides_inv _ _ _ H) as [->|(b & Hb)]; [done|].
  destruct (apply_env_overrides_table environ cfg b Hb) as (c & b' & Hc & Hb' & _ & Hk).
  rewrite H in Hc. injection Hc as <-.
  unfold _apply_env_overrides, apply_env_flags.
  rewrite (env_flag_id environ "SIGMOND_SKIP_QUERY" "skip_query" cfg' b'); [|done|].
  2:{ intros Hr. rewrite Hk, (env_layer_value_flag environ "SIGMOND_SKIP_QUERY"), Hr;
      [done | simpl; tauto]. }
  cbn [mbind result_bind].
  rewrite (env_flag_id environ "SIGMOND_SKIP_BATCH" "skip_batch" cfg' b'); [|done|].
  2:{ intros Hr. rewrite Hk, (env_layer_value_flag environ "SIGMOND_SKIP_BATCH"), Hr;
      [done | simpl; tauto]. }
  cbn [mbind result_bind].
  rewrite (env_flag_id environ "SIGMOND_VERBOSE" "verbose" cfg' b'); [|done|].
  2:{ intros Hr. rewrite Hk, (env_layer_value_flag environ "SIGMOND_VERBOSE"), Hr;
      [done | simpl; tauto]. }
  cbn [mbind result_bind].
  destruct (nonempty (environ_get environ "DEFAULTENSFILE")) eqn:E; [|done].
  apply (set_build_id cfg' b'); [done|].
  rewrite Hk. unfold env_layer_value. by rewrite E.
Qed.

Lemma X1_env_overrides_idempotent_witness :
  _apply_env_overrides {[ "SIGMOND_VERBOSE" := "Yes" ]} partial_file
  = Ok [("build", VDict [("verbose", VBool true)])] /\
  _apply_env_overrides {[ "SIGMOND_VERBOSE" := "Yes" ]}
    [("build", VDict [("verbose", VBool true)])]
  = Ok [("build", VDict [("verbose", VBool true)])].
Proof.
  assert (H : _apply_env_overrides {[ "SIGMOND_VERBOSE" := "Yes" ]} partial_file
              = Ok [("build", VDict [("verbose", VBool true)])])
    by (vm_compute; reflexivity).
  split; [exact H | exact (X1_env_overrides_idempotent _ _ _ H)].
Defined.

Lemma env_layer_library_tables environ base cfg b b' :
  dict_lookup "build" base = Some (VDict b) ->
  dict_lookup "build" cfg = Some (VDict b') ->
  (forall s, s <> "build" -> dict_lookup s cfg = dict_lookup s base) ->
  (forall k, dict_lookup k b' = env_layer_value environ k (dict_lookup k b)) ->
  library_tables cfg b' = library_tables base b.
Proof.
  intros Hb Hb' Hs Hk. unfold library_tables, enabled, library_table.
  rewrite !Hk, !env_layer_value_other by reflexivity.
  by rewrite (Hs "libraries").
Qed.

(** X2: the environment layer does not change what the validator
    rejects: the tree it returns makes the validator raise exactly the
    exception the tree it was given does. *)
Theorem X2_env_layer_keeps_validation_errors
    (environ : gmap string string) (base cfg : dict) (e : exn) :
  _apply_env_overrides environ base = Ok cfg ->
  _validate_config {| config := cfg |} = Raise e <->
  _validate_config {| config := base |} = Raise e.
Proof.
  intros H. destruct (apply_env_overrides_inv _ _ _ H) as [->|(b & Hb)]; [done|].
  destruct (apply_env_overrides_table environ base b Hb) as (c & b' & Hc & Hb' & Hs & Hk).
  rewrite H in Hc. injection Hc as <-.
  pose proof (env_layer_library_tables environ base cfg b b' Hb Hb' Hs Hk) as Ht.
  unfold _validate_config.
  destruct (library_tables base b) eqn:Et.
  - pose proof (validate_config_collects "include_dir" "library_dir"
                  {| config := cfg |} b' Hb' Ht) as Hv'.
    pose proof (validate_config_collects "include_dir" "library_dir"
                  {| config := base |} b Hb Et) as Hv.
    cbv zeta in Hv, Hv'.
    rewrite !Hk, !env_layer_value_other in Hv' by reflexivity.
    destruct (collected_errors _ _ _ _).
    + destruct Hv as (p & ->), Hv' as (p' & ->). done.
    + by rewrite Hv, Hv'.
  - rewrite (validate_config_attribute_error _ _ {| config := cfg |} b') by done.
    by rewrite (validate_config_attribute_error _ _ {| config := base |} b).
Qed.

Lemma X2_env_layer_keeps_validation_errors_witness :
  exists msg,
    _validate_config {| config := bogus_file |} = Raise (ValueError msg) /\
    _validate_config
      {| config := [("build", VDict [("precision", VStr "bogus");
                                     ("default_file_format", VStr "bogus");
                                     ("verbose", VBool true)])] |}
    = Raise (ValueError msg).
Proof.
  eexists. split; [reflexivity|].
  apply (X2_env_layer_keeps_validation_errors {[ "SIGMOND_VERBOSE" := "1" ]} bogus_file).
  - vm_compute. reflexivity.
  - reflexivity.
Defined.

(** *** The defaults in every environment *)

Lemma has_key_env_layer environ b b' k :
  (forall k, dict_lookup k b' = env_layer_value environ k (dict_lookup k b)) ->
  has_key b k = true -> has_key b' k = true.
Proof.
  intros Hk. unfold has_key. rewrite Hk. unfold env_layer_value.
  destruct (dict_lookup k b); [|done]. intros _.
  by repeat destruct (_ && _).
Qed.

(** X3: when no file is loaded the construction returns, whatever the
    environment holds, the flag vector of the object is rendered, and the
    three switches of the object are the ones the environment sets. *)
Theorem X3_defaults_construct_in_every_environment
    (w : world) (environ : gmap string string) (config_path : option string) :
  _load_config w environ config_path = _default_config w ->
  exists self args,
    __init__ w environ config_path = Ok self /\
    get_cmake_args self = Ok args /\
    should_skip_query self = Ok (VBool (recognized environ "SIGMOND_SKIP_QUERY")) /\
    should_skip_batch self = Ok (VBool (recognized environ "SIGMOND_SKIP_BATCH")) /\
    is_verbose self = Ok (VBool (recognized environ "SIGMOND_VERBOSE")).
Proof.
  intros Hload.
  destruct (apply_env_overrides_table environ (_default_config w) _ eq_refl)
    as (cfg & b' & Hc & Hb' & Hs & Hk).
  assert (Ht : library_tables cfg b' = true).
  { by rewrite (env_layer_library_tables environ (_default_config w) cfg _ b' eq_refl). }
  pose proof (validate_config_collects "include_dir" "library_dir"
                {| config := cfg |} b' Hb' Ht) as Hv.
  cbv zeta in Hv. rewrite !Hk, !env_layer_value_other in Hv by reflexivity.
  assert (He : collected_errors (VStr "double") (VStr "complex") (VStr "hdf5")
                 (VInt (cpu_count_or_1 w)) = []).
  { unfold cpu_count_or_1. by destruct (cpu_count w). }
  simpl in Hv. rewrite He in Hv. destruct Hv as (printed & Hv).
  assert (Hcomplete : schema_complete cfg = true).
  { unfold schema_complete. rewrite Hb', !(Hs "libraries"), !(Hs "compiler") by done.
    simpl. unfold has_str. rewrite !Hk, !env_layer_value_other by reflexivity. simpl.
    rewrite !(has_key_env_layer environ _ b' _ Hk) by reflexivity. done. }
  destruct (get_cmake_args_total {| config := cfg |} Hcomplete) as (args & Hargs).
  exists {| config := cfg |}, args. split_and!.
  - unfold __init__. rewrite Hload, Hc. cbn [mbind result_bind].
    unfold _validate_config. by rewrite Hv.
  - done.
  - apply (section_item_lookup _ b'); [done|].
    rewrite Hk, (env_layer_value_flag environ "SIGMOND_SKIP_QUERY") by (simpl; tauto).
    by destruct (recognized _ _).
  - apply (section_item_lookup _ b'); [done|].
    rewrite Hk, (env_layer_value_flag environ "SIGMOND_SKIP_BATCH") by (simpl; tauto).
    by destruct (recognized _ _).
  - apply (section_item_lookup _ b'); [done|].
    rewrite Hk, (env_layer_value_flag environ "SIGMOND_VERBOSE") by (simpl; tauto).
    by destruct (recognized _ _).
Qed.

Lemma X3_defaults_construct_in_every_environment_witness :
  exists self args,
    __init__ (bare_world None) {[ "SIGMOND_SKIP_BATCH" := "TRUE" ]} (Some "missing.toml")
    = Ok self /\
    get_cmake_args self = Ok args /\
    should_skip_query self = Ok (VBool false) /\
    should_skip_batch self = Ok (VBool true) /\
    is_verbose self = Ok (VBool false).
Proof.
  destruct (X3_defaults_construct_in_every_environment (bare_world None)
              {[ "SIGMOND_SKIP_BATCH" := "TRUE" ]} (Some "missing.toml") eq_refl)
    as (self & args & H1 & H2 & H3 & H4 & H5).
  exists self, args. split_and!; [done | done | rewrite H3 | rewrite H4 | rewrite H5];
    do 2 f_equal; vm_compute; reflexivity.
Defined.

(** *** The file the loader reads *)

Lemma find_first {A} (P : A -> bool) (l : list A) (i : nat) (x : A) :
  l !! i = Some x -> P x = true ->
  (forall j y, (j < i)%nat -> l !! j = Some y -> P y = false) ->
  List.find P l = Some x.
Proof.
  revert i. induction l as [|a l IH]; intros i Hi Hx Hlt; [done|].
  destruct i as [|i]; simpl in *.
  - injection Hi as ->. by rewrite Hx.
  - rewrite (Hlt 0%nat a) by (done || lia).
    apply (IH i); [done..|]. intros j y Hj Hy. apply (Hlt (S j)); [lia | done].
Qed.

(** X4: a file named by the argument decides alone: the environment is
    not read, and when the file does not exist the defaults are
    returned, the places of the search not being tried.  The same holds
    for a file named by [SIGMOND_CONFIG] when the argument names none,
    and an empty argument names none. *)
Theorem X4_named_file_has_no_fallback
    (default_config : dict) (w : world) (environ : gmap string string) (f : string) :
  nonempty f = true ->
  (forall environ',
      load_config_with default_config w environ' (Some f)
      = load_config_with default_config w environ (Some f)) /\
  (path_exists w f = false ->
   load_config_with default_config w environ (Some f) = default_config) /\
  (environ !! "SIGMOND_CONFIG" = Some f ->
   load_config_with default_config w environ None
   = load_config_with default_config w environ (Some f)) /\
  load_config_with default_config w environ (Some "")
  = load_config_with default_config w environ None.
Proof.
  intros Hf. unfold load_config_with. simpl. rewrite Hf. split_and!.
  - done.
  - intros ->. by destruct (negb _).
  - intros ->. simpl. by rewrite Hf.
  - done.
Qed.

Lemma X4_named_file_has_no_fallback_witness :
  path_exists (world_with_file None single_file) "/work/sigmond.toml" = true /\
  load_config_with [] (world_with_file None single_file) ∅ (Some "other.toml") = [] /\
  load_config_with [] (world_with_file None single_file) ∅ None = single_file.
Proof.
  split; [reflexivity|]. split; [|vm_compute; reflexivity].
  apply (X4_named_file_has_no_fallback [] (world_with_file None single_file) ∅
           "other.toml"); reflexivity.
Defined.

(** X5: when no file is named, the file read is the first of the places
    searched that exists; when it does not parse the defaults are
    returned, the later places not being tried. *)
Theorem X5_search_reads_first_existing
    (default_config : dict) (w : world) (environ : gmap string string)
    (config_path : option string) (i : nat) (f : string) :
  tomllib_available w = true ->
  no_named_file environ config_path = true ->
  search_paths w !! i = Some f ->
  path_exists w f = true ->
  (forall j g, (j < i)%nat -> search_paths w !! j = Some g -> path_exists w g = false) ->
  load_config_with default_config w environ config_path
  = default default_config (toml_load w f).
Proof.
  intros Hw Hn Hi Hf Hlt. unfold load_config_with. rewrite Hw.
  apply andb_true_iff in Hn as [Hn1 Hn2].
  apply negb_true_iff in Hn1, Hn2. rewrite Hn1, Hn2. cbv beta iota zeta delta [negb].
  fold (search_paths w). rewrite (find_first _ _ i f Hi Hf Hlt), Hf.
  by destruct (toml_load w f).
Qed.

Lemma X5_search_reads_first_existing_witness :
  load_config_with [] two_files_world ∅ None = [] /\
  toml_load two_files_world "/opt/sigmond/sigmond.toml" = Some single_file.
Proof.
  split; [|reflexivity].
  apply (X5_search_reads_first_existing [] two_files_world ∅ None 1 "/work/.sigmond.toml");
    [reflexivity | vm_compute; reflexivity | reflexivity | reflexivity |].
  intros [|j] g Hj; [intros [= <-]; reflexivity | lia].
Defined.

(** *** What the validator prints *)

Lemma library_warning_inv self bc enable_key lib include_key library_key msg ws ws' :
  library_warning self bc enable_key lib include_key library_key msg ws = Ok ws' ->
  ws' = ws \/ ws' = ws ++ [msg].
Proof.
  unfold library_warning. intros H. bind_inv H.
  destruct (truthy a); [|injection H as <-; by left].
  bind_inv H. bind_inv H. bind_inv H.
  destruct (negb (truthy a2)); [|injection H as <-; by left].
  bind_inv H. destruct (negb (truthy a3)); injection H as <-; auto.
Qed.

(** X6: the validator prints nothing unless the tree asks for verbose
    output; what it prints then is a header and, in their fixed order,
    the advisories that apply, at least one. *)
Theorem X6_warnings_only_when_verbose
    (include_key library_key : string) (self : SigmondConfig) (printed : list string) :
  validate_config_with include_key library_key self = Ok printed ->
  printed = [] \/
  exists b v warnings,
    dict_lookup "build" (config self) = Some (VDict b) /\
    dict_lookup "verbose" b = Some v /\ truthy v = true /\
    warnings <> [] /\ sublist warnings advisories /\
    printed = "Configuration warnings:" :: map (fun warning => "  - " +:+ warning) warnings.
Proof.
  intros H. unfold validate_config_with in H. cbn [get mbind result_bind] in H.
  destruct (dict_lookup "build" (config self)) as [bc|] eqn:Hb;
    cbn [default from_option id] in H.
  2:{ left. simpl in H. by injection H as <-. }
  destruct bc as [| | | | | |b]; try discriminate.
  cbn [get mbind result_bind] in H.
  bind_inv H. bind_inv H. bind_inv H.
  apply library_warning_inv in Ha. apply library_warning_inv in Ha0.
  match type of H with
  | context [match ?errors with [] => _ | _ :: _ => _ end] =>
      destruct errors; [|discriminate]
  end.
  set (both := "Both executables are disabled - only Python bindings will be built.") in *.
  assert (Hsub : forall (c : bool),
            sublist (if c then a0 ++ [both] else a0) advisories).
  { intros c. unfold advisories. fold both.
    destruct Ha as [->| ->], Ha0 as [->| ->], c; simpl;
      repeat first [apply sublist_nil | apply sublist_skip | apply sublist_cons]. }
  match type of H with
  | context [if truthy a1 then ?x else a0] => specialize (Hsub (truthy a1))
  end.
  destruct (if truthy a1 then a0 ++ [both] else a0) as [|w0 ws] eqn:Ew.
  { left. simpl in H. by injection H as <-. }
  bind_inv H. destruct (truthy a2) eqn:Ev; [|injection H as <-; by left].
  right. injection H as <-.
  cbn [default from_option id] in Ha2.
  destruct (dict_lookup "verbose" b) as [v|] eqn:Hverb; simpl in Ha2;
    injection Ha2 as <-; [|discriminate].
  exists b, v, (w0 :: ws). by split_and!.
Qed.

Lemma X6_warnings_only_when_verbose_witness :
  _validate_config {| config := verbose_minuit_file |}
  = Ok ["Configuration warnings:";
        "  - Minuit2 is enabled but no library paths specified. Auto-detection will be attempted."] /\
  exists b v, dict_lookup "build" verbose_minuit_file = Some (VDict b) /\
              dict_lookup "verbose" b = Some v /\ truthy v = true.
Proof.
  split; [reflexivity|].
  destruct (X6_warnings_only_when_verbose "include_dir" "library_dir"
              {| config := verbose_minuit_file |} _ eq_refl)
    as [H | (b & v & ws & Hb & Hv & Ht & _)]; [discriminate|].
  by exists b, v.
Defined.

(** *** The flag vector: its blocks, its tokens, and what reaches it *)

Lemma get_cmake_args_blocks self args :
  get_cmake_args self = Ok args ->
  exists core control verbose testing install ens extra libs comp,
    args = core ++ control ++ verbose ++ testing ++ install ++ ens ++ extra
             ++ libs ++ comp /\
    args_core self [] = Ok core /\
    args_build_control self [] = Ok control /\
    args_verbose self [] = Ok verbose /\
    args_testing self [] = Ok testing /\
    args_install_dirs self [] = Ok install /\
    args_default_ens_file self [] = Ok ens /\
    args_extra_defs self [] = Ok extra /\
    args_libraries self [] = Ok libs /\
    args_compilers self [] = Ok comp.
Proof.
  unfold get_cmake_args. intros H. do 8 bind_inv H.
  apply (appends_Ok _ _ _ (args_build_control_appends _)) in Ha0 as (control & Hcontrol & ->).
  apply (appends_Ok _ _ _ (args_verbose_appends _)) in Ha1 as (verbose & Hverbose & ->).
  apply (appends_Ok _ _ _ (args_testing_appends _)) in Ha2 as (testing & Htesting & ->).
  apply (appends_Ok _ _ _ (args_install_dirs_appends _)) in Ha3 as (install & Hinstall & ->).
  apply (appends_Ok _ _ _ (args_default_ens_file_appends _)) in Ha4 as (ens & Hens & ->).
  apply (appends_Ok _ _ _ (args_extra_defs_appends _)) in Ha5 as (extra & Hextra & ->).
  apply (appends_Ok _ _ _ (args_libraries_appends _)) in Ha6 as (libs & Hlibs & ->).
  apply (appends_Ok _ _ _ (args_compilers_appends _)) in H as (comp & Hcomp & ->).
  exists a, control, verbose, testing, install, ens, extra, libs, comp.
  split_and!; try done. by rewrite <- !app_assoc.
Qed.

Lemma section_item_inv self key x :
  section_item self "build" key = Ok x ->
  exists b, dict_lookup "build" (config self) = Some (VDict b) /\ dict_lookup key b = Some x.
Proof.
  unfold section_item. simpl.
  destruct (dict_lookup "build" (config self)) as [[| | | | | |b]|]; try discriminate.
  simpl. destruct (dict_lookup key b) eqn:E; [|discriminate]. intros [= <-]. eauto.
Qed.

Lemma is_definition_app v : is_definition ("-D" +:+ v) = true.
Proof. unfold is_definition. rewrite startswith_spec. by exists v. Qed.

Lemma is_definition_prefix p v :
  is_definition p = true -> is_definition (p +:+ v) = true.
Proof.
  unfold is_definition. rewrite !startswith_spec. intros (post & ->).
  exists (post +:+ v). by rewrite app_assoc_str.
Qed.

Lemma sparse_of_definitions prefixes seg :
  sparse_of prefixes seg ->
  Forall (fun p => is_definition p = true) prefixes ->
  Forall (fun a => is_definition a = true) seg.
Proof.
  induction 1 as [|p prefixes seg _ IH|p v prefixes seg _ IH]; intros Hp.
  - constructor.
  - apply IH. by inversion Hp.
  - inversion Hp; subst. constructor; [by apply is_definition_prefix | by apply IH].
Qed.

Lemma sublist_definitions (l k : list string) :
  sublist l k ->
  Forall (fun a => is_definition a = true) k ->
  Forall (fun a => is_definition a = true) l.
Proof.
  induction 1 as [|x l k _ IH|x l k _ IH]; intros Hk; [done | |].
  - inversion Hk; subst. constructor; [done | by apply IH].
  - inversion Hk; subst. by apply IH.
Qed.

Lemma render_string_entry_definition s : is_definition (render_string_entry s) = true.
Proof.
  unfold render_string_entry.
  destruct (startswith "-D" (strip s)) eqn:E; [done | apply is_definition_app].
Qed.

Lemma args_extra_defs_definitions self extra :
  args_extra_defs self [] = Ok extra ->
  Forall (fun a => is_definition a = true) extra.
Proof.
  unfold args_extra_defs. intros H. bind_inv H. bind_inv H.
  assert (Hpairs : forall d, Forall (fun a => is_definition a = true) (map render_pair d)).
  { intros d. induction d as [|kv d IH]; constructor; [|done].
    apply is_definition_app. }
  destruct a0; rewrite ?extra_defs_loop_split, extra_items_loop_map in H;
    cbv beta iota zeta in H; injection H as <-; cbn [app map]; try done.
  apply Forall_app. split; [|done].
  unfold string_entries. clear Ha0. induction l as [|e l IH]; [constructor|].
  destruct e; simpl; try done. constructor; [apply render_string_entry_definition | done].
Qed.

(** X7: every argument of the flag vector is a definition: it starts
    with [-D], the strings of the extra definitions included. *)
Theorem X7_every_argument_is_a_definition (self : SigmondConfig) (args : list string) :
  get_cmake_args self = Ok args ->
  Forall (fun arg => is_definition arg = true) args.
Proof.
  intros (core & control & verbose & testing & install & ens & extra & libs & comp
          & -> & Hcore & Hcontrol & Hverbose & Htesting & Hinstall & Hens & Hextra
          & Hlibs & Hcomp)%get_cmake_args_blocks.
  repeat (apply Forall_app; split).
  - apply args_core_shape in Hcore as (p & n & f & _ & _ & _ & ->).
    by repeat constructor.
  - apply args_build_control_shape in Hcontrol.
    apply (sublist_definitions _ _ Hcontrol). by repeat constructor.
  - apply args_verbose_shape in Hverbose as [-> | ->]; by repeat constructor.
  - apply args_testing_shape in Htesting as [-> | ->]; by repeat constructor.
  - apply args_install_dirs_shape in Hinstall.
    apply (sparse_of_definitions _ _ Hinstall). by repeat constructor.
  - apply args_default_ens_file_shape in Hens.
    apply (sparse_of_definitions _ _ Hens). by repeat constructor.
  - by apply (args_extra_defs_definitions self).
  - apply args_libraries_shape in Hlibs.
    apply (sparse_of_definitions _ _ Hlibs). by repeat constructor.
  - apply args_compilers_shape in Hcomp.
    apply (sparse_of_definitions _ _ Hcomp). by repeat constructor.
Qed.

Lemma X7_every_argument_is_a_definition_witness :
  Forall (fun arg => is_definition arg = true) full_args.
Proof.
  apply (X7_every_argument_is_a_definition {| config := full_config |}). reflexivity.
Defined.

(** X8: the object the construction returns has legal enumerations, and
    its flag vector starts with them as they stand: the lower-casing of
    the renderer changes nothing. *)
Theorem X8_constructed_core_definitions
    (w : world) (environ : gmap string string) (config_path : option string)
    (self : SigmondConfig) (args : list string) :
  __init__ w environ config_path = Ok self ->
  get_cmake_args self = Ok args ->
  exists p n f rest,
    get_precision self = Ok (VStr p) /\ In p ["double"; "single"] /\
    get_numbers_type self = Ok (VStr n) /\ In n ["complex"; "real"] /\
    get_default_file_format self = Ok (VStr f) /\ In f ["hdf5"; "fstream"] /\
    args = ["-DPRECISION=" +:+ p; "-DNUMBERS=" +:+ n; "-DDEFAULT_FILE_FORMAT=" +:+ f]
             ++ rest.
Proof.
  intros (_ & printed & Hv)%init_inv
         (core & control & verbose & testing & install & ens & extra & libs & comp
          & -> & Hcore & _)%get_cmake_args_blocks.
  apply args_core_shape in Hcore as (p & n & f & Hp & Hn & Hf & ->).
  destruct (section_item_inv _ _ _ Hp) as (b & Hb & Hpb).
  destruct (section_item_inv _ _ _ Hn) as (b1 & Hb1 & Hnb).
  destruct (section_item_inv _ _ _ Hf) as (b2 & Hb2 & Hfb).
  rewrite Hb in Hb1, Hb2. injection Hb1 as <-. injection Hb2 as <-.
  destruct (validate_config_Ok_enums _ _ _ _ _ Hv Hb) as (Ep & En & Ef & _).
  rewrite Hpb in Ep. rewrite Hnb in En. rewrite Hfb in Ef.
  apply in_strs_two in Ep, En, Ef.
  exists p, n, f, (control ++ verbose ++ testing ++ install ++ ens ++ extra ++ libs ++ comp).
  split_and!; try done.
  - destruct Ep as [[= ->]|[= ->]]; simpl; auto.
  - destruct En as [[= ->]|[= ->]]; simpl; auto.
  - destruct Ef as [[= ->]|[= ->]]; simpl; auto.
  - by destruct Ep as [[= ->]|[= ->]], En as [[= ->]|[= ->]], Ef as [[= ->]|[= ->]].
Qed.

Lemma X8_constructed_core_definitions_witness :
  exists self args rest,
    __init__ (world_with_file None full_config) ∅ None = Ok self /\
    get_cmake_args self = Ok args /\
    args = ["-DPRECISION=single"; "-DNUMBERS=real"; "-DDEFAULT_FILE_FORMAT=fstream"]
             ++ rest.
Proof.
  assert (Hi : __init__ (world_with_file None full_config) ∅ None
               = Ok {| config := full_config |}) by (vm_compute; reflexivity).
  assert (Ha : get_cmake_args {| config := full_config |} = Ok full_args) by reflexivity.
  destruct (X8_constructed_core_definitions _ _ _ _ _ Hi Ha)
    as (p & n & f & rest & Hp & _ & Hn & _ & Hf & _ & Hargs).
  injection Hp as <-. injection Hn as <-. injection Hf as <-.
  by exists {| config := full_config |}, full_args, rest.
Defined.

(** *** From the environment to the flag vector *)

Lemma flag_if_set self b key flag v :
  dict_lookup "build" (config self) = Some (VDict b) ->
  dict_lookup key b = Some v -> truthy v = true ->
  flag_if self key flag [] = Ok [flag].
Proof.
  intros Hb Hk Ht. unfold flag_if. rewrite (section_item_lookup self b key v) by done.
  simpl. by rewrite Ht.
Qed.

Lemma args_build_control_flags self control :
  args_build_control self [] = Ok control ->
  exists q bt m g,
    flag_if self "skip_query" "-DSKIP_SIGMOND_QUERY=ON" [] = Ok q /\
    flag_if self "skip_batch" "-DSKIP_SIGMOND_BATCH=ON" [] = Ok bt /\
    flag_if self "enable_minuit" "-DENABLE_MINUIT=ON" [] = Ok m /\
    flag_if self "enable_grace" "-DENABLE_GRACE=ON" [] = Ok g /\
    control = q ++ bt ++ m ++ g.
Proof.
  unfold args_build_control. intros H. do 3 bind_inv H.
  apply (appends_Ok _ _ _ (flag_if_appends _ _ _)) in Ha0 as (bt & Hbt & ->).
  apply (appends_Ok _ _ _ (flag_if_appends _ _ _)) in Ha1 as (m & Hm & ->).
  apply (appends_Ok _ _ _ (flag_if_appends _ _ _)) in H as (g & Hg & ->).
  exists a, bt, m, g. split_and!; try done. by rewrite <- !app_assoc.
Qed.

(** X9: what the environment sets reaches the flag vector of the object
    constructed under it: a recognised switch gives its definition, a
    non-empty [DEFAULTENSFILE] the definition of the ensembles file with
    that value, whatever the file says. *)
Theorem X9_environment_reaches_flag_vector
    (w : world) (environ : gmap string string) (config_path : option string)
    (self : SigmondConfig) (args : list string) :
  __init__ w environ config_path = Ok self ->
  get_cmake_args self = Ok args ->
  (recognized environ "SIGMOND_SKIP_QUERY" = true -> In "-DSKIP_SIGMOND_QUERY=ON" args) /\
  (recognized environ "SIGMOND_SKIP_BATCH" = true -> In "-DSKIP_SIGMOND_BATCH=ON" args) /\
  (recognized environ "SIGMOND_VERBOSE" = true ->
     In "-DSIGMOND_VERBOSE=ON" args /\ In "-DCMAKE_FIND_DEBUG_MODE=ON" args) /\
  (nonempty (environ_get environ "DEFAULTENSFILE") = true ->
     In ("-DDEFAULTENSFILE=" +:+ environ_get environ "DEFAULTENSFILE") args).
Proof.
  intros (Hov & _)%init_inv
         (core & control & verbose & testing & install & ens & extra & libs & comp
          & -> & Hcore & Hcontrol & Hverbose & _ & _ & Hens & _)%get_cmake_args_blocks.
  apply args_core_shape in Hcore as (p & n & f & Hp & _ & _ & ->).
  destruct (section_item_inv _ _ _ Hp) as (b' & Hb' & _).
  assert (exists b, dict_lookup "build" (_load_config w environ config_path)
                    = Some (VDict b)) as (b & Hb).
  { destruct (apply_env_overrides_inv _ _ _ Hov) as [E|?]; [|done].
    rewrite <- E. eauto. }
  destruct (apply_env_overrides_table environ _ b Hb) as (c & b1 & Hc & Hb1 & _ & Hk).
  rewrite Hov in Hc. injection Hc as <-. rewrite Hb' in Hb1. injection Hb1 as <-.
  apply args_build_control_flags in Hcontrol as (q & bt & m & g & Hq & Hbt & _ & _ & ->).
  split_and!.
  - intros Hr.
    rewrite (flag_if_set self b' _ _ (VBool true)) in Hq; [| done | | done].
    + injection Hq as <-. rewrite !in_app_iff. simpl. tauto.
    + rewrite Hk, (env_layer_value_flag environ "SIGMOND_SKIP_QUERY"), Hr;
        [done | simpl; tauto].
  - intros Hr.
    rewrite (flag_if_set self b' _ _ (VBool true)) in Hbt; [| done | | done].
    + injection Hbt as <-. rewrite !in_app_iff. simpl. tauto.
    + rewrite Hk, (env_layer_value_flag environ "SIGMOND_SKIP_BATCH"), Hr;
        [done | simpl; tauto].
  - intros Hr. unfold args_verbose in Hverbose.
    rewrite (section_item_lookup self b' "verbose" (VBool true)) in Hverbose; [|done|].
    + injection Hverbose as <-. rewrite !in_app_iff. simpl. tauto.
    + rewrite Hk, (env_layer_value_flag environ "SIGMOND_VERBOSE"), Hr;
        [done | simpl; tauto].
  - intros Hr. unfold args_default_ens_file in Hens. simpl in Hens.
    rewrite Hb' in Hens. simpl in Hens. rewrite Hk in Hens.
    unfold env_layer_value in Hens. rewrite Hr in Hens. simpl in Hens.
    unfold nonempty in Hr. rewrite Hr in Hens. injection Hens as <-.
    rewrite !in_app_iff. simpl. tauto.
Qed.

Lemma X9_environment_reaches_flag_vector_witness :
  exists self args,
    __init__ (world_with_file None full_config)
      {[ "SIGMOND_SKIP_BATCH" := "yes"; "DEFAULTENSFILE" := "mine.xml" ]} None = Ok self /\
    get_cmake_args self = Ok args /\
    In "-DSKIP_SIGMOND_BATCH=ON" args /\
    In "-DDEFAULTENSFILE=mine.xml" args.
Proof.
  set (environ := {[ "SIGMOND_SKIP_BATCH" := "yes"; "DEFAULTENSFILE" := "mine.xml" ]}
                  : gmap string string).
  destruct (__init__ (world_with_file None full_config) environ None) as [self|] eqn:Hi;
    [|by vm_compute in Hi].
  destruct (get_cmake_args self) as [args|] eqn:Ha.
  2:{ assert (Hn : (self0 ← __init__ (world_with_file None full_config) environ None;
                    get_cmake_args self0) = Raise e) by (by rewrite Hi).
      by vm_compute in Hn. }
  destruct (X9_environment_reaches_flag_vector _ _ _ _ _ Hi Ha) as (_ & Hb & _ & He).
  exists self, args. split_and!; [done | done | |].
  - apply Hb. vm_compute. reflexivity.
  - assert (Hv : environ_get environ "DEFAULTENSFILE" = "mine.xml")
      by (vm_compute; reflexivity).
    rewrite Hv in He. by apply He.
Defined.

(** *** From the flag vector to the cache variables *)

Lemma str_contains_char c a k :
  str_contains (String c "") (String a k) = Ascii.eqb a c || str_contains (String c "") k.
Proof.
  simpl. destruct (ascii_dec c a) as [->|Hne].
  - rewrite Ascii.eqb_refl. by destruct k.
  - by destruct (Ascii.eqb_spec a c) as [->|].
Qed.

Lemma split_once_app c k r :
  str_contains (String c "") k = false ->
  split_once c (k +:+ String c r) = Some (k, r).
Proof.
  induction k as [|a k IH].
  - intros _. simpl. by rewrite Ascii.eqb_refl.
  - rewrite str_contains_char. intros [Ha Hk]%orb_false_iff.
    simpl. by rewrite Ha, IH.
Qed.

Lemma split_once_none c k :
  str_contains (String c "") k = false -> split_once c k = None.
Proof.
  induction k as [|a k IH]; [done|].
  rewrite str_contains_char. intros [Ha Hk]%orb_false_iff.
  simpl. by rewrite Ha, IH.
Qed.

Lemma fold_arg_definition cv body :
  fold_arg cv ("-D" +:+ body)
  = match split_once "=" body with
    | Some (k, v) => dict_set k (VStr v) cv
    | None => dict_set body (VStr "ON") cv
    end.
Proof. unfold fold_arg, startswith. simpl. by destruct body. Qed.

(** X10: a definition the renderer builds from a key and a value is
    taken apart again by the loop of the cache writer, when the key has
    no equals sign: the key gets the value, equals signs of the value
    included, and a bare name gets [ON]. *)
Theorem X10_definition_round_trip (cache_vars : dict) (k v : string) :
  str_contains "=" k = false ->
  fold_arg cache_vars ("-D" +:+ k +:+ "=" +:+ v) = dict_set k (VStr v) cache_vars /\
  fold_arg cache_vars ("-D" +:+ k) = dict_set k (VStr "ON") cache_vars /\
  (forall x, fold_arg cache_vars (render_pair (k, x))
             = dict_set k (VStr (coerce_value x)) cache_vars).
Proof.
  intros Hk.
  assert (H : forall v, fold_arg cache_vars ("-D" +:+ k +:+ "=" +:+ v)
                        = dict_set k (VStr v) cache_vars).
  { intros v'. rewrite fold_arg_definition. simpl.
    by rewrite (split_once_app "=" k v' Hk). }
  split_and!; [apply H | | intros x; apply H].
  by rewrite fold_arg_definition, (split_once_none "=" k Hk).
Qed.

Lemma X10_definition_round_trip_witness :
  fold_arg [] "-DCMAKE_CXX_FLAGS=-O2 -DNDEBUG=1"
  = [("CMAKE_CXX_FLAGS", VStr "-O2 -DNDEBUG=1")].
Proof.
  apply (X10_definition_round_trip [] "CMAKE_CXX_FLAGS" "-O2 -DNDEBUG=1"). reflexivity.
Defined.

Lemma fold_arg_def cv arg :
  fold_arg cv arg
  = match arg_def arg with
    | Some (k, v) => dict_set k (VStr v) cv
    | None => cv
    end.
Proof.
  unfold fold_arg, arg_def. destruct (startswith "-D" arg); [|done].
  by destruct (split_once "=" (drop_chars 2 arg)) as [[k v]|].
Qed.

Lemma fold_args_lookup k post cv :
  Forall (fun a => defines k a = false) post ->
  dict_lookup k (fold_left fold_arg post cv) = dict_lookup k cv.
Proof.
  intros H. revert cv. induction H as [|a post Ha _ IH]; intros cv; [done|].
  simpl. rewrite IH, fold_arg_def. unfold defines in Ha.
  destruct (arg_def a) as [[k' v]|]; [|done].
  apply dict_lookup_set_ne. intros <-. by rewrite String.eqb_refl in Ha.
Qed.

Lemma cache_vars_of_folded self w environ cv :
  cache_vars_of self w environ false = Ok cv ->
  exists args,
    get_cmake_args self = Ok args /\
    rendered cv = rendered (fold_left fold_arg args (initial_cache_vars environ)).
Proof.
  unfold cache_vars_of. fold (initial_cache_vars environ).
  destruct (get_cmake_args self) as [args|e] eqn:Hargs; [|done].
  cbn [mbind result_bind]. set (cv0 := fold_left fold_arg args _).
  intros H. bind_inv H. exists args. split; [done|].
  pose proof (compiler_var_rendered self "c_compiler" "CMAKE_C_COMPILER" cv0 w) as H1.
  rewrite Ha in H1. destruct (compiler_var_raises self "c_compiler").
  { assert (Ok a = Raise e); [|done]. apply H1. intros d v Hc Hv Ht. unfold cv0.
    by rewrite (folded_compilers self d args _ "c_compiler" _ v); auto. }
  destruct H1 as (cv1 & [= <-] & R1).
  { intros d v Hc Hv Ht. unfold cv0.
    by rewrite (folded_compilers self d args _ "c_compiler" _ v); auto. }
  pose proof (compiler_var_rendered self "cxx_compiler" "CMAKE_CXX_COMPILER" a w) as H2.
  rewrite H in H2.
  assert (Hpre : forall d v,
    dict_lookup "compiler" (config self) = Some (VDict d) ->
    dict_lookup "cxx_compiler" d = Some v -> truthy v = true ->
    py_str <$> dict_lookup "CMAKE_CXX_COMPILER" a = Some (py_str v)).
  { intros d v Hc Hv Ht. rewrite (rendered_lookup a cv0 _ R1). unfold cv0.
    by rewrite (folded_compilers self d args _ "cxx_compiler" _ v); auto. }
  specialize (H2 Hpre). destruct (compiler_var_raises self "cxx_compiler"); [done|].
  destruct H2 as (cv2 & [= <-] & R2). by rewrite R2, R1.
Qed.

(** X11: every definition of the flag vector reaches the cache file:
    the variable it names is written with its value, unless a later
    argument defines the variable again; and so a definition of the
    configuration overrides the suggestion taken from the Conda
    prefix. *)
Theorem X11_later_definition_wins
    (self : SigmondConfig) (w : world) (environ : gmap string string)
    (cache_vars : dict) (pre post : list string) (arg k v : string) :
  cache_vars_of self w environ false = Ok cache_vars ->
  get_cmake_args self = Ok (pre ++ arg :: post) ->
  arg_def arg = Some (k, v) ->
  Forall (fun a => defines k a = false) post ->
  py_str <$> dict_lookup k cache_vars = Some v.
Proof.
  intros (args & Hargs & R)%cache_vars_of_folded Hargs' Hdef Hpost.
  rewrite Hargs in Hargs'. injection Hargs' as ->.
  rewrite (rendered_lookup _ _ k R), fold_left_app. cbn [fold_left].
  by rewrite (fold_args_lookup k post _ Hpost), fold_arg_def, Hdef, dict_lookup_set_eq.
Qed.

Lemma X11_later_definition_wins_witness :
  exists cache_vars,
    cache_vars_of hdf5_twice (bare_world None) {[ "CONDA_PREFIX" := "/conda" ]} false
    = Ok cache_vars /\
    dict_lookup "HDF5_ROOT" (initial_cache_vars {[ "CONDA_PREFIX" := "/conda" ]})
    = Some (VStr "/conda") /\
    py_str <$> dict_lookup "HDF5_ROOT" cache_vars = Some "/opt/hdf5".
Proof.
  destruct (cache_vars_of hdf5_twice (bare_world None) {[ "CONDA_PREFIX" := "/conda" ]}
              false) as [cache_vars|] eqn:H; [|by vm_compute in H].
  exists cache_vars. split; [done|]. split; [vm_compute; reflexivity|].
  apply (X11_later_definition_wins hdf5_twice (bare_world None)
           {[ "CONDA_PREFIX" := "/conda" ]} cache_vars
           ["-DPRECISION=double"; "-DNUMBERS=complex"; "-DDEFAULT_FILE_FORMAT=hdf5";
            "-DENABLE_TESTING=ON"]
           ["-DCMAKE_C_COMPILER=/usr/bin/cc"] "-DHDF5_ROOT=/opt/hdf5");
    [done | reflexivity | reflexivity | by repeat constructor].
Defined.

Lemma dict_set_keys_in x k v d : In x (keys (dict_set k v d)) -> x = k \/ In x (keys d).
Proof.
  unfold keys. induction d as [|[k' v'] d IH]; simpl; [intuition congruence|].
  destruct (String.eqb_spec k k') as [->|Hne]; simpl; [intuition congruence|].
  intros [->|H]; tauto.
Qed.

Lemma dict_set_keys_NoDup k v d : List.NoDup (keys d) -> List.NoDup (keys (dict_set k v d)).
Proof.
  unfold keys. induction d as [|[k' v'] d IH]; simpl.
  - intros _. constructor; [tauto | constructor].
  - rewrite List.NoDup_cons_iff. intros [Hnotin Hd].
    destruct (String.eqb_spec k k') as [->|Hne]; simpl;
      rewrite List.NoDup_cons_iff; [done|].
    split; [|by apply IH]. intros [->|H]%dict_set_keys_in; [done|]. by apply Hnotin.
Qed.

Lemma dict_update_keys_NoDup d e : List.NoDup (keys d) -> List.NoDup (keys (dict_update d e)).
Proof.
  unfold dict_update. revert d. induction e as [|[k v] e IH]; intros d Hd; [done|].
  simpl. apply IH. by apply dict_set_keys_NoDup.
Qed.

Lemma fold_args_keys_NoDup args cv :
  List.NoDup (keys cv) -> List.NoDup (keys (fold_left fold_arg args cv)).
Proof.
  revert cv. induction args as [|a args IH]; intros cv Hcv; [done|].
  simpl. apply IH. rewrite fold_arg_def.
  destruct (arg_def a) as [[k v]|]; [by apply dict_set_keys_NoDup | done].
Qed.

Lemma initial_cache_vars_NoDup environ : List.NoDup (keys (initial_cache_vars environ)).
Proof.
  assert (H : List.NoDup (keys base_cache_vars)).
  { unfold keys. simpl. repeat (constructor; [simpl; intuition discriminate|]). constructor. }
  unfold initial_cache_vars. destruct (nonempty _); [|done].
  by apply dict_update_keys_NoDup.
Qed.

Lemma rendered_keys d d' : rendered d = rendered d' -> keys d = keys d'.
Proof.
  unfold rendered, keys. intros H.
  apply (f_equal (map fst)) in H. by rewrite !map_map in H.
Qed.

(** X12: the cache file sets every variable once: no two of the
    variables written have the same name, whatever the flag vector
    repeats. *)
Theorem X12_cache_variables_are_distinct
    (self : SigmondConfig) (w : world) (environ : gmap string string)
    (clear_cache : bool) (cache_vars : dict) :
  cache_vars_of self w environ clear_cache = Ok cache_vars ->
  List.NoDup (keys cache_vars).
Proof.
  destruct clear_cache.
  - unfold cache_vars_of. fold (initial_cache_vars environ). intros H. bind_inv H.
    injection H as <-. do 2 apply dict_set_keys_NoDup.
    apply fold_args_keys_NoDup, initial_cache_vars_NoDup.
  - intros (args & _ & R)%cache_vars_of_folded. rewrite (rendered_keys _ _ R).
    apply fold_args_keys_NoDup, initial_cache_vars_NoDup.
Qed.

Lemma X12_cache_variables_are_distinct_witness :
  exists cache_vars,
    cache_vars_of hdf5_twice (bare_world None) {[ "CONDA_PREFIX" := "/conda" ]} false
    = Ok cache_vars /\
    List.NoDup (keys cache_vars).
Proof.
  destruct (cache_vars_of hdf5_twice (bare_world None) {[ "CONDA_PREFIX" := "/conda" ]}
              false) as [cache_vars|] eqn:H; [|by vm_compute in H].
  exists cache_vars. split; [done|].
  exact (X12_cache_variables_are_distinct _ _ _ _ _ H).
Defined.

(** X13: with [clear_cache] the two compiler variables are written
    empty, whatever the configuration and the extra definitions say of
    them, and every other variable is written as without it. *)
Theorem X13_clear_cache_blanks_the_compilers
    (self : SigmondConfig) (w : world) (environ : gmap string string)
    (cleared kept : dict) :
  cache_vars_of self w environ true = Ok cleared ->
  cache_vars_of self w environ false = Ok kept ->
  dict_lookup "CMAKE_C_COMPILER" cleared = Some (VStr "") /\
  dict_lookup "CMAKE_CXX_COMPILER" cleared = Some (VStr "") /\
  (forall k, k <> "CMAKE_C_COMPILER" -> k <> "CMAKE_CXX_COMPILER" ->
             py_str <$> dict_lookup k cleared = py_str <$> dict_lookup k kept).
Proof.
  intros Hc (args & Hargs & R)%cache_vars_of_folded.
  unfold cache_vars_of in Hc. fold (initial_cache_vars environ) in Hc.
  rewrite Hargs in Hc. injection Hc as <-. unfold dict_update. cbn [fold_left fst snd].
  split_and!.
  - by rewrite dict_lookup_set_ne, dict_lookup_set_eq.
  - apply dict_lookup_set_eq.
  - intros k H1 H2. rewrite (rendered_lookup _ _ k R).
    by rewrite !dict_lookup_set_ne.
Qed.

Lemma X13_clear_cache_blanks_the_compilers_witness :
  exists cleared kept,
    cache_vars_of hdf5_twice (bare_world None) ∅ true = Ok cleared /\
    cache_vars_of hdf5_twice (bare_world None) ∅ false = Ok kept /\
    dict_lookup "CMAKE_C_COMPILER" cleared = Some (VStr "") /\
    dict_lookup "CMAKE_C_COMPILER" kept = Some (VStr "/usr/bin/cc").
Proof.
  destruct (cache_vars_of hdf5_twice (bare_world None) ∅ true) as [cleared|] eqn:Hc;
    [|by vm_compute in Hc].
  destruct (cache_vars_of hdf5_twice (bare_world None) ∅ false) as [kept|] eqn:Hk;
    [|by vm_compute in Hk].
  exists cleared, kept. split_and!; [done | done | |].
  - apply (X13_clear_cache_blanks_the_compilers _ _ _ _ _ Hc Hk).
  - vm_compute in Hk. by injection Hk as <-.
Defined.

(** X14: a value as the cache writer quotes it cannot end the quoted
    argument early: it has no double quote but after a backslash, and
    no backslash but before a double quote. *)
Theorem X14_quoted_value_is_escaped (s : string) : well_escaped (_q s) = true.
Proof.
  rewrite q_sanitize. induction s as [|c s IH]; [done|].
  cbn [sanitize]. unfold sanitize_char.
  destruct (Ascii.eqb_spec c backslash) as [->|Hb]; [exact IH|].
  destruct (Ascii.eqb_spec c dquote) as [->|Hq]; [exact IH|].
  cbn [String.append well_escaped].
  destruct (Ascii.eqb_spec c backslash); [done|].
  destruct (Ascii.eqb_spec c dquote); [done|]. exact IH.
Qed.

(** *** The job count and the optional libraries of a validated tree *)

Lemma flag_if_In self key flag s v :
  flag_if self key flag [] = Ok s ->
  section_item self "build" key = Ok v -> truthy v = true -> In flag s.
Proof.
  unfold flag_if. intros H Hv Ht. rewrite Hv in H. simpl in H. rewrite Ht in H.
  injection H as <-. simpl. tauto.
Qed.



(** X16: the list of enabled optional libraries agrees with the two
    renderers: a library is listed exactly when the compiler
    definitions of [config_reader.py] leave out its [NO] definition, and
    then the flag vector of [configure.py] has its [ENABLE]
    definition. *)
Theorem X16_enabled_libraries_agree
    (self : SigmondConfig) (enabled_libs definitions : list string) :
  _get_enabled_optional_libraries self = Ok enabled_libs ->
  ConfigReader.get_compiler_definitions self = Ok definitions ->
  sublist enabled_libs ["minuit2"; "grace"] /\
  (In "minuit2" enabled_libs <-> ~ In "NO_MINUIT" definitions) /\
  (In "grace" enabled_libs <-> ~ In "NOGRACE" definitions) /\
  (forall args, get_cmake_args self = Ok args ->
     (In "minuit2" enabled_libs -> In "-DENABLE_MINUIT=ON" args) /\
     (In "grace" enabled_libs -> In "-DENABLE_GRACE=ON" args)).
Proof.
  unfold _get_enabled_optional_libraries. intros He Hd.
  bind_inv He. bind_inv He. rename a into m, a0 into g. injection He as <-.
  assert (Hargs : forall args, get_cmake_args self = Ok args ->
            (truthy m = true -> In "-DENABLE_MINUIT=ON" args) /\
            (truthy g = true -> In "-DENABLE_GRACE=ON" args)).
  { intros args
      (core & control & verbose & testing & install & ens & extra & libs & comp
       & -> & _ & Hcontrol & _)%get_cmake_args_blocks.
    apply args_build_control_flags in Hcontrol as (q & bt & m' & g' & _ & _ & Hm & Hg & ->).
    split; intros Ht; rewrite !in_app_iff.
    - pose proof (flag_if_In _ _ _ _ _ Hm Ha Ht). tauto.
    - pose proof (flag_if_In _ _ _ _ _ Hg Ha0 Ht). tauto. }
  unfold ConfigReader.get_compiler_definitions, ConfigReader.remove_if in Hd.
  do 8 bind_inv Hd. bind_inv Hd. rename a7 into sb.
  rewrite Ha in Ha7. rewrite Ha0 in Ha8. cbn [mbind result_bind] in Ha7, Ha8.
  destruct (String.eqb a0 "single"), (String.eqb a2 "real"), (String.eqb a4 "fstream"),
    (truthy m) eqn:Em, (truthy g) eqn:Eg, (truthy sb);
    cbn [xorb negb app list_remove String.eqb Ascii.eqb Bool.eqb mbind result_bind] in Ha7;
    injection Ha7 as <-;
    cbn [xorb negb app list_remove String.eqb Ascii.eqb Bool.eqb mbind result_bind] in Ha8;
    injection Ha8 as <-;
    cbn [xorb negb app list_remove String.eqb Ascii.eqb Bool.eqb mbind result_bind] in Hd;
    injection Hd as <-;
    (split_and!;
     [ repeat first [apply sublist_nil | apply sublist_skip | apply sublist_cons]
     | simpl; intuition congruence
     | simpl; intuition congruence
     | intros args Hx; destruct (Hargs args Hx); split; intros Hin; auto;
       simpl in Hin; intuition congruence ]).
Qed.

Lemma X16_enabled_libraries_agree_witness :
  exists enabled_libs definitions,
    _get_enabled_optional_libraries {| config := full_config |} = Ok enabled_libs /\
    ConfigReader.get_compiler_definitions {| config := full_config |} = Ok definitions /\
    enabled_libs = ["minuit2"] /\ ~ In "NO_MINUIT" definitions /\ In "NOGRACE" definitions.
Proof.
  destruct (ConfigReader.get_compiler_definitions {| config := full_config |})
    as [definitions|] eqn:Hd; [|by vm_compute in Hd].
  destruct (X16_enabled_libraries_agree {| config := full_config |} ["minuit2"]
              definitions eq_refl Hd) as (_ & Hm & Hg & _).
  exists ["minuit2"], definitions. split_and!; [done | done | done | |].
  - apply Hm. simpl. tauto.
  - destruct (in_dec string_dec "NOGRACE" definitions) as [Hin|Hout]; [done|].
    apply Hg in Hout. simpl in Hout. intuition discriminate.
Defined.

(** *** The flag vector of [config_reader.py] *)

Lemma dirs_def_appends cfg key name : appends (ConfigReader.dirs_def cfg key name).
Proof.
  unfold ConfigReader.dirs_def. apply appends_bind; intros x.
  apply appends_if; [|apply appends_skip].
  apply appends_bind; intros v. apply appends_bind; intros dirs. apply appends_entries.
Qed.

Lemma dirs_def_shape cfg key name s :
  ConfigReader.dirs_def cfg key name [] = Ok s ->
  s = [] \/ exists v, s = [("-D" +:+ name +:+ "=") +:+ v].
Proof.
  unfold ConfigReader.dirs_def. intros H. bind_inv H. destruct (truthy a).
  - do 2 bind_inv H. injection H as <-. right. exists a1.
    simpl. by rewrite !app_assoc_str.
  - injection H as <-. by left.
Qed.

Lemma include_and_library_dirs_appends self lib name :
  appends (ConfigReader.include_and_library_dirs self lib name).
Proof.
  unfold ConfigReader.include_and_library_dirs.
  apply appends_bind; intros libs. apply appends_bind; intros lib_config.
  apply (appends_seq (ConfigReader.dirs_def _ _ _)); apply dirs_def_appends.
Qed.

Lemma include_and_library_dirs_shape self lib name s :
  ConfigReader.include_and_library_dirs self lib name [] = Ok s ->
  sparse_of [ "-D" +:+ ("SIGMOND_" +:+ name +:+ "_INCLUDE_DIR") +:+ "=";
              "-D" +:+ ("SIGMOND_" +:+ name +:+ "_LIBRARY_DIR") +:+ "=" ] s.
Proof.
  unfold ConfigReader.include_and_library_dirs. intros H. do 3 bind_inv H.
  apply (appends_Ok _ _ _ (dirs_def_appends _ _ _)) in H as (s2 & Hs2 & ->).
  apply dirs_def_shape in Ha1, Hs2.
  apply (sparse_of_app [_] [_]); by apply sparse_of_single.
Qed.

Lemma optional_library_dirs_appends self enable lib name :
  appends (ConfigReader.optional_library_dirs self enable lib name).
Proof.
  unfold ConfigReader.optional_library_dirs. apply appends_bind; intros en.
  apply appends_bind; intros present.
  apply appends_if; [apply include_and_library_dirs_appends | apply appends_skip].
Qed.

Lemma optional_library_dirs_shape self enable lib name s :
  ConfigReader.optional_library_dirs self enable lib name [] = Ok s ->
  sparse_of [ "-D" +:+ ("SIGMOND_" +:+ name +:+ "_INCLUDE_DIR") +:+ "=";
              "-D" +:+ ("SIGMOND_" +:+ name +:+ "_LIBRARY_DIR") +:+ "=" ] s.
Proof.
  unfold ConfigReader.optional_library_dirs. intros H. do 2 bind_inv H. destruct a0.
  - by apply include_and_library_dirs_shape in H.
  - injection H as <-. repeat constructor.
Qed.

Lemma library_dirs_appends self lib key name :
  appends (ConfigReader.library_dirs self lib key name).
Proof.
  unfold ConfigReader.library_dirs. apply appends_bind; intros libs.
  apply appends_bind; intros present.
  apply appends_if; [|apply appends_skip].
  apply appends_bind; intros libs'. apply appends_bind; intros lib_config.
  apply dirs_def_appends.
Qed.

Lemma library_dirs_shape self lib key name s :
  ConfigReader.library_dirs self lib key name [] = Ok s ->
  s = [] \/ exists v, s = [("-D" +:+ name +:+ "=") +:+ v].
Proof.
  unfold ConfigReader.library_dirs. intros H. do 2 bind_inv H. destruct a0.
  - do 2 bind_inv H. by apply dirs_def_shape in H.
  - injection H as <-. by left.
Qed.

Lemma sparse_of_flag flag s : s = [] \/ s = [flag] -> sparse_of [flag] s.
Proof.
  intros [-> | ->]; [apply sparse_skip, sparse_nil|].
  rewrite <- (app_empty_r flag) at 2. apply sparse_emit, sparse_nil.
Qed.

(** X17: the flag vector of the older copy is a selection, in their
    fixed order, of twelve definitions, each at most once: the two skip
    switches, the two install directories, the HDF5 root and the
    directories of the libraries.  It never carries the precision, the
    numbers type, the file format or a definition of the user. *)
Theorem X17_reader_flag_vector_order (self : SigmondConfig) (args : list string) :
  ConfigReader.get_cmake_args self = Ok args ->
  sparse_of reader_prefixes args.
Proof.
  unfold ConfigReader.get_cmake_args. intros H. do 7 bind_inv H.
  apply (appends_Ok _ _ _ (flag_if_appends _ _ _)) in Ha0 as (s2 & Hs2 & ->).
  apply (appends_Ok _ _ _ (install_dir_appends _ _ _)) in Ha1 as (s3 & Hs3 & ->).
  apply (appends_Ok _ _ _ (install_dir_appends _ _ _)) in Ha2 as (s4 & Hs4 & ->).
  apply (appends_Ok _ _ _ (library_path_appends _ _ _ _)) in Ha3 as (s5 & Hs5 & ->).
  apply bind_Ok in H as (l6 & Hl6 & H).
  assert (exists s6, l6 = ((((a ++ s2) ++ s3) ++ s4) ++ s5) ++ s6 /\
                     sparse_of ["-DSIGMOND_LAPACK_INCLUDE_DIR=";
                                "-DSIGMOND_LAPACK_LIBRARY_DIR="] s6) as (s6 & -> & Hs6).
  { destruct a5.
    - apply (appends_Ok _ _ _ (include_and_library_dirs_appends _ _ _)) in Hl6
        as (s6 & Hs6 & ->).
      exists s6. split; [done|]. by apply include_and_library_dirs_shape in Hs6.
    - injection Hl6 as <-. exists []. split; [by rewrite app_nil_r|].
      repeat constructor. }
  apply bind_Ok in H as (l7 & Hl7 & H). apply bind_Ok in H as (l8 & Hl8 & H).
  apply (appends_Ok _ _ _ (optional_library_dirs_appends _ _ _ _)) in Hl7 as (s7 & Hs7 & ->).
  apply (appends_Ok _ _ _ (optional_library_dirs_appends _ _ _ _)) in Hl8 as (s8 & Hs8 & ->).
  apply (appends_Ok _ _ _ (library_dirs_appends _ _ _ _)) in H as (s9 & Hs9 & ->).
  apply flag_if_shape, sparse_of_flag in Ha, Hs2.
  apply install_dir_shape, sparse_of_single in Hs3, Hs4.
  apply library_path_shape, sparse_of_single in Hs5.
  apply optional_library_dirs_shape in Hs7, Hs8.
  apply library_dirs_shape, sparse_of_single in Hs9.
  rewrite <- !app_assoc.
  apply (sparse_of_app [_]); [done|]. apply (sparse_of_app [_]); [done|].
  apply (sparse_of_app [_]); [done|]. apply (sparse_of_app [_]); [done|].
  apply (sparse_of_app [_]); [done|]. apply (sparse_of_app [_; _]); [done|].
  apply (sparse_of_app [_; _]); [done|]. by apply (sparse_of_app [_; _] [_]).
Qed.

Lemma X17_reader_flag_vector_order_witness :
  ConfigReader.get_cmake_args {| config := reader_config |}
  = Ok ["-DSKIP_SIGMOND_BATCH=ON"; "-DSIGMOND_QUERY_INSTALL_DIR=/opt/bin";
        "-DSIGMOND_LAPACK_LIBRARY_DIR=/usr/lib;/opt/lib";
        "-DSIGMOND_MINUIT2_INCLUDE_DIR=a;b"] /\
  sparse_of reader_prefixes
    ["-DSKIP_SIGMOND_BATCH=ON"; "-DSIGMOND_QUERY_INSTALL_DIR=/opt/bin";
     "-DSIGMOND_LAPACK_LIBRARY_DIR=/usr/lib;/opt/lib";
     "-DSIGMOND_MINUIT2_INCLUDE_DIR=a;b"].
Proof.
  split; [reflexivity|].
  apply (X17_reader_flag_vector_order {| config := reader_config |}). reflexivity.
Defined.

Lemma strings_of_strs dirs : strings_of (map VStr dirs) = Ok dirs.
Proof. induction dirs as [|s dirs IH]; simpl; [done | by rewrite IH]. Qed.

Lemma strings_of_chars s : strings_of (chars s) = Ok (code_points s).
Proof. apply strings_of_strs. Qed.

Lemma code_points_ascii s :
  ascii_only s = true ->
  code_points s = map (fun c => String c "") (list_ascii_of_string s).
Proof.
  unfold ascii_only. induction s as [|c s IH]; [done|].
  cbn [list_ascii_of_string forallb map]. intros [Hc Hs]%andb_true_iff.
  cbn [code_points]. destruct s as [|d s]; [done|].
  assert (is_continuation d = false) as ->.
  { cbn [list_ascii_of_string forallb] in Hs. apply andb_true_iff in Hs as [Hd _].
    unfold is_continuation. apply N.ltb_lt in Hd.
    apply andb_false_iff. left. apply N.leb_gt. lia. }
  by rewrite IH.
Qed.

(** X18: how the older copy renders the directories of a library: a
    list of strings is joined with semicolons in its order; a string
    given in place of the list is joined character by character, code
    point by code point; an entry that is not a string, or a number in
    place of the list, is a [TypeError]. *)
Theorem X18_directories_joined
    (d : dict) (key name : string) (args : list string) (v : value) :
  dict_lookup key d = Some v ->
  truthy v = true ->
  (forall dirs, v = VList (map VStr dirs) ->
     ConfigReader.dirs_def (VDict d) key name args
     = Ok (args ++ [dirs_definition name dirs])) /\
  (forall s, v = VStr s ->
     ConfigReader.dirs_def (VDict d) key name args
     = Ok (args ++ [dirs_definition name (code_points s)])) /\
  (forall s, v = VStr s -> ascii_only s = true ->
     ConfigReader.dirs_def (VDict d) key name args
     = Ok (args ++ [dirs_definition name
                      (map (fun c => String c "") (list_ascii_of_string s))])) /\
  (forall l1 x l2, v = VList (map VStr l1 ++ x :: l2) -> is_str x = false ->
     ConfigReader.dirs_def (VDict d) key name args = Raise TypeError) /\
  (forall n, v = VInt n ->
     ConfigReader.dirs_def (VDict d) key name args = Raise TypeError).
Proof.
  intros Hv Ht. unfold ConfigReader.dirs_def, join_value, dirs_definition.
  cbn [get getitem mbind result_bind default from_option id].
  rewrite Hv. cbn [default from_option id mbind result_bind]. rewrite Ht.
  split_and!.
  - intros dirs ->. cbn [iterate mbind result_bind]. by rewrite strings_of_strs.
  - intros s ->. cbn [iterate mbind result_bind]. by rewrite strings_of_chars.
  - intros s -> Hs. cbn [iterate mbind result_bind].
    by rewrite strings_of_chars, (code_points_ascii s Hs).
  - intros l1 x l2 -> Hx. cbn [iterate mbind result_bind].
    assert (strings_of (map VStr l1 ++ x :: l2) = Raise TypeError) as ->; [|done].
    clear Hv Ht. induction l1 as [|s l1 IH]; simpl.
    + destruct x; simpl in Hx; done.
    + rewrite IH. reflexivity.
  - by intros n ->.
Qed.

Lemma X18_directories_joined_witness :
  ConfigReader.dirs_def (VDict [("include_dirs", VStr e_acute_slash)]) "include_dirs"
    "SIGMOND_LAPACK_INCLUDE_DIR" []
  = Ok ["-DSIGMOND_LAPACK_INCLUDE_DIR="
          +:+ String "195" (String "169" (String ";" (String "/" "")))].
Proof.
  destruct (X18_directories_joined [("include_dirs", VStr e_acute_slash)] "include_dirs"
              "SIGMOND_LAPACK_INCLUDE_DIR" [] (VStr e_acute_slash) eq_refl eq_refl)
    as (_ & H & _).
  exact (H e_acute_slash eq_refl).
Defined.

(** *** The presets and the cache file *)

Lemma split_once_some c s :
  str_contains (String c "") s = true -> exists k v, split_once c s = Some (k, v).
Proof.
  induction s as [|a s IH]; [done|].
  rewrite str_contains_char. simpl. destruct (Ascii.eqb a c); [eauto|].
  intros (k & v & ->)%IH. eauto.
Qed.

Lemma preset_fold_arg_eq cv arg : preset_fold_arg cv arg = Ok (fold_arg cv arg).
Proof.
  unfold preset_fold_arg. destruct (startswith "-D" arg) eqn:E.
  2:{ unfold fold_arg. by rewrite E. }
  apply startswith_spec in E as (body & ->). rewrite fold_arg_definition.
  change (str_contains "=" ("-D" +:+ body)) with (str_contains "=" body).
  change (drop_chars 2 ("-D" +:+ body)) with body.
  destruct (str_contains "=" body) eqn:Ec; cbn [andb].
  - by destruct (split_once_some _ _ Ec) as (k & v & ->).
  - by rewrite (split_once_none _ _ Ec).
Qed.

Lemma preset_fold_args_eq args cv :
  preset_fold_args args cv = Ok (fold_left fold_arg args cv).
Proof.
  revert cv. induction args as [|a args IH]; intros cv; [done|].
  simpl. rewrite preset_fold_arg_eq. simpl. apply IH.
Qed.

Lemma preset_compiler_var_inv w self key var cv cv' :
  preset_compiler_var w self key var cv = Ok cv' ->
  exists d c,
    dict_lookup "compiler" (config self) = Some (VDict d) /\
    dict_lookup key d = Some c /\
    (truthy c = false \/ exists s, c = VStr s) /\
    (cv' = cv \/ (truthy c = true /\ cv' = dict_set var c cv)).
Proof.
  unfold preset_compiler_var, section_item. cbn [getitem mbind result_bind].
  destruct (dict_lookup "compiler" (config self)) as [[| | | | | |d]|] eqn:Hd;
    try discriminate.
  cbn [getitem mbind result_bind].
  destruct (dict_lookup key d) as [c|] eqn:Hc; [|discriminate]. cbn [mbind result_bind].
  intros H. exists d, c. split_and!; try done.
  - destruct (truthy c); [right | by left]. bind_inv H. bind_inv Ha.
    destruct c; try discriminate. eauto.
  - destruct (truthy c).
    + bind_inv H. injection H as <-. destruct a; auto.
    + injection H as <-. auto.
Qed.

Lemma compiler_var_same w self key var cv d c :
  dict_lookup "compiler" (config self) = Some (VDict d) ->
  dict_lookup key d = Some c ->
  truthy c = false \/ (exists s, c = VStr s) ->
  (truthy c = true -> dict_lookup var cv = Some c) ->
  compiler_var w self key var cv = Ok cv.
Proof.
  intros Hd Hc Hs Hcv. unfold compiler_var. cbn [getitem get mbind result_bind].
  rewrite Hd. cbn [get mbind result_bind]. rewrite Hc.
  cbn [default from_option id mbind result_bind].
  destruct (truthy c) eqn:Ht; [|done].
  destruct Hs as [|(s & ->)]; [done|]. cbn [os_path_exists mbind result_bind].
  destruct (path_exists w s); [|done]. by rewrite (dict_set_id _ _ _ (Hcv eq_refl)).
Qed.

(** X19: the cache file mirrors the presets: when the presets generator
    gets its cache variables, the cache writer gets the same ones, in
    every state of the file system. *)
Theorem X19_cache_mirrors_presets
    (self : SigmondConfig) (w : world) (environ : gmap string string)
    (clear_cache : bool) (cache_vars : dict) :
  preset_cache_vars self w environ clear_cache = Ok cache_vars ->
  forall w', cache_vars_of self w' environ clear_cache = Ok cache_vars.
Proof.
  unfold preset_cache_vars, cache_vars_of. intros H w'.
  destruct (get_cmake_args self) as [args|] eqn:Hargs; [|done].
  cbn [mbind result_bind] in *. rewrite preset_fold_args_eq in H.
  cbn [mbind result_bind] in H. destruct clear_cache; [done|].
  set (cv0 := fold_left fold_arg args _) in *.
  bind_inv H.
  destruct (preset_compiler_var_inv _ _ _ _ _ _ Ha) as (d & c & Hd & Hc & Hs & Hcv).
  destruct (preset_compiler_var_inv _ _ _ _ _ _ H) as (d' & c' & Hd' & Hc' & Hs' & Hcv').
  rewrite Hd in Hd'. injection Hd' as <-.
  assert (Hl : truthy c = true -> dict_lookup "CMAKE_C_COMPILER" cv0 = Some c).
  { intros Ht. destruct Hs as [|(s & ->)]; [congruence|]. unfold cv0.
    by rewrite (folded_compilers self d args _ "c_compiler" _ (VStr s)); auto. }
  assert (Hl' : truthy c' = true -> dict_lookup "CMAKE_CXX_COMPILER" cv0 = Some c').
  { intros Ht. destruct Hs' as [|(s & ->)]; [congruence|]. unfold cv0.
    by rewrite (folded_compilers self d args _ "cxx_compiler" _ (VStr s)); auto. }
  assert (a = cv0) as ->.
  { destruct Hcv as [->|[Ht ->]]; [done|]. by rewrite (dict_set_id _ _ _ (Hl Ht)). }
  assert (cache_vars = cv0) as ->.
  { destruct Hcv' as [->|[Ht ->]]; [done|]. by rewrite (dict_set_id _ _ _ (Hl' Ht)). }
  rewrite (compiler_var_same w' self _ _ cv0 d c) by done.
  cbn [mbind result_bind]. by apply (compiler_var_same w' self _ _ cv0 d c').
Qed.

Lemma X19_cache_mirrors_presets_witness :
  exists cache_vars,
    preset_cache_vars {| config := _default_config (bare_world None) |}
      (bare_world None) ∅ false = Ok cache_vars /\
    cache_vars_of {| config := _default_config (bare_world None) |}
      (world_with_file None []) ∅ false = Ok cache_vars.
Proof.
  destruct (preset_cache_vars {| config := _default_config (bare_world None) |}
              (bare_world None) ∅ false) as [cache_vars|] eqn:H; [|by vm_compute in H].
  exists cache_vars. split; [done|].
  exact (X19_cache_mirrors_presets _ _ _ _ _ H (world_with_file None [])).
Defined.



(** *** The configuration [setup.py] builds with *)

Lemma apply_env_flags_table environ cfg b :
  dict_lookup "build" cfg = Some (VDict b) ->
  exists cfg' b',
    apply_env_flags environ cfg = Ok cfg' /\
    dict_lookup "build" cfg' = Some (VDict b') /\
    (forall s, s <> "build" -> dict_lookup s cfg' = dict_lookup s cfg) /\
    (forall k, dict_lookup k b' = env_flags_value environ k (dict_lookup k b)).
Proof.
  intros H0. unfold apply_env_flags.
  destruct (env_flag_updated environ "SIGMOND_SKIP_QUERY" "skip_query" cfg b H0)
    as (c1 & -> & (? & b1 & ? & H1 & Hs1 & Hk1)). simplify_eq. simpl.
  destruct (env_flag_updated environ "SIGMOND_SKIP_BATCH" "skip_batch" c1 b1 H1)
    as (c2 & -> & (? & b2 & ? & H2 & Hs2 & Hk2)). simplify_eq. simpl.
  destruct (env_flag_updated environ "SIGMOND_VERBOSE" "verbose" c2 b2 H2)
    as (c3 & Hc3 & (? & b3 & ? & H3 & Hs3 & Hk3)). simplify_eq.
  exists c3, b3. split_and!; [done | done | |].
  - intros s Hs. by rewrite Hs3, Hs2, Hs1.
  - intros k. unfold env_flags_value. rewrite Hk3, Hk2, Hk1. done.
Qed.

Lemma env_flags_value_other environ k old :
  str_in k ["skip_query"; "skip_batch"; "verbose"] = false ->
  env_flags_value environ k old = old.
Proof.
  unfold env_flags_value. simpl. rewrite !orb_false_iff. intros (-> & -> & -> & _).
  by rewrite !andb_false_r.
Qed.

Lemma env_flags_value_flag environ var key old :
  In (var, key) env_flags ->
  env_flags_value environ key old
  = if recognized environ var then Some (VBool true) else old.
Proof.
  unfold env_flags_value.
  intros [[= <- <-]|[[= <- <-]|[[= <- <-]|[]]]]; simpl;
    rewrite ?andb_false_r, ?andb_true_r; done.
Qed.

(** X21: with no file loaded, [load_configuration] returns the object of
    [config_reader.py] whenever the module can be imported, and the
    fallback object answers the three switches as that object does; but
    the flag vector of the fallback object is empty, where that object
    defines the skip switches the environment sets. *)
Theorem X21_fallback_agrees_on_switches (w : world) (environ : gmap string string) :
  ConfigReader._load_config w environ None = ConfigReader._default_config w ->
  exists self,
    Setup.load_configuration true w environ = Setup.Loaded self /\
    Setup.should_skip_query (Setup.Loaded self) environ
    = Setup.should_skip_query Setup.FallbackConfig environ /\
    Setup.should_skip_batch (Setup.Loaded self) environ
    = Setup.should_skip_batch Setup.FallbackConfig environ /\
    Setup.is_verbose (Setup.Loaded self) environ
    = Setup.is_verbose Setup.FallbackConfig environ /\
    Setup.get_cmake_args (Setup.Loaded self)
    = Ok ((if Setup.env_switch environ "SIGMOND_SKIP_QUERY"
           then ["-DSKIP_SIGMOND_QUERY=ON"] else []) ++
          (if Setup.env_switch environ "SIGMOND_SKIP_BATCH"
           then ["-DSKIP_SIGMOND_BATCH=ON"] else [])) /\
    Setup.get_cmake_args Setup.FallbackConfig = Ok [].
Proof.
  intros Hload.
  destruct (apply_env_flags_table environ (ConfigReader._default_config w) _ eq_refl)
    as (cfg & b' & Hc & Hb' & Hs & Hk).
  assert (Ht : library_tables cfg b' = true).
  { unfold library_tables, enabled, library_table.
    rewrite !Hk, !env_flags_value_other by reflexivity.
    by rewrite (Hs "libraries"). }
  pose proof (validate_config_collects "include_dirs" "library_dirs"
                {| config := cfg |} b' Hb' Ht) as Hv.
  cbv zeta in Hv. rewrite !Hk, !env_flags_value_other in Hv by reflexivity.
  assert (He : collected_errors (VStr "double") (VStr "complex") (VStr "hdf5")
                 (VInt (cpu_count_or_1 w)) = []).
  { unfold cpu_count_or_1. by destruct (cpu_count w). }
  simpl in Hv. rewrite He in Hv. destruct Hv as (printed & Hv).
  assert (Hflag : forall var key, In (var, key) env_flags ->
            section_item {| config := cfg |} "build" key
            = Ok (VBool (Setup.env_switch environ var))).
  { intros var key Hin. apply (section_item_lookup _ b'); [done|].
    rewrite Hk, (env_flags_value_flag environ var key) by done.
    change (Setup.env_switch environ var) with (recognized environ var).
    destruct Hin as [[= <- <-]|[[= <- <-]|[[= <- <-]|[]]]];
      by destruct (recognized _ _). }
  assert (Hother : forall key, str_in key ["skip_query"; "skip_batch"; "verbose"] = false ->
            dict_lookup key b'
            = tree_lookup (ConfigReader._default_config w) "build" key).
  { intros key Hkey. by rewrite Hk, env_flags_value_other. }
  exists {| config := cfg |}. split_and!.
  - unfold Setup.load_configuration, ConfigReader.__init__.
    rewrite Hload. unfold ConfigReader._apply_env_overrides. rewrite Hc.
    cbn [mbind result_bind]. unfold ConfigReader._validate_config. by rewrite Hv.
  - apply (Hflag "SIGMOND_SKIP_QUERY"). simpl. tauto.
  - apply (Hflag "SIGMOND_SKIP_BATCH"). simpl. tauto.
  - apply (Hflag "SIGMOND_VERBOSE"). simpl. tauto.
  - unfold Setup.get_cmake_args, ConfigReader.get_cmake_args, flag_if, install_dir,
      library_path, ConfigReader.optional_library_dirs, ConfigReader.library_dirs,
      ConfigReader.include_and_library_dirs.
    rewrite (Hflag "SIGMOND_SKIP_QUERY" "skip_query") by (simpl; tauto).
    rewrite (Hflag "SIGMOND_SKIP_BATCH" "skip_batch") by (simpl; tauto).
    rewrite !(section_item_lookup {| config := cfg |} b' "batch_install_dir" (VStr ""))
      by (done || by rewrite Hother).
    rewrite !(section_item_lookup {| config := cfg |} b' "query_install_dir" (VStr ""))
      by (done || by rewrite Hother).
    rewrite !(section_item_lookup {| config := cfg |} b' "enable_minuit" (VBool false))
      by (done || by rewrite Hother).
    rewrite !(section_item_lookup {| config := cfg |} b' "enable_grace" (VBool false))
      by (done || by rewrite Hother).
    cbn [getitem config mbind result_bind]. rewrite (Hs "libraries") by done.
    by destruct (Setup.env_switch environ "SIGMOND_SKIP_QUERY"),
      (Setup.env_switch environ "SIGMOND_SKIP_BATCH").
  - done.
Qed.

Lemma X21_fallback_agrees_on_switches_witness :
  exists self,
    Setup.load_configuration true (bare_world None) {[ "SIGMOND_SKIP_QUERY" := "1" ]}
    = Setup.Loaded self /\
    Setup.should_skip_query (Setup.Loaded self) {[ "SIGMOND_SKIP_QUERY" := "1" ]}
    = Ok (VBool true) /\
    Setup.get_cmake_args (Setup.Loaded self) = Ok ["-DSKIP_SIGMOND_QUERY=ON"] /\
    Setup.get_cmake_args Setup.FallbackConfig = Ok [].
Proof.
  destruct (X21_fallback_agrees_on_switches (bare_world None)
              {[ "SIGMOND_SKIP_QUERY" := "1" ]}
              (load_config_no_file _ (bare_world None) _ None (fun _ => eq_refl)))
    as (self & H1 & H2 & _ & _ & H5 & H6).
  exists self. split_and!; [done | | | done].
  - rewrite H2. vm_compute. reflexivity.
  - rewrite H5. vm_compute. reflexivity.
Defined.

(** X22: the compiler definitions of a loaded configuration are drawn
    from eleven names, [XML] not among them; the list of the fallback
    object has [XML], and so is the list of no loaded configuration. *)
Theorem X22_fallback_definitions_differ
    (self : SigmondConfig) (definitions : list string) :
  Setup.get_compiler_definitions (Setup.Loaded self) = Ok definitions ->
  Forall (fun name => In name definition_names) definitions /\
  ~ In "XML" definitions /\
  (exists fallback,
      Setup.get_compiler_definitions Setup.FallbackConfig = Ok fallback /\
      In "XML" fallback) /\
  Setup.get_compiler_definitions Setup.FallbackConfig <> Ok definitions.
Proof.
  intros Hd.
  assert (Hnames : Forall (fun name => In name definition_names) definitions).
  { unfold Setup.get_compiler_definitions, ConfigReader.get_compiler_definitions,
      ConfigReader.remove_if in Hd.
    do 6 bind_inv Hd. do 2 bind_inv Hd. bind_inv Hd. bind_inv Ha5. bind_inv Ha6.
    destruct (String.eqb a0 "single"), (String.eqb a2 "real"), (String.eqb a4 "fstream"),
      (truthy a8), (truthy a9), (truthy a7);
      cbn [xorb negb app list_remove String.eqb Ascii.eqb Bool.eqb mbind result_bind]
        in Ha5;
      injection Ha5 as <-;
      cbn [xorb negb app list_remove String.eqb Ascii.eqb Bool.eqb mbind result_bind]
        in Ha6;
      injection Ha6 as <-;
      cbn [xorb negb app list_remove String.eqb Ascii.eqb Bool.eqb mbind result_bind]
        in Hd;
      injection Hd as <-;
      repeat (constructor; [simpl; tauto|]); constructor. }
  assert (Hxml : ~ In "XML" definitions).
  { intros Hin. apply (proj1 (List.Forall_forall _ _) Hnames) in Hin.
    simpl in Hin. intuition discriminate. }
  split_and!; [done | done | | ].
  - eexists. split; [reflexivity|]. simpl. tauto.
  - intros [= <-]. apply Hxml. simpl. tauto.
Qed.

Lemma X22_fallback_definitions_differ_witness :
  exists definitions,
    Setup.get_compiler_definitions (Setup.Loaded {| config := full_config |})
    = Ok definitions /\
    ~ In "XML" definitions.
Proof.
  destruct (Setup.get_compiler_definitions (Setup.Loaded {| config := full_config |}))
    as [definitions|] eqn:Hd; [|by vm_compute in Hd].
  exists definitions. split; [done|].
  by destruct (X22_fallback_definitions_differ _ _ Hd) as (_ & H & _).
Defined.

(** *** The flag vector, group by group *)













